(** * The file-ingestion front end of rag-framework: load and parse workflows

    A shallow embedding of the two page components
    [frontend/src/pages/LoadFile.tsx] and [frontend/src/pages/ParseFile.tsx]:
    their view state, their event handlers, the requests they send and the
    way they render a response. *)

From Stdlib Require Import String Ascii List Bool Arith ZArith Lia.
From Stdlib Require Import DecimalString.
From Stdlib Require DecimalPos DecimalZ.
Import ListNotations.
Open Scope string_scope.
Open Scope list_scope.

(** ** JavaScript strings and the few builtins the pages call

    File names and messages are byte strings (UTF-8).  Matching an ASCII
    suffix on the UTF-8 bytes agrees with matching it on UTF-16 code units,
    and so does cutting at an ASCII character. *)
Module Js.

(** The lower-case form of an ASCII character: the letters A..Z are folded. *)
Definition lowerChar (c : ascii) : ascii :=
  let n := nat_of_ascii c in
  if ((65 <=? n)%nat && (n <=? 90)%nat)%bool then ascii_of_nat (n + 32) else c.

(** [String.prototype.toLowerCase], as far as the ASCII characters of its
    result go.  The builtin gives an ASCII character for the letters A..Z
    and for two characters outside ASCII: the Kelvin sign U+212A (bytes 226
    132 170), which becomes k, and the capital I with a dot above U+0130
    (bytes 196 176), which becomes i followed by the combining dot U+0307
    (bytes 204 135).  Every other character outside ASCII is kept here as it
    is, where the builtin may put another character outside ASCII, so the
    result has the builtin's ASCII characters at the builtin's places: it
    ends with an ASCII suffix, or is cut at an ASCII character, exactly where
    the builtin's result is.  On a name of ASCII characters this is the
    builtin. *)
Fixpoint toLowerCase (s : string) : string :=
  match s with
  | EmptyString => EmptyString
  | String c t =>
      match t with
      | String d t' =>
          if (Ascii.eqb c "196" && Ascii.eqb d "176")%bool then
            String "i" (String "204" (String "135" (toLowerCase t')))
          else
            match t' with
            | String e t'' =>
                if (Ascii.eqb c "226" && Ascii.eqb d "132" && Ascii.eqb e "170")%bool then
                  String "k" (toLowerCase t'')
                else String (lowerChar c) (toLowerCase t)
            | EmptyString => String (lowerChar c) (toLowerCase t)
            end
      | EmptyString => String (lowerChar c) (toLowerCase t)
      end
  end.

(** [String.prototype.endsWith(searchString)]: the search string is compared
    with the last [length searchString] positions; a search string longer than
    the subject never matches. *)
Definition endsWith (s searchString : string) : bool :=
  let len := String.length s in
  let searchLength := String.length searchString in
  if (len <? searchLength)%nat then false
  else String.eqb (substring (len - searchLength) searchLength s) searchString.

(** [s.split('.')[0]]: what precedes the first occurrence of [sep]. *)
Fixpoint beforeFirst (sep : ascii) (s : string) : string :=
  match s with
  | EmptyString => EmptyString
  | String c t => if Ascii.eqb c sep then EmptyString else String c (beforeFirst sep t)
  end.

(** [String(b)] on a boolean. *)
Definition ofBool (b : bool) : string := if b then "true" else "false".

(** The decimal numeral of an integer, as a template literal prints it. *)
Definition ofZ (z : Z) : string := NilZero.string_of_int (Z.to_int z).

(** A string is truthy when it is not empty. *)
Definition truthy (s : string) : bool := negb (String.eqb s "").

(** [String.prototype.includes] *)
Fixpoint includes (s sub : string) : bool :=
  if prefix sub s then true
  else match s with
       | EmptyString => false
       | String _ t => includes t sub
       end.

End Js.

(** ** What goes over the wire *)
Module Http.

(** A [File] picked in a file input; only its name is ever inspected. *)
Record File : Type := { name : string }.

Inductive Method : Type := GET | POST | DELETE.

(** An entry of a [FormData]: a file part or a string part. *)
Inductive FormValue : Type :=
| Blob (f : File)
| Text (s : string).

Definition FormData : Type := list (string * FormValue).

(** A request; [path] is what follows [apiBaseUrl] in the URL. *)
Record Request : Type := { method : Method; path : string; body : option FormData }.

(** What a [catch] clause can receive: an [Error] with its message
    ([error instanceof Error]), or some other thrown value. *)
Inductive Thrown : Type :=
| ErrorObject (message : string)
| OtherValue.

(** The outcome of [await response.json()]: it rejects (a body that is not
    JSON), or it yields the decoded value.  For a handler that goes on to
    read a property of the value ([data.loaded_content], [data.documents],
    [data.parsed_content]) a body that is [null] is filed under [JsonThrows]
    as well: the [TypeError] of the read is thrown inside the same [try],
    right after the body has been read.  A handler that stores the value as
    it is takes an optional payload, [None] for [null]. *)
Inductive Json (A : Type) : Type :=
| JsonThrows (e : Thrown)
| JsonValue (data : A).
Arguments JsonThrows {A} e.
Arguments JsonValue {A} data.

Record Response (A : Type) : Type := { status : Z; json : Json A }.
Arguments status {A} r.
Arguments json {A} r.

(** [response.ok]: the status is in the range 200-299. *)
Definition ok {A} (r : Response A) : bool :=
  ((200 <=? status r)%Z && (status r <=? 299)%Z)%bool.

(** [fetch] rejects (a network failure) or resolves with a response. *)
Inductive Fetched (A : Type) : Type :=
| Rejected (e : Thrown)
| Resolved (r : Response A).
Arguments Rejected {A} e.
Arguments Resolved {A} r.

Definition isPost (r : Request) : bool :=
  match method r with POST => true | _ => false end.

Definition fieldNames (fd : FormData) : list string := map fst fd.

End Http.

(** ** Event handlers as traces

    A handler reads the state captured by the render it was created in and
    calls state setters, [fetch] and [throw].  Its run is the ordered trace of
    the setter calls, of the requests it issued and of the response bodies it
    read to their end, and how it ended. *)
Module Task.

Section Trace.
Variable U : Type.

Inductive Event : Type :=
| Update (u : U)
| Sent (r : Http.Request)
| BodyRead.

Inductive Outcome (A : Type) : Type :=
| Returns (a : A)
| Throws (e : Http.Thrown).

Definition M (A : Type) : Type := (list Event * Outcome A)%type.
End Trace.

Arguments Update {U} u.
Arguments Sent {U} r.
Arguments BodyRead {U}.
Arguments Returns {A} a.
Arguments Throws {A} e.

Section Ops.
Context {U : Type}.

Definition ret {A} (a : A) : M U A := ([], Returns a).

Definition throw {A} (e : Http.Thrown) : M U A := ([], Throws e).

Definition bind {A B} (m : M U A) (k : A -> M U B) : M U B :=
  match m with
  | (t, Returns a) => let (t', r) := k a in (t ++ t', r)
  | (t, Throws e) => (t, Throws e)
  end.

(** [try { m } catch (error) { h error }] *)
Definition tryCatch {A} (m : M U A) (h : Http.Thrown -> M U A) : M U A :=
  match m with
  | (t, Throws e) => let (t', r) := h e in (t ++ t', r)
  | done => done
  end.

(** A call of a state setter. *)
Definition set (u : U) : M U unit := ([Update u], Returns tt).

(** [await fetch(...)]: the request goes out; [answer] is what comes back. *)
Definition fetch {A} (r : Http.Request) (answer : Http.Fetched A) : M U (Http.Response A) :=
  ([Sent r],
   match answer with
   | Http.Rejected e => Throws e
   | Http.Resolved resp => Returns resp
   end).

(** [await response.json()]: the body is read to its end and decoded. *)
Definition json {A} (resp : Http.Response A) : M U A :=
  ([BodyRead],
   match Http.json resp with
   | Http.JsonThrows e => Throws e
   | Http.JsonValue data => Returns data
   end).

(** The part of a trace up to and including its first [await], and the rest. *)
Fixpoint untilFirstAwait (t : list (Event U)) : list (Event U) * list (Event U) :=
  match t with
  | [] => ([], [])
  | Sent r :: t' => ([Sent r], t')
  | BodyRead :: t' => ([BodyRead], t')
  | Update u :: t' => let (a, b) := untilFirstAwait t' in (Update u :: a, b)
  end.

(** A call [task()] of an async function that is not awaited, followed by
    synchronous code [rest]: the task runs up to its first [await], the
    caller finishes, and the task resumes afterwards.  What the task throws
    is not seen by the caller. *)
Definition unawaited {A} (task : M U unit) (rest : M U A) : M U A :=
  let (before, after) := untilFirstAwait (fst task) in
  let (t, r) := rest in
  (before ++ t ++ after, r).

Fixpoint requests (t : list (Event U)) : list Http.Request :=
  match t with
  | [] => []
  | Sent r :: t' => r :: requests t'
  | _ :: t' => requests t'
  end.

Fixpoint updates (t : list (Event U)) : list U :=
  match t with
  | [] => []
  | Update u :: t' => u :: updates t'
  | _ :: t' => updates t'
  end.

(** The state after the setter calls of a trace have been applied in order. *)
Definition commit {S} (apply : U -> S -> S) (s : S) (t : list (Event U)) : S :=
  fold_left (fun st u => apply u st) (updates t) s.
End Ops.

Declare Scope task_scope.
Delimit Scope task_scope with task.
Notation "x <- m ;; k" := (bind m (fun x => k))
(at level 61, m at next level, right associativity) : task_scope.
Notation "m ;; k" := (bind m (fun _ => k))
(at level 61, right associativity) : task_scope.

End Task.

(** ** What a JSX expression shows *)
Module React.

(** A piece of rendered text: a literal, or [new Date(t).toLocaleString()],
    whose value depends on the locale of the browser. *)
Inductive Shown : Type :=
| Literal (s : string)
| LocaleDate (t : string).

(** A render either produces its view or throws a [TypeError]. *)
Inductive Rendered (A : Type) : Type :=
| Painted (view : A)
| TypeError.
Arguments Painted {A} view.
Arguments TypeError {A}.

(** [{s}] for a string that may be undefined: nothing is shown for undefined. *)
Definition child (s : option string) : string :=
  match s with Some v => v | None => "" end.

(** [{n}] for a number that may be undefined. *)
Definition childNumber (n : option Z) : string :=
  match n with Some v => Js.ofZ v | None => "" end.

(** [s || fallback] on a string: undefined and the empty string are falsy. *)
Definition orString (s : option string) (fallback : string) : string :=
  match s with
  | Some v => if Js.truthy v then v else fallback
  | None => fallback
  end.

(** [n || fallback] on a number: undefined and 0 are falsy. *)
Definition orNumber (n : option Z) (fallback : string) : string :=
  match n with
  | Some v => if (v =? 0)%Z then fallback else Js.ofZ v
  | None => fallback
  end.

(** [{s && k s}] on a string: a falsy [s] shows nothing. *)
Definition andString (s : option string) (k : string -> string) : string :=
  match s with
  | Some v => if Js.truthy v then k v else ""
  | None => ""
  end.

(** [{n && k n}] on a number: undefined shows nothing, 0 shows itself. *)
Definition andNumber (n : option Z) (k : Z -> string) : string :=
  match n with
  | Some v => if (v =? 0)%Z then "0" else k v
  | None => ""
  end.

(** [Array.prototype.map] with the index passed to the callback. *)
Fixpoint mapFrom {A B} (f : A -> nat -> B) (index : nat) (l : list A) : list B :=
  match l with
  | [] => []
  | x :: l' => f x index :: mapFrom f (S index) l'
  end.

Definition map {A B} (f : A -> nat -> B) (l : list A) : list B := mapFrom f 0 l.

End React.

Import Task.
Local Open Scope task_scope.

(** ** pages/LoadFile.tsx *)
Module LoadFile.

Record ChunkMetadata : Type := {
  chunk_id : option string;
  page_number : option Z;
  word_count : option Z;
  page_range : option string
}.

Record Chunk : Type := {
  content : option string;
  text : option string;
  metadata : option ChunkMetadata
}.

(** A loaded document as the server returns it; a field the payload does
    not carry is [None]. *)
Record LoadedContent : Type := {
  chunks : option (list Chunk);
  total_pages : option Z;
  total_chunks : option Z;
  loading_method : option string;
  chunking_method : option string;
  timestamp : option string;
  document_type : option string
}.

(** The metadata of a listing entry (the fields of [DocumentMetadata], and
    [document_type], which the listing reads through the index signature). *)
Record DocumentMetadata : Type := {
  meta_total_pages : option Z;
  meta_total_chunks : option Z;
  meta_loading_method : option string;
  meta_chunking_method : option string;
  meta_timestamp : option string;
  meta_document_type : option string
}.

Record Document : Type := {
  name : string;
  doc_metadata : option DocumentMetadata
}.

(** A number held in the chunking form.  [parseInt] gives [NaN], an integer
    or, on a numeral too long for a double, an infinity.  [Int z] is the
    integer the numeral spells. *)
Inductive Number : Type := NaN | Infinity (negative : bool) | Int (z : Z).

Record ChunkingOptions : Type := {
  maxCharacters : Number;
  newAfterNChars : Number;
  combineTextUnderNChars : Number;
  overlap : Number;
  overlapAll : bool;
  multiPageSections : bool
}.

(** The [useState] cells of the component. *)
Record State : Type := {
  file : option Http.File;
  fileType : string;
  loadingMethod : string;
  encoding : string;
  delimiter : string;
  usePandas : bool;
  unstructuredStrategy : string;
  chunkingStrategy : string;
  chunkingOptions : ChunkingOptions;
  loadedContent : option LoadedContent;
  status : string;
  documents : option (list Document);
  activeTab : string;
  selectedDoc : option Document
}.

Definition initial : State := {|
  file := None;
  fileType := "pdf";
  loadingMethod := "pymupdf";
  encoding := "utf-8";
  delimiter := ",";
  usePandas := true;
  unstructuredStrategy := "fast";
  chunkingStrategy := "basic";
  chunkingOptions := {| maxCharacters := Int 4000; newAfterNChars := Int 3000;
                        combineTextUnderNChars := Int 500; overlap := Int 200;
                        overlapAll := false; multiPageSections := false |};
  loadedContent := None;
  status := "";
  documents := Some [];
  activeTab := "preview";
  selectedDoc := None
|}.

(** The state setters. *)
Inductive Setter : Type :=
| setFile (v : option Http.File)
| setFileType (v : string)
| setLoadingMethod (v : string)
| setEncoding (v : string)
| setDelimiter (v : string)
| setUsePandas (v : bool)
| setUnstructuredStrategy (v : string)
| setChunkingStrategy (v : string)
| setChunkingOptions (v : ChunkingOptions)
| setLoadedContent (v : option LoadedContent)
| setStatus (v : string)
| setDocuments (v : option (list Document))
| setActiveTab (v : string)
| setSelectedDoc (v : option Document).

Definition apply (u : Setter) (s : State) : State :=
  let '{| file := f; fileType := ft; loadingMethod := lm; encoding := en; delimiter := de;
          usePandas := up; unstructuredStrategy := us; chunkingStrategy := cs;
          chunkingOptions := co; loadedContent := lc; status := st; documents := ds;
          activeTab := tab; selectedDoc := sd |} := s in
  match u with
  | setFile v => Build_State v ft lm en de up us cs co lc st ds tab sd
  | setFileType v => Build_State f v lm en de up us cs co lc st ds tab sd
  | setLoadingMethod v => Build_State f ft v en de up us cs co lc st ds tab sd
  | setEncoding v => Build_State f ft lm v de up us cs co lc st ds tab sd
  | setDelimiter v => Build_State f ft lm en v up us cs co lc st ds tab sd
  | setUsePandas v => Build_State f ft lm en de v us cs co lc st ds tab sd
  | setUnstructuredStrategy v => Build_State f ft lm en de up v cs co lc st ds tab sd
  | setChunkingStrategy v => Build_State f ft lm en de up us v co lc st ds tab sd
  | setChunkingOptions v => Build_State f ft lm en de up us cs v lc st ds tab sd
  | setLoadedContent v => Build_State f ft lm en de up us cs co v st ds tab sd
  | setStatus v => Build_State f ft lm en de up us cs co lc v ds tab sd
  | setDocuments v => Build_State f ft lm en de up us cs co lc st v tab sd
  | setActiveTab v => Build_State f ft lm en de up us cs co lc st ds v sd
  | setSelectedDoc v => Build_State f ft lm en de up us cs co lc st ds tab v
  end.

Definition Handler : Type := Task.M Setter unit.

(** The state once the setter calls of a handler run have been applied. *)
Definition after (s : State) (h : Handler) : State := Task.commit apply s (fst h).

(** *** The server as the page sees it *)

Record LoadBody : Type := { loaded_content : option LoadedContent }.

(** The listing endpoint answers [{ documents: Document[] }]; [listed] is
    [data.documents], [None] when the body carries no array there. *)
Record ListBody : Type := { listed : option (list Document) }.

(** What each request of one user action is answered with. *)
Record Net : Type := {
  listAnswer : Http.Fetched ListBody;
  loadAnswer : Http.FormData -> Http.Fetched LoadBody;
  documentAnswer : string -> Http.Fetched (option LoadedContent);
  deleteAnswer : string -> Http.Fetched unit
}.

Definition listRequest : Http.Request :=
  {| Http.method := Http.GET; Http.path := "/documents?type=loaded"; Http.body := None |}.

Definition loadRequest (formData : Http.FormData) : Http.Request :=
  {| Http.method := Http.POST; Http.path := "/load"; Http.body := Some formData |}.

Definition documentRequest (docName : string) : Http.Request :=
  {| Http.method := Http.GET; Http.path := "/documents/" ++ docName ++ ".json"; Http.body := None |}.

Definition deleteRequest (docName : string) : Http.Request :=
  {| Http.method := Http.DELETE; Http.path := "/documents/" ++ docName; Http.body := None |}.

(** [error instanceof Error ? error.message : '未知错误'] *)
Definition errorText (error : Http.Thrown) : string :=
  match error with
  | Http.ErrorObject message => message
  | Http.OtherValue => "未知错误"
  end.

(** [new Error(`HTTP error! status: ${response.status}`)] *)
Definition httpError (st : Z) : Http.Thrown :=
  Http.ErrorObject ("HTTP error! status: " ++ Js.ofZ st).

(** *** Handlers *)

(** [fetchDocuments]: the listing is fetched and [data.documents] is stored,
    whatever the status of the response and whatever is there; what is thrown
    is logged and swallowed. *)
Definition fetchDocuments (net : Net) : Handler :=
  tryCatch
    (response <- fetch listRequest (listAnswer net) ;;
     data <- json response ;;
     set (setDocuments (listed data)))
    (fun _ => ret tt).

(** The effect that runs when [fileType] has changed. *)
Definition useEffect_fileType (s : State) : Handler :=
  if fileType s =? "pdf" then set (setLoadingMethod "pymupdf")
  else if ((fileType s =? "txt") || (fileType s =? "md"))%bool then set (setLoadingMethod "basic")
  else if fileType s =? "csv" then set (setLoadingMethod "pandas")
  else ret tt.

(** [handleFileChange], on the files of the input's change event. *)
Definition handleFileChange (files : list Http.File) : Handler :=
  match files with
  | [] => ret tt
  | selectedFile :: _ =>
      set (setFile (Some selectedFile)) ;;
      let fileName := Js.toLowerCase (Http.name selectedFile) in
      if Js.endsWith fileName ".pdf" then
        set (setFileType "pdf") ;; set (setLoadingMethod "pymupdf")
      else if Js.endsWith fileName ".txt" then
        set (setFileType "txt") ;; set (setLoadingMethod "basic")
      else if Js.endsWith fileName ".csv" then
        set (setFileType "csv") ;; set (setLoadingMethod "pandas")
      else if (Js.endsWith fileName ".md" || Js.endsWith fileName ".markdown")%bool then
        set (setFileType "md") ;; set (setLoadingMethod "basic")
      else
        set (setFileType "other") ;; set (setLoadingMethod "")
  end.

(** [JSON.stringify] of a number: [NaN] and the infinities are written
    [null]; an integer is written with all its digits, which is what the
    builtin does up to 2^53 in absolute value.  Beyond that the builtin has
    the integer rounded to a double and, from 10^21 on, writes an exponent;
    this rounding is left out here, and what is proved of the text is stated
    for the integers up to 2^53. *)
Definition stringifyNumber (n : Number) : string :=
  match n with
  | NaN => "null"
  | Infinity _ => "null"
  | Int z => Js.ofZ z
  end.

Definition quote : string := String (ascii_of_nat 34) "".

Definition member (key value : string) : string := quote ++ key ++ quote ++ ":" ++ value.

(** [JSON.stringify(chunkingOptions)] *)
Definition stringifyChunkingOptions (o : ChunkingOptions) : string :=
  "{" ++ member "maxCharacters" (stringifyNumber (maxCharacters o))
  ++ "," ++ member "newAfterNChars" (stringifyNumber (newAfterNChars o))
  ++ "," ++ member "combineTextUnderNChars" (stringifyNumber (combineTextUnderNChars o))
  ++ "," ++ member "overlap" (stringifyNumber (overlap o))
  ++ "," ++ member "overlapAll" (Js.ofBool (overlapAll o))
  ++ "," ++ member "multiPageSections" (Js.ofBool (multiPageSections o))
  ++ "}".

(** The option fields appended after [file], [file_type] and [loading_method]. *)
Definition optionFields (s : State) : Http.FormData :=
  if ((fileType s =? "pdf") && (loadingMethod s =? "unstructured"))%bool then
    [("strategy", Http.Text (unstructuredStrategy s));
     ("chunking_strategy", Http.Text (chunkingStrategy s));
     ("chunking_options", Http.Text (stringifyChunkingOptions (chunkingOptions s)))]
  else if ((fileType s =? "txt") || (fileType s =? "md"))%bool then
    ("encoding", Http.Text (encoding s))
    :: (if Js.truthy (chunkingStrategy s) then
          [("chunking_strategy", Http.Text (chunkingStrategy s));
           ("chunking_options", Http.Text (stringifyChunkingOptions (chunkingOptions s)))]
        else [])
  else if fileType s =? "csv" then
    [("delimiter", Http.Text (delimiter s));
     ("encoding", Http.Text (encoding s));
     ("use_pandas", Http.Text (Js.ofBool (usePandas s)))]
  else [].

(** The [FormData] that [handleProcess] fills for the selected file [f]. *)
Definition formData (s : State) (f : Http.File) : Http.FormData :=
  [("file", Http.Blob f);
   ("file_type", Http.Text (fileType s));
   ("loading_method", Http.Text (loadingMethod s))]
  ++ optionFields s.

(** [handleProcess], created in the render of state [s]. *)
Definition handleProcess (s : State) (net : Net) : Handler :=
  match file s with
  | Some f =>
      if Js.truthy (loadingMethod s) then
        set (setStatus "加载中...") ;;
        set (setLoadedContent None) ;;
        tryCatch
          (response <- fetch (loadRequest (formData s f)) (loadAnswer net (formData s f)) ;;
           if negb (Http.ok response) then throw (httpError (Http.status response))
           else
             data <- json response ;;
             set (setLoadedContent (loaded_content data)) ;;
             set (setStatus "文件加载成功!") ;;
             unawaited (fetchDocuments net) (set (setActiveTab "preview")))
          (fun error => set (setStatus ("错误: " ++ errorText error)))
      else set (setStatus "请选择所有必需的选项")
  | None => set (setStatus "请选择所有必需的选项")
  end.

(** [selectedDoc?.name === docName] *)
Definition isSelected (s : State) (docName : string) : bool :=
  match selectedDoc s with
  | Some doc => name doc =? docName
  | None => false
  end.

(** [handleDeleteDocument] *)
Definition handleDeleteDocument (s : State) (net : Net) (docName : string) : Handler :=
  tryCatch
    (response <- fetch (deleteRequest docName) (deleteAnswer net docName) ;;
     if negb (Http.ok response) then throw (httpError (Http.status response))
     else
       set (setStatus "文档删除成功") ;;
       unawaited (fetchDocuments net)
         (if isSelected s docName then
            set (setSelectedDoc None) ;; set (setLoadedContent None)
          else ret tt))
    (fun error => set (setStatus ("删除文档错误: " ++ errorText error))).

(** [handleViewDocument]: the decoded body is stored as it is, so a body
    that is [null] empties the preview. *)
Definition handleViewDocument (net : Net) (doc : Document) : Handler :=
  tryCatch
    (set (setStatus "加载文档...") ;;
     response <- fetch (documentRequest (name doc)) (documentAnswer net (name doc)) ;;
     if negb (Http.ok response) then throw (httpError (Http.status response))
     else
       data <- json response ;;
       set (setSelectedDoc (Some doc)) ;;
       set (setLoadedContent data) ;;
       set (setActiveTab "preview") ;;
       set (setStatus ""))
    (fun error => set (setStatus ("加载文档错误: " ++ errorText error))).

(** The render that follows a state change from [s] to [s']: when [fileType]
    has changed, the effect that depends on it runs on the new state.  One
    user action is a handler followed by that render. *)
Definition rerender (s s' : State) : State :=
  if fileType s' =? fileType s then s' else after s' (useEffect_fileType s').

Definition dispatch (s : State) (h : Handler) : State := rerender s (after s h).

(** *** Rendering of the preview tab *)

Record ChunkBlock : Type := {
  key : string;
  heading : string;
  details : string;
  body : string
}.

(** [chunk.metadata?.field] *)
Definition chunkMeta {A} (field : ChunkMetadata -> option A) (chunk : Chunk) : option A :=
  match metadata chunk with
  | Some m => field m
  | None => None
  end.

(** The callback of [loadedContent.chunks?.map((chunk, index) => ...)]. *)
Definition renderChunk (chunk : Chunk) (index : nat) : ChunkBlock := {|
  key := React.orString (chunkMeta chunk_id chunk) (Js.ofZ (Z.of_nat index));
  heading := ("分块 "
    ++ React.orString (chunkMeta chunk_id chunk) (Js.ofZ (Z.of_nat index + 1))
    ++ React.andNumber (chunkMeta page_number chunk) (fun n => "(页 " ++ Js.ofZ n ++ ")"))%string;
  details :=
    (React.andNumber (chunkMeta word_count chunk) (fun n => "词数: " ++ Js.ofZ n)
     ++ React.andString (chunkMeta page_range chunk) (fun r => "| 页码范围: " ++ r))%string;
  body := React.orString (content chunk) (React.child (text chunk))
|}.

(** [loadedContent.chunks?.map(...)]: no list, no blocks. *)
Definition renderChunks (lc : LoadedContent) : list ChunkBlock :=
  match chunks lc with
  | Some l => React.map renderChunk l
  | None => []
  end.

(** The document information box above the chunks. *)
Definition renderInfo (lc : LoadedContent) : list (string * React.Shown) :=
  [("文档类型: ", React.Literal (React.orString (document_type lc) "N/A"));
   ("页数: ", React.Literal (React.orNumber (total_pages lc) "N/A"));
   ("分块数: ", React.Literal (React.orNumber (total_chunks lc) "N/A"));
   ("加载方法: ", React.Literal (React.orString (loading_method lc) "N/A"));
   ("分块方法: ", React.Literal (React.orString (chunking_method lc) "N/A"));
   ("处理日期: ", match timestamp lc with
                  | Some t => if Js.truthy t then React.LocaleDate t else React.Literal "N/A"
                  | None => React.Literal "N/A"
                  end)].

(** *** The document manager tab *)

(** [doc.metadata?.field] *)
Definition docMeta {A} (field : DocumentMetadata -> option A) (doc : Document) : option A :=
  match doc_metadata doc with
  | Some m => field m
  | None => None
  end.

Record DocumentCard : Type := {
  cardKey : string;
  cardTitle : string;
  cardLines : list (string * React.Shown)
}.

(** The callback of [documents.map((doc) => ...)]. *)
Definition renderDocument (doc : Document) (index : nat) : DocumentCard := {|
  cardKey := name doc;
  cardTitle := name doc;
  cardLines :=
    [("文档类型: ", React.Literal (React.orString (docMeta meta_document_type doc) "未知"));
     ("页数: ", React.Literal (React.orNumber (docMeta meta_total_pages doc) "N/A"));
     ("分块数: ", React.Literal (React.orNumber (docMeta meta_total_chunks doc) "N/A"));
     ("加载方法: ", React.Literal (React.orString (docMeta meta_loading_method doc) "N/A"));
     ("分块方法: ", React.Literal (React.orString (docMeta meta_chunking_method doc) "N/A"));
     ("创建时间: ", match docMeta meta_timestamp doc with
                    | Some t => if Js.truthy t then React.LocaleDate t else React.Literal "N/A"
                    | None => React.Literal "N/A"
                    end)]
|}.

(** The document manager tab: the cards, and whether the notice that no
    document is available is shown ([documents.length === 0]). *)
Record DocumentManager : Type := {
  cards : list DocumentCard;
  emptyNotice : bool
}.

(** [documents.map(...)] throws when [documents] is not an array. *)
Definition renderDocuments (s : State) : React.Rendered DocumentManager :=
  match documents s with
  | Some l =>
      React.Painted {| cards := React.map renderDocument l;
                       emptyNotice := (List.length l =? 0)%nat |}
  | None => React.TypeError
  end.

(** *** The right panel *)

Inductive Panel : Type :=
| Preview (info : list (string * React.Shown)) (blocks : list ChunkBlock)
| RandomImage (message : string)
| Documents (manager : DocumentManager).

(** [renderRightPanel]: the preview tab or the document manager tab. *)
Definition renderRightPanel (s : State) : React.Rendered Panel :=
  if activeTab s =? "preview" then
    match loadedContent s with
    | Some lc => React.Painted (Preview (renderInfo lc) (renderChunks lc))
    | None => React.Painted (RandomImage "上传并加载文件或选择现有文档以在此处查看结果")
    end
  else
    match renderDocuments s with
    | React.Painted manager => React.Painted (Documents manager)
    | React.TypeError => React.TypeError
    end.

(** *** The form *)

(** The values offered by the loading method select. *)
Definition loadingMethodOptions (s : State) : list string :=
  (if fileType s =? "pdf" then ["pymupdf"; "pypdf"; "pdfplumber"; "unstructured"] else [])
  ++ (if fileType s =? "txt" then ["basic"; "unstructured"] else [])
  ++ (if fileType s =? "csv" then ["pandas"; "csv"] else [])
  ++ (if fileType s =? "md" then ["basic"; "unstructured"] else [])
  ++ (match file s with None => [""] | Some _ => [] end).

(** [disabled={!file || !loadingMethod}] on the submit button. *)
Definition submitDisabled (s : State) : bool :=
  (match file s with None => true | Some _ => false end
   || negb (Js.truthy (loadingMethod s)))%bool.

Inductive StatusStyle : Type := Red | Green.

(** The status box: absent while [status] is empty, red when the text
    includes the word for error, green otherwise. *)
Definition statusBox (s : State) : option (StatusStyle * string) :=
  if Js.truthy (status s) then
    Some (if Js.includes (status s) "错误" then Red else Green, status s)
  else None.

(** *** What the user can do

    Each constructor is one event of the page, taken one at a time: the
    mounting of the component, a change of an input, a click on a button. *)
Inductive Action : Type :=
| Mount (net : Net)
| PickFile (files : list Http.File)
| ChooseLoadingMethod (v : string)
| ChooseEncoding (v : string)
| ChooseDelimiter (v : string)
| ChooseUnstructuredStrategy (v : string)
| ChooseChunkingStrategy (v : string)
| EditMaxCharacters (n : Number)
| EditNewAfterNChars (n : Number)
| EditCombineTextUnderNChars (n : Number)
| EditOverlap (n : Number)
| CheckOverlapAll (b : bool)
| CheckMultiPageSections (b : bool)
| ShowTab (tab : string)
| Process (net : Net)
| DeleteDocument (net : Net) (docName : string)
| ViewDocument (net : Net) (doc : Document).

(** [{ ...prev, field: value }] for each field of the chunking options. *)
Definition withMaxCharacters (n : Number) (prev : ChunkingOptions) : ChunkingOptions :=
  {| maxCharacters := n; newAfterNChars := newAfterNChars prev;
     combineTextUnderNChars := combineTextUnderNChars prev; overlap := overlap prev;
     overlapAll := overlapAll prev; multiPageSections := multiPageSections prev |}.

Definition withNewAfterNChars (n : Number) (prev : ChunkingOptions) : ChunkingOptions :=
  {| maxCharacters := maxCharacters prev; newAfterNChars := n;
     combineTextUnderNChars := combineTextUnderNChars prev; overlap := overlap prev;
     overlapAll := overlapAll prev; multiPageSections := multiPageSections prev |}.

Definition withCombineTextUnderNChars (n : Number) (prev : ChunkingOptions) : ChunkingOptions :=
  {| maxCharacters := maxCharacters prev; newAfterNChars := newAfterNChars prev;
     combineTextUnderNChars := n; overlap := overlap prev;
     overlapAll := overlapAll prev; multiPageSections := multiPageSections prev |}.

Definition withOverlap (n : Number) (prev : ChunkingOptions) : ChunkingOptions :=
  {| maxCharacters := maxCharacters prev; newAfterNChars := newAfterNChars prev;
     combineTextUnderNChars := combineTextUnderNChars prev; overlap := n;
     overlapAll := overlapAll prev; multiPageSections := multiPageSections prev |}.

Definition withOverlapAll (b : bool) (prev : ChunkingOptions) : ChunkingOptions :=
  {| maxCharacters := maxCharacters prev; newAfterNChars := newAfterNChars prev;
     combineTextUnderNChars := combineTextUnderNChars prev; overlap := overlap prev;
     overlapAll := b; multiPageSections := multiPageSections prev |}.

Definition withMultiPageSections (b : bool) (prev : ChunkingOptions) : ChunkingOptions :=
  {| maxCharacters := maxCharacters prev; newAfterNChars := newAfterNChars prev;
     combineTextUnderNChars := combineTextUnderNChars prev; overlap := overlap prev;
     overlapAll := overlapAll prev; multiPageSections := b |}.

(** The handler an event runs, in the render of state [s]. *)
Definition handlerOf (s : State) (a : Action) : Handler :=
  match a with
  | Mount net => fetchDocuments net
  | PickFile files => handleFileChange files
  | ChooseLoadingMethod v => set (setLoadingMethod v)
  | ChooseEncoding v => set (setEncoding v)
  | ChooseDelimiter v => set (setDelimiter v)
  | ChooseUnstructuredStrategy v => set (setUnstructuredStrategy v)
  | ChooseChunkingStrategy v => set (setChunkingStrategy v)
  | EditMaxCharacters n => set (setChunkingOptions (withMaxCharacters n (chunkingOptions s)))
  | EditNewAfterNChars n => set (setChunkingOptions (withNewAfterNChars n (chunkingOptions s)))
  | EditCombineTextUnderNChars n =>
      set (setChunkingOptions (withCombineTextUnderNChars n (chunkingOptions s)))
  | EditOverlap n => set (setChunkingOptions (withOverlap n (chunkingOptions s)))
  | CheckOverlapAll b => set (setChunkingOptions (withOverlapAll b (chunkingOptions s)))
  | CheckMultiPageSections b =>
      set (setChunkingOptions (withMultiPageSections b (chunkingOptions s)))
  | ShowTab tab => set (setActiveTab tab)
  | Process net => handleProcess s net
  | DeleteDocument net docName => handleDeleteDocument s net docName
  | ViewDocument net doc => handleViewDocument net doc
  end.

(** The values offered by the other select boxes, each empty while its box
    is not shown. *)
Definition encodingOptions (s : State) : list string :=
  if ((fileType s =? "txt") || (fileType s =? "md"))%bool then
    ["utf-8"; "utf-16"; "gbk"; "gb2312"; "iso-8859-1"]
  else if fileType s =? "csv" then ["utf-8"; "gbk"; "gb2312"; "iso-8859-1"]
  else [].

Definition delimiterOptions (s : State) : list string :=
  (* the third value is a backslash followed by t, as the attribute spells it *)
  if fileType s =? "csv" then [","; ";"; "\t"; "|"] else [].

Definition unstructuredStrategyOptions (s : State) : list string :=
  if loadingMethod s =? "unstructured" then ["fast"; "hi_res"; "ocr_only"] else [].

Definition chunkingStrategyOptions (s : State) : list string :=
  if loadingMethod s =? "unstructured" then ["basic"; "by_title"] else [].

(** Whether the page, in state [s], lets the event happen: a select box
    sends one of the values it offers, an input must be shown to be edited,
    the submit button must not be disabled, and a document is viewed or
    deleted from its card in the document manager. *)
Definition possible (s : State) (a : Action) : Prop :=
  match a with
  | Mount _ => True
  | PickFile _ => True
  | ChooseLoadingMethod v => In v (loadingMethodOptions s)
  | ChooseEncoding v => In v (encodingOptions s)
  | ChooseDelimiter v => In v (delimiterOptions s)
  | ChooseUnstructuredStrategy v => In v (unstructuredStrategyOptions s)
  | ChooseChunkingStrategy v => In v (chunkingStrategyOptions s)
  | EditMaxCharacters _ | EditNewAfterNChars _ | EditOverlap _ | CheckOverlapAll _ =>
      loadingMethod s = "unstructured" /\ chunkingStrategy s = "basic"
  | EditCombineTextUnderNChars _ =>
      loadingMethod s = "unstructured"
      /\ (chunkingStrategy s = "basic" \/ chunkingStrategy s = "by_title")
  | CheckMultiPageSections _ =>
      loadingMethod s = "unstructured" /\ chunkingStrategy s = "by_title"
  | ShowTab tab => tab = "preview" \/ tab = "documents"
  | Process _ => submitDisabled s = false
  | DeleteDocument _ docName =>
      activeTab s <> "preview"
      /\ exists l, documents s = Some l /\ In docName (List.map name l)
  | ViewDocument _ doc =>
      activeTab s <> "preview" /\ exists l, documents s = Some l /\ In doc l
  end.

Definition perform (s : State) (a : Action) : State := dispatch s (handlerOf s a).

(** The states the page can be in. *)
Inductive Reachable : State -> Prop :=
| reachable_initial : Reachable initial
| reachable_step (s : State) (a : Action) :
    Reachable s -> possible s a -> Reachable (perform s a).

End LoadFile.

(** ** pages/ParseFile.tsx *)
Module ParseFile.

Record ItemMetadata : Type := {
  content_type : option string;
  image_id : option string;
  extraction_method : option string;
  table_id : option string;
  rows : option Z;
  columns : option Z
}.

(** An entry of [content]. *)
Record Item : Type := {
  type : option string;
  content : option string;
  page : option Z;
  title : option string;
  item_metadata : option ItemMetadata
}.

Record Metadata : Type := {
  total_pages : option Z;
  parsing_method : option string;
  timestamp : option string;
  file_type : option string
}.

(** A parsed document as the server returns it; a field the payload does
    not carry is [None].  [items] is the field [content] of the payload. *)
Record ParsedContent : Type := {
  metadata : option Metadata;
  items : option (list Item)
}.

(** The [useState] cells of the component. *)
Record State : Type := {
  file : option Http.File;
  fileType : string;
  loadingMethod : string;
  parsingOption : string;
  extractImages : bool;
  extractTables : bool;
  parsedContent : option ParsedContent;
  status : string;
  docName : string;
  isProcessed : bool
}.

Definition initial : State := {|
  file := None;
  fileType := "pdf";
  loadingMethod := "pymupdf";
  parsingOption := "comprehensive";
  extractImages := true;
  extractTables := true;
  parsedContent := None;
  status := "";
  docName := "";
  isProcessed := false
|}.

Inductive Setter : Type :=
| setFile (v : option Http.File)
| setFileType (v : string)
| setLoadingMethod (v : string)
| setParsingOption (v : string)
| setExtractImages (v : bool)
| setExtractTables (v : bool)
| setParsedContent (v : option ParsedContent)
| setStatus (v : string)
| setDocName (v : string)
| setIsProcessed (v : bool).

Definition apply (u : Setter) (s : State) : State :=
  let '{| file := f; fileType := ft; loadingMethod := lm; parsingOption := po;
          extractImages := ei; extractTables := et; parsedContent := pc;
          status := st; docName := dn; isProcessed := ip |} := s in
  match u with
  | setFile v => Build_State v ft lm po ei et pc st dn ip
  | setFileType v => Build_State f v lm po ei et pc st dn ip
  | setLoadingMethod v => Build_State f ft v po ei et pc st dn ip
  | setParsingOption v => Build_State f ft lm v ei et pc st dn ip
  | setExtractImages v => Build_State f ft lm po v et pc st dn ip
  | setExtractTables v => Build_State f ft lm po ei v pc st dn ip
  | setParsedContent v => Build_State f ft lm po ei et v st dn ip
  | setStatus v => Build_State f ft lm po ei et pc v dn ip
  | setDocName v => Build_State f ft lm po ei et pc st v ip
  | setIsProcessed v => Build_State f ft lm po ei et pc st dn v
  end.

Definition Handler : Type := Task.M Setter unit.

Definition after (s : State) (h : Handler) : State := Task.commit apply s (fst h).

Record ParseBody : Type := { parsed_content : option ParsedContent }.

(** What the request of one submission is answered with. *)
Record Net : Type := { parseAnswer : Http.FormData -> Http.Fetched ParseBody }.

Definition parseRequest (formData : Http.FormData) : Http.Request :=
  {| Http.method := Http.POST; Http.path := "/parse"; Http.body := Some formData |}.

Definition errorText (error : Http.Thrown) : string :=
  match error with
  | Http.ErrorObject message => message
  | Http.OtherValue => "未知错误"
  end.

Definition httpError (st : Z) : Http.Thrown :=
  Http.ErrorObject ("HTTP error! status: " ++ Js.ofZ st).

(** The effect that runs when [fileType] has changed. *)
Definition useEffect_fileType (s : State) : Handler :=
  if fileType s =? "pdf" then set (setLoadingMethod "pymupdf")
  else if ((fileType s =? "markdown") || (fileType s =? "md"))%bool then set (setLoadingMethod "basic")
  else if fileType s =? "txt" then set (setLoadingMethod "basic")
  else ret tt.

(** The [FormData] that [handleProcess] fills for the selected file [f]. *)
Definition formData (s : State) (f : Http.File) : Http.FormData :=
  [("file", Http.Blob f);
   ("loading_method", Http.Text (loadingMethod s));
   ("parsing_option", Http.Text (parsingOption s));
   ("file_type", Http.Text (fileType s));
   ("extract_images", Http.Text (Js.ofBool (extractImages s)));
   ("extract_tables", Http.Text (Js.ofBool (extractTables s)))].

(** [handleProcess], created in the render of state [s]. *)
Definition handleProcess (s : State) (net : Net) : Handler :=
  match file s with
  | Some f =>
      if (Js.truthy (loadingMethod s) && Js.truthy (parsingOption s))%bool then
        set (setStatus "处理中...") ;;
        set (setParsedContent None) ;;
        set (setIsProcessed false) ;;
        tryCatch
          (response <- fetch (parseRequest (formData s f)) (parseAnswer net (formData s f)) ;;
           if negb (Http.ok response) then throw (httpError (Http.status response))
           else
             data <- json response ;;
             set (setParsedContent (parsed_content data)) ;;
             set (setStatus "处理成功完成!") ;;
             set (setIsProcessed true))
          (fun error => set (setStatus ("错误: " ++ errorText error)))
      else set (setStatus "请选择所有必需的选项")
  | None => set (setStatus "请选择所有必需的选项")
  end.

(** [handleFileSelect], on the files of the input's change event. *)
Definition handleFileSelect (files : list Http.File) : Handler :=
  match files with
  | [] => ret tt
  | selectedFile :: _ =>
      set (setFile (Some selectedFile)) ;;
      let fileName := Js.toLowerCase (Http.name selectedFile) in
      (if Js.endsWith fileName ".pdf" then set (setFileType "pdf")
       else if (Js.endsWith fileName ".md" || Js.endsWith fileName ".markdown")%bool then
         set (setFileType "markdown")
       else if Js.endsWith fileName ".txt" then set (setFileType "txt")
       else set (setFileType "pdf")) ;;
      set (setDocName (Js.beforeFirst "." fileName))
  end.

(** The values of the options that [renderParsingOptions] offers. *)
Definition renderParsingOptions (s : State) : list string :=
  if fileType s =? "pdf" then
    ["comprehensive"; "text_only"; "tables_only"; "images_only";
     "by_pages"; "by_titles"; "text_and_tables"]
  else if fileType s =? "markdown" then
    ["comprehensive"; "text_only"; "tables_only"]
  else ["text_only"].

(** The render that follows a state change from [s] to [s']: when [fileType]
    has changed, the effect that depends on it runs on the new state.  One
    user action is a handler followed by that render. *)
Definition rerender (s s' : State) : State :=
  if fileType s' =? fileType s then s' else after s' (useEffect_fileType s').

Definition dispatch (s : State) (h : Handler) : State := rerender s (after s h).

(** *** Rendering of the result *)

Record ContentBlock : Type := {
  heading : string;
  titleLine : string;
  monospace : bool;
  body : string;
  footer : string
}.

(** [item.metadata?.field] *)
Definition itemMeta {A} (field : ItemMetadata -> option A) (item : Item) : option A :=
  match item_metadata item with
  | Some m => field m
  | None => None
  end.

(** [item.type === kind] *)
Definition hasType (item : Item) (kind : string) : bool :=
  match type item with
  | Some t => t =? kind
  | None => false
  end.

(** The callback of [parsedContent.content.map((item, idx) => ...)]. *)
Definition renderItem (item : Item) (idx : nat) : ContentBlock := {|
  heading :=
    ((if hasType item "image" then "图像" else if hasType item "table" then "表格" else "文本")
     ++ " -"
     ++ React.andNumber (page item) (fun n => "页 " ++ Js.ofZ n)
     ++ React.andString (itemMeta content_type item) (fun t => " - " ++ t))%string;
  titleLine := React.andString (title item) (fun t => t);
  monospace := hasType item "table";
  body := React.child (content item);
  footer :=
    match item_metadata item with
    | Some m =>
        if hasType item "image" then
          ("图像ID: " ++ React.child (image_id m) ++ ", 提取方法: "
           ++ React.child (extraction_method m))%string
        else if hasType item "table" then
          ("表格ID: " ++ React.child (table_id m) ++ ", 行数: "
           ++ React.childNumber (rows m) ++ ", 列数: " ++ React.childNumber (columns m))%string
        else ""
    | None => ""
    end
|}.

(** [parsedContent.metadata?.field] *)
Definition docMeta {A} (field : Metadata -> option A) (pc : ParsedContent) : option A :=
  match metadata pc with
  | Some m => field m
  | None => None
  end.

(** The document information box above the content. *)
Definition renderInfo (s : State) (pc : ParsedContent) : list (string * React.Shown) :=
  [("文件类型: ", React.Literal (React.orString (docMeta file_type pc) (fileType s)));
   ("总页数: ", React.Literal (React.childNumber (docMeta total_pages pc)));
   ("解析方法: ", React.Literal (React.child (docMeta parsing_method pc)));
   ("时间戳: ", match docMeta timestamp pc with
                | Some t => if Js.truthy t then React.LocaleDate t else React.Literal ""
                | None => React.Literal ""
                end)].

Inductive Panel : Type :=
| Result (info : list (string * React.Shown)) (blocks : list ContentBlock)
| RandomImage (message : string).

(** The right panel of the page.  [parsedContent.content.map] is called on
    whatever [content] is: on a payload without [content] it throws. *)
Definition renderRightPanel (s : State) : React.Rendered Panel :=
  match parsedContent s with
  | Some pc =>
      match items pc with
      | Some l => React.Painted (Result (renderInfo s pc) (React.map renderItem l))
      | None => React.TypeError
      end
  | None => React.Painted (RandomImage "上传并解析文件以在此处查看结果")
  end.

(** *** The form *)

(** The values offered by the loading tool select. *)
Definition loadingMethodOptions (s : State) : list string :=
  (if fileType s =? "pdf" then ["pymupdf"; "pypdf"; "unstructured"; "pdfplumber"] else [])
  ++ (if fileType s =? "markdown" then ["basic"] else [])
  ++ (if fileType s =? "txt" then ["basic"] else []).

(** [disabled={!file}] on the submit button. *)
Definition submitDisabled (s : State) : bool :=
  match file s with None => true | Some _ => false end.

Inductive StatusStyle : Type := Red | Green.

(** The status box: absent while [status] is empty, red when the text
    includes the word for error, green otherwise. *)
Definition statusBox (s : State) : option (StatusStyle * string) :=
  if Js.truthy (status s) then
    Some (if Js.includes (status s) "错误" then Red else Green, status s)
  else None.

(** *** What the user can do

    Each constructor is one event of the page, taken one at a time. *)
Inductive Action : Type :=
| PickFile (files : list Http.File)
| ChooseLoadingMethod (v : string)
| ChooseParsingOption (v : string)
| CheckExtractImages (b : bool)
| CheckExtractTables (b : bool)
| Process (net : Net).

(** The handler an event runs, in the render of state [s]. *)
Definition handlerOf (s : State) (a : Action) : Handler :=
  match a with
  | PickFile files => handleFileSelect files
  | ChooseLoadingMethod v => set (setLoadingMethod v)
  | ChooseParsingOption v => set (setParsingOption v)
  | CheckExtractImages b => set (setExtractImages b)
  | CheckExtractTables b => set (setExtractTables b)
  | Process net => handleProcess s net
  end.

(** Whether the page, in state [s], lets the event happen: a select box
    sends one of the values it offers, the two check boxes are shown for pdf
    and markdown only, and the submit button must not be disabled. *)
Definition possible (s : State) (a : Action) : Prop :=
  match a with
  | PickFile _ => True
  | ChooseLoadingMethod v => In v (loadingMethodOptions s)
  | ChooseParsingOption v => In v (renderParsingOptions s)
  | CheckExtractImages _ | CheckExtractTables _ =>
      fileType s = "pdf" \/ fileType s = "markdown"
  | Process _ => submitDisabled s = false
  end.

Definition perform (s : State) (a : Action) : State := dispatch s (handlerOf s a).

(** The states the page can be in. *)
Inductive Reachable : State -> Prop :=
| reachable_initial : Reachable initial
| reachable_step (s : State) (a : Action) :
    Reachable s -> possible s a -> Reachable (perform s a).

End ParseFile.

(** ** Vocabulary of the statements and sample data *)

(** The last character of a string. *)
Fixpoint lastChar (s : string) : option ascii :=
  match s with
  | EmptyString => None
  | String c EmptyString => Some c
  | String _ t => lastChar t
  end.

Definition extensions : list string := ["pdf"; "txt"; "csv"; "md"; "other"].

Definition fileNamed (n : string) : Http.File := {| Http.name := n |}.

(** The file type the load page holds after [n] has been picked in state [s]. *)
Definition loadInferred (s : LoadFile.State) (n : string) : string :=
  LoadFile.fileType (LoadFile.after s (LoadFile.handleFileChange [fileNamed n])).

(** The file type the parse page holds after [n] has been picked in state [p]. *)
Definition parseInferred (p : ParseFile.State) (n : string) : string :=
  ParseFile.fileType (ParseFile.after p (ParseFile.handleFileSelect [fileNamed n])).

(** What is left of [fetchDocuments] once its request has gone out. *)
Definition documentsSettled (net : LoadFile.Net) : list (Task.Event LoadFile.Setter) :=
  match LoadFile.listAnswer net with
  | Http.Rejected _ => []
  | Http.Resolved listing =>
      BodyRead :: match Http.json listing with
                  | Http.JsonThrows _ => []
                  | Http.JsonValue data => [Update (LoadFile.setDocuments (LoadFile.listed data))]
                  end
  end.

(** A server that cannot be reached: every request is rejected. *)
Definition offline : LoadFile.Net := {|
  LoadFile.listAnswer := Http.Rejected (Http.ErrorObject "Failed to fetch");
  LoadFile.loadAnswer := fun _ => Http.Rejected (Http.ErrorObject "Failed to fetch");
  LoadFile.documentAnswer := fun _ => Http.Rejected (Http.ErrorObject "Failed to fetch");
  LoadFile.deleteAnswer := fun _ => Http.Rejected (Http.ErrorObject "Failed to fetch")
|}.

Definition parseOffline : ParseFile.Net :=
  {| ParseFile.parseAnswer := fun _ => Http.Rejected (Http.ErrorObject "Failed to fetch") |}.

(** The load page after [report.pdf] has been picked: type pdf, loader pymupdf. *)
Definition reportPicked : LoadFile.State :=
  LoadFile.dispatch LoadFile.initial (LoadFile.handleFileChange [fileNamed "report.pdf"]).

(** The load page after [data.csv] has been picked and the delimiter and the
    encoding have been chosen in their select boxes. *)
Definition csvForm : LoadFile.State :=
  LoadFile.apply (LoadFile.setEncoding "gbk")
    (LoadFile.apply (LoadFile.setDelimiter ";")
       (LoadFile.dispatch LoadFile.initial (LoadFile.handleFileChange [fileNamed "data.csv"]))).

(** The parse page after [notes.txt] has been picked. *)
Definition notesPicked : ParseFile.State :=
  ParseFile.dispatch ParseFile.initial (ParseFile.handleFileSelect [fileNamed "notes.txt"]).

(** A server that answers every request with status 500 and a body that is
    not JSON. *)
Definition failing : LoadFile.Net :=
  let broken {A} : Http.Fetched A :=
    Http.Resolved {| Http.status := 500;
                     Http.json := Http.JsonThrows (Http.ErrorObject "Unexpected token") |} in
  {| LoadFile.listAnswer := broken;
     LoadFile.loadAnswer := fun _ => broken;
     LoadFile.documentAnswer := fun _ => broken;
     LoadFile.deleteAnswer := fun _ => broken |}.

(** What the listing answered, when it answered with a body that could be
    read; otherwise the list the page already had. *)
Definition listedOr (net : LoadFile.Net) (old : option (list LoadFile.Document))
  : option (list LoadFile.Document) :=
  match LoadFile.listAnswer net with
  | Http.Resolved listing =>
      match Http.json listing with
      | Http.JsonValue data => LoadFile.listed data
      | Http.JsonThrows _ => old
      end
  | Http.Rejected _ => old
  end.

Definition docA : LoadFile.Document := {| LoadFile.name := "a.pdf"; LoadFile.doc_metadata := None |}.
Definition docB : LoadFile.Document := {| LoadFile.name := "b.txt"; LoadFile.doc_metadata := None |}.

(** A loaded document of two chunks; the second chunk has no metadata and
    keeps its text under [text]. *)
Definition twoChunks : LoadFile.LoadedContent := {|
  LoadFile.chunks :=
    Some [ {| LoadFile.content := Some "alpha"; LoadFile.text := None;
              LoadFile.metadata :=
                Some {| LoadFile.chunk_id := Some "c1"; LoadFile.page_number := Some 1%Z;
                        LoadFile.word_count := Some 1%Z; LoadFile.page_range := Some "1" |} |};
           {| LoadFile.content := None; LoadFile.text := Some "beta";
              LoadFile.metadata := None |} ];
  LoadFile.total_pages := Some 1%Z;
  LoadFile.total_chunks := Some 2%Z;
  LoadFile.loading_method := Some "pymupdf";
  LoadFile.chunking_method := None;
  LoadFile.timestamp := None;
  LoadFile.document_type := Some "pdf"
|}.

(** A server that accepts everything, lists [b.txt] alone and answers every
    load and every view with [twoChunks]. *)
Definition serving : LoadFile.Net := {|
  LoadFile.listAnswer :=
    Http.Resolved {| Http.status := 200;
                     Http.json := Http.JsonValue {| LoadFile.listed := Some [docB] |} |};
  LoadFile.loadAnswer := fun _ =>
    Http.Resolved {| Http.status := 200;
                     Http.json := Http.JsonValue {| LoadFile.loaded_content := Some twoChunks |} |};
  LoadFile.documentAnswer := fun _ =>
    Http.Resolved {| Http.status := 200; Http.json := Http.JsonValue (Some twoChunks) |};
  LoadFile.deleteAnswer := fun _ =>
    Http.Resolved {| Http.status := 200; Http.json := Http.JsonValue tt |}
|}.

(** What the server keeps under [a.pdf]: a single chunk. *)
Definition contentOfA : LoadFile.LoadedContent := {|
  LoadFile.chunks :=
    Some [ {| LoadFile.content := Some "kept under a.pdf"; LoadFile.text := None;
              LoadFile.metadata := None |} ];
  LoadFile.total_pages := None;
  LoadFile.total_chunks := Some 1%Z;
  LoadFile.loading_method := None;
  LoadFile.chunking_method := None;
  LoadFile.timestamp := None;
  LoadFile.document_type := Some "pdf"
|}.

(** A server that lists [a.pdf] and [b.txt], answers every view with
    [contentOfA] and every load with [twoChunks]. *)
Definition library : LoadFile.Net := {|
  LoadFile.listAnswer :=
    Http.Resolved {| Http.status := 200;
                     Http.json := Http.JsonValue {| LoadFile.listed := Some [docA; docB] |} |};
  LoadFile.loadAnswer := fun _ =>
    Http.Resolved {| Http.status := 200;
                     Http.json := Http.JsonValue {| LoadFile.loaded_content := Some twoChunks |} |};
  LoadFile.documentAnswer := fun _ =>
    Http.Resolved {| Http.status := 200; Http.json := Http.JsonValue (Some contentOfA) |};
  LoadFile.deleteAnswer := fun _ =>
    Http.Resolved {| Http.status := 200; Http.json := Http.JsonValue tt |}
|}.







(** The load page showing [a.pdf], out of a list of both documents. *)
Definition viewingA : LoadFile.State :=
  LoadFile.after (LoadFile.apply (LoadFile.setDocuments (Some [docA; docB])) LoadFile.initial)
                 (LoadFile.handleViewDocument serving docA).

(** The default loading method of a file type, as the specification lists
    them: the primary PDF reader for pdf, the basic text reader for txt and
    md, the tabular reader for csv. *)
Definition canonicalDefault (fileType : string) : option string :=
  if fileType =? "pdf" then Some "pymupdf"
  else if ((fileType =? "txt") || (fileType =? "md"))%bool then Some "basic"
  else if fileType =? "csv" then Some "pandas"
  else None.

(** The word the heading of a parsed item starts with. *)
Definition itemLabel (item : ParseFile.Item) : string :=
  if ParseFile.hasType item "image" then "图像"
  else if ParseFile.hasType item "table" then "表格" else "文本".

(** The file types the parse page ever holds; it names Markdown [markdown]. *)
Definition parseTypes : list string := ["pdf"; "markdown"; "txt"].

(** A chunk and a content item that carry nothing at all. *)
Definition bareChunk : LoadFile.Chunk :=
  {| LoadFile.content := None; LoadFile.text := None; LoadFile.metadata := None |}.

Definition bareItem : ParseFile.Item :=
  {| ParseFile.type := None; ParseFile.content := None; ParseFile.page := None;
     ParseFile.title := None; ParseFile.item_metadata := None |}.

(** A parsed document of one text item on page 1. *)
Definition onePage : ParseFile.ParsedContent := {|
  ParseFile.metadata :=
    Some {| ParseFile.total_pages := None; ParseFile.parsing_method := None;
            ParseFile.timestamp := None; ParseFile.file_type := Some "pdf" |};
  ParseFile.items :=
    Some [ {| ParseFile.type := Some "text"; ParseFile.content := Some "...";
              ParseFile.page := Some 1%Z; ParseFile.title := None;
              ParseFile.item_metadata := None |} ]
|}.

Definition parseServing : ParseFile.Net := {|
  ParseFile.parseAnswer := fun _ =>
    Http.Resolved {| Http.status := 200;
                     Http.json := Http.JsonValue {| ParseFile.parsed_content := Some onePage |} |}
|}.

(** The two pages after a submission the server answered. *)
Definition reportLoaded : LoadFile.State :=
  LoadFile.after reportPicked (LoadFile.handleProcess reportPicked serving).

Definition notesParsed : ParseFile.State :=
  ParseFile.after notesPicked (ParseFile.handleProcess notesPicked parseServing).

(** The decoded body of an answer that came back with an ok status and a
    body that could be read. *)
Definition answered {A} (answer : Http.Fetched A) : option A :=
  match answer with
  | Http.Resolved r =>
      if Http.ok r then
        match Http.json r with
        | Http.JsonValue data => Some data
        | Http.JsonThrows _ => None
        end
      else None
  | Http.Rejected _ => None
  end.

(** The message of what a handler catches on an answer: the error a
    rejected request carries, the HTTP error the handler throws on a status
    that is not ok and, when the handler reads the body, the error of a body
    that cannot be read. *)
Definition failure {A} (readsBody : bool) (answer : Http.Fetched A) : option string :=
  match answer with
  | Http.Rejected e => Some (LoadFile.errorText e)
  | Http.Resolved r =>
      if Http.ok r then
        match Http.json r with
        | Http.JsonThrows e => if readsBody then Some (LoadFile.errorText e) else None
        | Http.JsonValue _ => None
        end
      else Some ("HTTP error! status: " ++ Js.ofZ (Http.status r))%string
  end.

(** The load page showing [a.pdf] with [report.pdf] picked for a load. *)
Definition viewingThenPicked : LoadFile.State :=
  LoadFile.dispatch viewingA (LoadFile.handleFileChange [fileNamed "report.pdf"]).

(** The cells of the load page that make up its form. *)
Definition loadForm (s : LoadFile.State) :=
  (LoadFile.file s, LoadFile.fileType s, LoadFile.loadingMethod s, LoadFile.encoding s,
   LoadFile.delimiter s, LoadFile.usePandas s, LoadFile.unstructuredStrategy s,
   LoadFile.chunkingStrategy s, LoadFile.chunkingOptions s).

(** What holds of the form of the load page in every state it can reach. *)
Definition loadInvariant (s : LoadFile.State) : Prop :=
  In (LoadFile.fileType s) extensions
  /\ (In (LoadFile.loadingMethod s) (LoadFile.loadingMethodOptions s)
      \/ (LoadFile.fileType s = "other" /\ LoadFile.loadingMethod s = ""))
  /\ In (LoadFile.encoding s) ["utf-8"; "utf-16"; "gbk"; "gb2312"; "iso-8859-1"]
  /\ In (LoadFile.delimiter s) [","; ";"; "\t"; "|"]
  /\ LoadFile.usePandas s = true
  /\ In (LoadFile.unstructuredStrategy s) ["fast"; "hi_res"; "ocr_only"]
  /\ In (LoadFile.chunkingStrategy s) ["basic"; "by_title"]
  /\ In (LoadFile.activeTab s) ["preview"; "documents"].

(** The setter calls that leave the form alone and, when they change the
    tab, go to the preview. *)
Definition viewOnly (u : LoadFile.Setter) : bool :=
  match u with
  | LoadFile.setLoadedContent _ | LoadFile.setStatus _
  | LoadFile.setDocuments _ | LoadFile.setSelectedDoc _ => true
  | LoadFile.setActiveTab tab => tab =? "preview"
  | _ => false
  end.

(** The load page after [data.csv] has been picked and the delimiter and the
    encoding have been chosen, as a run of three events. *)
Definition csvEvents : list LoadFile.Action :=
  [LoadFile.PickFile [fileNamed "data.csv"];
   LoadFile.ChooseDelimiter ";";
   LoadFile.ChooseEncoding "gbk"].

(** What holds of the form of the parse page in every state it can reach. *)
Definition parseInvariant (p : ParseFile.State) : Prop :=
  In (ParseFile.fileType p) parseTypes
  /\ In (ParseFile.loadingMethod p) (ParseFile.loadingMethodOptions p)
  /\ In (ParseFile.parsingOption p)
        ["comprehensive"; "text_only"; "tables_only"; "images_only";
         "by_pages"; "by_titles"; "text_and_tables"].

(** The parse page after [notes.md] has been picked and its parsing option
    has been set to tables only, as a run of two events. *)
Definition notesEvents : list ParseFile.Action :=
  [ParseFile.PickFile [fileNamed "notes.md"]; ParseFile.ChooseParsingOption "tables_only"].

Definition notesForm : ParseFile.State :=
  fold_left ParseFile.perform notesEvents ParseFile.initial.

(** The letters that come in two cases. *)
Definition capitals : string := "ABCDEFGHIJKLMNOPQRSTUVWXYZ".
Definition smalls : string := "abcdefghijklmnopqrstuvwxyz".

(** [c] and [d] are the two cases of one letter: the k-th character of
    [upper] and the k-th character of [lower], in either order. *)
Fixpoint twoCases (upper lower : string) (c d : ascii) : bool :=
  match upper, lower with
  | String u upper', String l lower' =>
      ((Ascii.eqb c u && Ascii.eqb d l) || (Ascii.eqb c l && Ascii.eqb d u)
       || twoCases upper' lower' c d)%bool
  | _, _ => false
  end.

(** Two characters that are equal or the two cases of one letter. *)
Definition sameLetter (c d : ascii) : bool :=
  (Ascii.eqb c d || twoCases capitals smalls c d)%bool.

(** Two names that differ in letter case only. *)
Fixpoint sameLetters (a b : string) : bool :=
  match a, b with
  | EmptyString, EmptyString => true
  | String c a', String d b' => (sameLetter c d && sameLetters a' b')%bool
  | _, _ => false
  end.

(** A name made of ASCII characters. *)
Definition asciiName (n : string) : bool :=
  forallb (fun c => (nat_of_ascii c <? 128)%nat) (list_ascii_of_string n).

(** A name with each of its letters A..Z replaced by the small letter. *)
Fixpoint smallLetters (n : string) : string :=
  match n with
  | EmptyString => EmptyString
  | String c t => String (Js.lowerChar c) (smallLetters t)
  end.

(** Every character there is. *)
Definition allChars : list ascii := List.map ascii_of_nat (seq 0 256).

(** The integer a number of the chunking form is written as; [NaN] and the
    infinities are written [null], all alike. *)
Definition written (n : LoadFile.Number) : option Z :=
  match n with
  | LoadFile.Int z => Some z
  | _ => None
  end.

(** The numbers that [JSON.stringify] writes in full: [NaN], the infinities
    and the integers up to 2^53 in absolute value, which a double tells
    apart. *)
Definition writtenInFull (n : LoadFile.Number) : Prop :=
  match n with
  | LoadFile.Int z => (Z.abs z <= 2 ^ 53)%Z
  | _ => True
  end.

Definition optionsWrittenInFull (o : LoadFile.ChunkingOptions) : Prop :=
  writtenInFull (LoadFile.maxCharacters o)
  /\ writtenInFull (LoadFile.newAfterNChars o)
  /\ writtenInFull (LoadFile.combineTextUnderNChars o)
  /\ writtenInFull (LoadFile.overlap o).

(** The characters an integer is written with. *)
Definition numeralChars : list ascii :=
  ["0"; "1"; "2"; "3"; "4"; "5"; "6"; "7"; "8"; "9"; "-"]%char.

(** * Properties *)

(** ** The string builtins *)
Module JsFacts.

Example lower_report : Js.toLowerCase "REPORT.PDF" = "report.pdf".
Proof. reflexivity. Qed.

Example ends_pdf : Js.endsWith "report.pdf" ".pdf" = true.
Proof. reflexivity. Qed.

Example ends_short : Js.endsWith "pdf" ".pdf" = false.
Proof. reflexivity. Qed.

Example utf8_literal : Js.truthy "请选择所有必需的选项" = true.
Proof. reflexivity. Qed.

Example ofZ_500 : Js.ofZ 500 = "500".
Proof. reflexivity. Qed.

Example ofZ_0 : Js.ofZ 0 = "0".
Proof. reflexivity. Qed.

Lemma length_app (a b : string) :
  String.length (a ++ b) = String.length a + String.length b.
Proof.
  induction a as [|c a IH]; simpl; [reflexivity | now rewrite IH].
Qed.

Lemma append_empty_r (s : string) : (s ++ "")%string = s.
Proof.
  induction s as [|c s IH]; cbn; [reflexivity | now rewrite IH].
Qed.

Lemma substring_whole (s : string) : substring 0 (String.length s) s = s.
Proof.
  induction s as [|c s IH]; simpl; [reflexivity | now rewrite IH].
Qed.

Lemma substring_skip (p s : string) (m : nat) :
  substring (String.length p) m (p ++ s) = substring 0 m s.
Proof.
  induction p as [|c p IH]; simpl; [reflexivity | exact IH].
Qed.

Lemma substring_split (s : string) :
  forall k, k <= String.length s ->
  (substring 0 k s ++ substring k (String.length s - k) s)%string = s.
Proof.
  induction s as [|c s IH]; intros [|k] Hk; simpl in *.
  - reflexivity.
  - lia.
  - now rewrite substring_whole.
  - f_equal. apply IH. lia.
Qed.

Lemma substring_length (s : string) :
  forall k, k <= String.length s -> String.length (substring 0 k s) = k.
Proof.
  induction s as [|c s IH]; intros [|k] Hk; simpl in *; try reflexivity; try lia.
  f_equal. apply IH. lia.
Qed.

(** [endsWith] holds exactly of the strings that are a stem followed by the
    search string. *)
Lemma endsWith_spec (s suffix : string) :
  Js.endsWith s suffix = true <-> exists stem, s = (stem ++ suffix)%string.
Proof.
  unfold Js.endsWith. split.
  - destruct (Nat.ltb_spec (String.length s) (String.length suffix)) as [Hlt|Hge];
      [discriminate|].
    intros H. apply String.eqb_eq in H.
    remember (String.length s - String.length suffix) as k eqn:Hk.
    assert (Hm : String.length suffix = String.length s - k) by lia.
    exists (substring 0 k s).
    rewrite <- H, Hm. symmetry. apply substring_split. lia.
  - intros [stem ->]. rewrite length_app.
    destruct (Nat.ltb_spec (String.length stem + String.length suffix) (String.length suffix));
      [lia|].
    replace (String.length stem + String.length suffix - String.length suffix)
      with (String.length stem) by lia.
    rewrite substring_skip, substring_whole. apply String.eqb_refl.
Qed.

Lemma lastChar_app (a : string) (c : ascii) (b : string) :
  lastChar (a ++ String c b) = lastChar (String c b).
Proof.
  induction a as [|x a IH]; [reflexivity|].
  change ((String x a ++ String c b)%string) with (String x (a ++ String c b)%string).
  simpl lastChar at 1. rewrite IH.
  destruct a; reflexivity.
Qed.

Lemma endsWith_lastChar (s : string) (c : ascii) (suffix : string) :
  Js.endsWith s (String c suffix) = true -> lastChar s = lastChar (String c suffix).
Proof.
  intros H. apply endsWith_spec in H. destruct H as [stem ->]. apply lastChar_app.
Qed.

Example lower_kelvin :
  Js.toLowerCase ("x.mar" ++ String "226" (String "132" (String "170" "down")))
  = "x.markdown".
Proof. reflexivity. Qed.

Lemma truthy_false (s : string) : Js.truthy s = false <-> s = "".
Proof.
  unfold Js.truthy. destruct (String.eqb_spec s ""); simpl; split; congruence.
Qed.

Lemma truthy_true (s : string) : Js.truthy s = true <-> s <> "".
Proof.
  unfold Js.truthy. destruct (String.eqb_spec s ""); simpl; split; congruence.
Qed.

End JsFacts.

(** ** File-type inference *)

Lemma load_handleFileChange_trace (f : Http.File) (rest : list Http.File) :
  let fileName := Js.toLowerCase (Http.name f) in
  fst (LoadFile.handleFileChange (f :: rest)) =
    Update (LoadFile.setFile (Some f))
    :: (if Js.endsWith fileName ".pdf" then
          [Update (LoadFile.setFileType "pdf"); Update (LoadFile.setLoadingMethod "pymupdf")]
        else if Js.endsWith fileName ".txt" then
          [Update (LoadFile.setFileType "txt"); Update (LoadFile.setLoadingMethod "basic")]
        else if Js.endsWith fileName ".csv" then
          [Update (LoadFile.setFileType "csv"); Update (LoadFile.setLoadingMethod "pandas")]
        else if (Js.endsWith fileName ".md" || Js.endsWith fileName ".markdown")%bool then
          [Update (LoadFile.setFileType "md"); Update (LoadFile.setLoadingMethod "basic")]
        else
          [Update (LoadFile.setFileType "other"); Update (LoadFile.setLoadingMethod "")])
  /\ snd (LoadFile.handleFileChange (f :: rest)) = Returns tt.
Proof.
  intros fileName. unfold LoadFile.handleFileChange. fold fileName.
  destruct (Js.endsWith fileName ".pdf"); [split; reflexivity|].
  destruct (Js.endsWith fileName ".txt"); [split; reflexivity|].
  destruct (Js.endsWith fileName ".csv"); [split; reflexivity|].
  destruct (Js.endsWith fileName ".md" || Js.endsWith fileName ".markdown")%bool;
    split; reflexivity.
Qed.

Lemma parse_handleFileSelect_trace (f : Http.File) (rest : list Http.File) :
  let fileName := Js.toLowerCase (Http.name f) in
  fst (ParseFile.handleFileSelect (f :: rest)) =
    [Update (ParseFile.setFile (Some f));
     Update (ParseFile.setFileType
       (if Js.endsWith fileName ".pdf" then "pdf"
        else if (Js.endsWith fileName ".md" || Js.endsWith fileName ".markdown")%bool then "markdown"
        else if Js.endsWith fileName ".txt" then "txt"
        else "pdf"));
     Update (ParseFile.setDocName (Js.beforeFirst "." fileName))]
  /\ snd (ParseFile.handleFileSelect (f :: rest)) = Returns tt.
Proof.
  intros fileName. unfold ParseFile.handleFileSelect. fold fileName.
  destruct (Js.endsWith fileName ".pdf"); [split; reflexivity|].
  destruct (Js.endsWith fileName ".md" || Js.endsWith fileName ".markdown")%bool;
    [split; reflexivity|].
  destruct (Js.endsWith fileName ".txt"); split; reflexivity.
Qed.

Lemma loadInferred_eq (s : LoadFile.State) (n : string) :
  let fileName := Js.toLowerCase n in
  loadInferred s n =
    if Js.endsWith fileName ".pdf" then "pdf"
    else if Js.endsWith fileName ".txt" then "txt"
    else if Js.endsWith fileName ".csv" then "csv"
    else if (Js.endsWith fileName ".md" || Js.endsWith fileName ".markdown")%bool then "md"
    else "other".
Proof.
  intros fileName. unfold loadInferred, LoadFile.after, fileNamed.
  destruct (load_handleFileChange_trace {| Http.name := n |} []) as [-> _].
  cbn [Http.name]. fold fileName. destruct s.
  destruct (Js.endsWith fileName ".pdf"); [reflexivity|].
  destruct (Js.endsWith fileName ".txt"); [reflexivity|].
  destruct (Js.endsWith fileName ".csv"); [reflexivity|].
  destruct (Js.endsWith fileName ".md" || Js.endsWith fileName ".markdown")%bool; reflexivity.
Qed.

Lemma parseInferred_eq (p : ParseFile.State) (n : string) :
  let fileName := Js.toLowerCase n in
  parseInferred p n =
    if Js.endsWith fileName ".pdf" then "pdf"
    else if (Js.endsWith fileName ".md" || Js.endsWith fileName ".markdown")%bool then "markdown"
    else if Js.endsWith fileName ".txt" then "txt"
    else "pdf".
Proof.
  intros fileName. unfold parseInferred, ParseFile.after, fileNamed.
  destruct (parse_handleFileSelect_trace {| Http.name := n |} []) as [-> _].
  cbn [Http.name]. fold fileName. destruct p. reflexivity.
Qed.

Lemma load_after_pick (s : LoadFile.State) (f : Http.File) (rest : list Http.File) :
  LoadFile.fileType (LoadFile.after s (LoadFile.handleFileChange (f :: rest)))
  = loadInferred s (Http.name f).
Proof.
  unfold loadInferred, LoadFile.after, fileNamed.
  destruct (load_handleFileChange_trace f rest) as [-> _].
  destruct (load_handleFileChange_trace {| Http.name := Http.name f |} []) as [-> _].
  cbn [Http.name]. destruct s.
  destruct (Js.endsWith _ ".pdf"); [reflexivity|].
  destruct (Js.endsWith _ ".txt"); [reflexivity|].
  destruct (Js.endsWith _ ".csv"); [reflexivity|].
  destruct (Js.endsWith _ ".md" || Js.endsWith _ ".markdown")%bool; reflexivity.
Qed.

Lemma parse_after_pick (p : ParseFile.State) (f : Http.File) (rest : list Http.File) :
  ParseFile.fileType (ParseFile.after p (ParseFile.handleFileSelect (f :: rest)))
  = parseInferred p (Http.name f).
Proof.
  unfold parseInferred, ParseFile.after, fileNamed.
  destruct (parse_handleFileSelect_trace f rest) as [-> _].
  destruct (parse_handleFileSelect_trace {| Http.name := Http.name f |} []) as [-> _].
  cbn [Http.name]. destruct p. reflexivity.
Qed.

Lemma parseInferred_types (p : ParseFile.State) (n : string) :
  In (parseInferred p n) ["pdf"; "markdown"; "txt"].
Proof.
  rewrite parseInferred_eq. cbv zeta.
  destruct (Js.endsWith _ ".pdf"); [simpl; tauto|].
  destruct (Js.endsWith _ ".md" || Js.endsWith _ ".markdown")%bool; [simpl; tauto|].
  destruct (Js.endsWith _ ".txt"); simpl; tauto.
Qed.

(** Picking the same file again changes nothing on the load page. *)
Lemma load_handleFileChange_idempotent (s : LoadFile.State) (files : list Http.File) :
  LoadFile.after (LoadFile.after s (LoadFile.handleFileChange files))
                 (LoadFile.handleFileChange files)
  = LoadFile.after s (LoadFile.handleFileChange files).
Proof.
  destruct files as [|f rest]; [reflexivity|].
  unfold LoadFile.after.
  destruct (load_handleFileChange_trace f rest) as [-> _].
  destruct s.
  destruct (Js.endsWith _ ".pdf"); [reflexivity|].
  destruct (Js.endsWith _ ".txt"); [reflexivity|].
  destruct (Js.endsWith _ ".csv"); [reflexivity|].
  destruct (Js.endsWith _ ".md" || Js.endsWith _ ".markdown")%bool; reflexivity.
Qed.

(** The extensions exclude one another, so the order of the tests decides
    nothing by itself. *)
Lemma extensions_exclusive (n : string) :
  let hits := filter (Js.endsWith n) [".pdf"; ".txt"; ".csv"; ".md"; ".markdown"] in
  List.length hits <= 1.
Proof.
  cbn [filter].
  destruct (Js.endsWith n ".pdf") eqn:E1; destruct (Js.endsWith n ".txt") eqn:E2;
  destruct (Js.endsWith n ".csv") eqn:E3; destruct (Js.endsWith n ".md") eqn:E4;
  destruct (Js.endsWith n ".markdown") eqn:E5; cbn [List.length]; try lia;
  repeat match goal with
         | H : Js.endsWith n _ = true |- _ => apply JsFacts.endsWith_lastChar in H; cbn in H
         end;
  congruence.
Qed.

(** C1, as the specification states it, fails on the parse page: a Markdown file is
    given the type [markdown], which is not one of pdf, txt, csv, md, other,
    and a name with no known extension is given [pdf], not [other]. *)
Lemma C1_parse_page_counterexample :
  parseInferred ParseFile.initial "notes.md" = "markdown"
  /\ ~ In (parseInferred ParseFile.initial "notes.md") extensions
  /\ parseInferred ParseFile.initial "data.csv" = "pdf".
Proof.
  repeat split; try reflexivity.
  intros H. vm_compute in H. intuition discriminate.
Qed.

(** C1 (amended): on both pages the type inferred for a picked file is a
    function of its name alone, computed without any request and without
    failing.  On the load page the lower-cased name is tested for .pdf, then
    .txt, then .csv, then .md or .markdown; the result is one of pdf, txt,
    csv, md, other, a name matching none of them gets [other], and picking
    the same file again leaves the state as it is.  On the parse page the
    tests are .pdf, then .md or .markdown, then .txt; the result is one of
    pdf, markdown, txt, and a name matching none of them gets [pdf]. *)
Theorem C1_file_type_inference
    (s : LoadFile.State) (p : ParseFile.State) (f : Http.File) (rest : list Http.File) :
  let fileName := Js.toLowerCase (Http.name f) in
  let picked := LoadFile.handleFileChange (f :: rest) in
  let picked' := ParseFile.handleFileSelect (f :: rest) in
  (* the load page *)
  LoadFile.fileType (LoadFile.after s picked) =
    (if Js.endsWith fileName ".pdf" then "pdf"
     else if Js.endsWith fileName ".txt" then "txt"
     else if Js.endsWith fileName ".csv" then "csv"
     else if (Js.endsWith fileName ".md" || Js.endsWith fileName ".markdown")%bool then "md"
     else "other")
  /\ In (LoadFile.fileType (LoadFile.after s picked)) extensions
  /\ LoadFile.fileType (LoadFile.after s picked) = loadInferred LoadFile.initial (Http.name f)
  /\ LoadFile.after (LoadFile.after s picked) picked = LoadFile.after s picked
  /\ Task.requests (fst picked) = [] /\ snd picked = Returns tt
  (* the parse page *)
  /\ ParseFile.fileType (ParseFile.after p picked') =
    (if Js.endsWith fileName ".pdf" then "pdf"
     else if (Js.endsWith fileName ".md" || Js.endsWith fileName ".markdown")%bool then "markdown"
     else if Js.endsWith fileName ".txt" then "txt"
     else "pdf")
  /\ In (ParseFile.fileType (ParseFile.after p picked')) ["pdf"; "markdown"; "txt"]
  /\ ParseFile.fileType (ParseFile.after p picked') = parseInferred ParseFile.initial (Http.name f)
  /\ Task.requests (fst picked') = [] /\ snd picked' = Returns tt.
Proof.
  intros fileName picked picked'.
  pose proof (load_after_pick s f rest) as L. fold picked in L.
  pose proof (parse_after_pick p f rest) as P. fold picked' in P.
  rewrite L, P.
  pose proof (loadInferred_eq s (Http.name f)) as Ls.
  pose proof (loadInferred_eq LoadFile.initial (Http.name f)) as Li.
  pose proof (parseInferred_eq p (Http.name f)) as Ps.
  pose proof (parseInferred_eq ParseFile.initial (Http.name f)) as Pi.
  cbv zeta in Ls, Li, Ps, Pi. fold fileName in Ls, Li, Ps, Pi.
  destruct (load_handleFileChange_trace f rest) as [Lt Lr].
  destruct (parse_handleFileSelect_trace f rest) as [Pt Pr].
  fold picked in Lt, Lr. fold picked' in Pt, Pr. fold fileName in Lt, Pt.
  repeat split.
  - exact Ls.
  - rewrite Ls. unfold extensions.
    destruct (Js.endsWith fileName ".pdf"); [simpl; tauto|].
    destruct (Js.endsWith fileName ".txt"); [simpl; tauto|].
    destruct (Js.endsWith fileName ".csv"); [simpl; tauto|].
    destruct (Js.endsWith fileName ".md" || Js.endsWith fileName ".markdown")%bool;
      simpl; tauto.
  - now rewrite Ls, Li.
  - apply load_handleFileChange_idempotent.
  - rewrite Lt.
    destruct (Js.endsWith fileName ".pdf"); [reflexivity|].
    destruct (Js.endsWith fileName ".txt"); [reflexivity|].
    destruct (Js.endsWith fileName ".csv"); [reflexivity|].
    destruct (Js.endsWith fileName ".md" || Js.endsWith fileName ".markdown")%bool;
      reflexivity.
  - exact Lr.
  - exact Ps.
  - apply parseInferred_types.
  - now rewrite Ps, Pi.
  - now rewrite Pt.
  - exact Pr.
Qed.

Lemma endsWith_own_suffix (stem suffix : string) :
  Js.endsWith (stem ++ suffix) suffix = true.
Proof. apply JsFacts.endsWith_spec. now exists stem. Qed.

Lemma endsWith_other_suffix (stem : string) (c : ascii) (t : string) (c' : ascii) (t' : string) :
  lastChar (String c t) <> lastChar (String c' t') ->
  Js.endsWith (stem ++ String c t) (String c' t') = false.
Proof.
  intros Hne. destruct (Js.endsWith (stem ++ String c t) (String c' t')) eqn:E; [|reflexivity].
  apply JsFacts.endsWith_lastChar in E. rewrite JsFacts.lastChar_app in E. contradiction.
Qed.

Lemma allChars_complete (c : ascii) : In c allChars.
Proof.
  rewrite <- (ascii_nat_embedding c). apply in_map, in_seq.
  pose proof (nat_ascii_bounded c). lia.
Qed.

(** What holds of every character, checked on each of them. *)
Lemma every_char (P : ascii -> bool) :
  forallb P allChars = true -> forall c, P c = true.
Proof.
  intros H c. rewrite forallb_forall in H. apply H, allChars_complete.
Qed.

Lemma every_two_chars (P : ascii -> ascii -> bool) :
  forallb (fun c => forallb (P c) allChars) allChars = true -> forall c d, P c d = true.
Proof.
  intros H c d. apply (every_char (P c)). apply (every_char _ H).
Qed.

(** An ASCII character is none of the bytes that [toLowerCase] looks for. *)
Lemma ascii_no_byte (c : ascii) :
  (nat_of_ascii c <? 128)%nat = true ->
  Ascii.eqb c "196"%char = false /\ Ascii.eqb c "176"%char = false /\ Ascii.eqb c "226"%char = false
  /\ Ascii.eqb c "132"%char = false /\ Ascii.eqb c "170"%char = false.
Proof.
  intros H.
  pose proof (every_char
                (fun c => implb (nat_of_ascii c <? 128)%nat
                            (negb (Ascii.eqb c "196") && negb (Ascii.eqb c "176")
                             && negb (Ascii.eqb c "226") && negb (Ascii.eqb c "132")
                             && negb (Ascii.eqb c "170"))%bool)
                ltac:(vm_compute; reflexivity) c) as E.
  cbv beta in E. rewrite H in E. cbn [implb] in E.
  repeat (apply andb_prop in E; destruct E as [E ?]).
  repeat split; now apply Bool.negb_true_iff.
Qed.

(** On a name of ASCII characters, lower-casing folds the letters A..Z one
    by one. *)
Lemma toLowerCase_ascii (n : string) :
  asciiName n = true -> Js.toLowerCase n = smallLetters n.
Proof.
  induction n as [|c t IH]; [reflexivity|].
  unfold asciiName. cbn [list_ascii_of_string forallb]. intros H.
  apply andb_prop in H. destruct H as [Hc Ht].
  destruct (ascii_no_byte c Hc) as (B1 & _ & B2 & _).
  cbn [smallLetters]. rewrite <- (IH Ht).
  destruct t as [|d [|e t'']]; cbn [Js.toLowerCase]; rewrite ?B1, ?B2; reflexivity.
Qed.

(** The two cases of a letter are lower-cased to the same character, and
    are the same bytes to [toLowerCase]. *)
Lemma sameLetter_lowerChar (c d : ascii) :
  sameLetter c d = true ->
  Js.lowerChar c = Js.lowerChar d
  /\ Ascii.eqb c "196"%char = Ascii.eqb d "196"%char /\ Ascii.eqb c "176"%char = Ascii.eqb d "176"%char
  /\ Ascii.eqb c "226"%char = Ascii.eqb d "226"%char /\ Ascii.eqb c "132"%char = Ascii.eqb d "132"%char
  /\ Ascii.eqb c "170"%char = Ascii.eqb d "170"%char.
Proof.
  intros H.
  pose proof (every_two_chars
                (fun c d => implb (sameLetter c d)
                   (Ascii.eqb (Js.lowerChar c) (Js.lowerChar d)
                    && Bool.eqb (Ascii.eqb c "196"%char) (Ascii.eqb d "196"%char)
                    && Bool.eqb (Ascii.eqb c "176"%char) (Ascii.eqb d "176"%char)
                    && Bool.eqb (Ascii.eqb c "226"%char) (Ascii.eqb d "226"%char)
                    && Bool.eqb (Ascii.eqb c "132"%char) (Ascii.eqb d "132"%char)
                    && Bool.eqb (Ascii.eqb c "170"%char) (Ascii.eqb d "170"%char))%bool)) as E.
  specialize (E ltac:(vm_compute; reflexivity) c d). cbv beta in E.
  rewrite H in E. cbn [implb] in E.
  repeat (apply andb_prop in E; destruct E as [E ?]).
  repeat split; try (now apply Bool.eqb_prop). now apply Ascii.eqb_eq.
Qed.

Lemma sameLetters_length (a b : string) :
  sameLetters a b = true -> String.length a = String.length b.
Proof.
  revert b. induction a as [|c a IH]; intros [|d b]; cbn; try congruence.
  intros H. apply andb_prop in H. destruct H as [_ H]. now rewrite (IH b H).
Qed.

(** Names that differ in letter case only are lower-cased to the same name. *)
Lemma sameLetters_toLowerCase (a b : string) :
  sameLetters a b = true -> Js.toLowerCase a = Js.toLowerCase b.
Proof.
  remember (String.length a) as n eqn:Hn. revert a b Hn.
  induction n as [n IH] using (well_founded_induction lt_wf).
  intros a b Hn H.
  destruct a as [|c t], b as [|c' u]; try discriminate; [reflexivity|].
  cbn [sameLetters] in H. apply andb_prop in H. destruct H as [Hc Ht].
  destruct (sameLetter_lowerChar c c' Hc) as (L & C196 & _ & C226 & _).
  assert (Rt : Js.toLowerCase t = Js.toLowerCase u).
  { apply (IH (String.length t)); [subst n; cbn; lia | reflexivity | exact Ht]. }
  destruct t as [|d t'], u as [|d' u']; try discriminate.
  { cbn [Js.toLowerCase]. now rewrite L. }
  cbn [sameLetters] in Ht. apply andb_prop in Ht. destruct Ht as [Hd Ht'].
  destruct (sameLetter_lowerChar d d' Hd) as (_ & _ & D176 & _ & D132 & _).
  assert (Rt' : Js.toLowerCase t' = Js.toLowerCase u').
  { apply (IH (String.length t')); [subst n; cbn; lia | reflexivity | exact Ht']. }
  change (Js.toLowerCase (String c (String d t')))
    with (if (Ascii.eqb c "196"%char && Ascii.eqb d "176"%char)%bool then
            String "i" (String "204"%char (String "135"%char (Js.toLowerCase t')))
          else
            match t' with
            | String e t'' =>
                if (Ascii.eqb c "226"%char && Ascii.eqb d "132"%char && Ascii.eqb e "170"%char)%bool then
                  String "k" (Js.toLowerCase t'')
                else String (Js.lowerChar c) (Js.toLowerCase (String d t'))
            | EmptyString => String (Js.lowerChar c) (Js.toLowerCase (String d t'))
            end).
  change (Js.toLowerCase (String c' (String d' u')))
    with (if (Ascii.eqb c' "196"%char && Ascii.eqb d' "176"%char)%bool then
            String "i" (String "204"%char (String "135"%char (Js.toLowerCase u')))
          else
            match u' with
            | String e t'' =>
                if (Ascii.eqb c' "226"%char && Ascii.eqb d' "132"%char && Ascii.eqb e "170"%char)%bool then
                  String "k" (Js.toLowerCase t'')
                else String (Js.lowerChar c') (Js.toLowerCase (String d' u'))
            | EmptyString => String (Js.lowerChar c') (Js.toLowerCase (String d' u'))
            end).
  rewrite <- C196, <- D176, <- C226, <- D132, <- L, <- Rt, <- Rt'.
  destruct (Ascii.eqb c "196"%char && Ascii.eqb d "176"%char)%bool; [reflexivity|].
  destruct t' as [|e t''], u' as [|e' u'']; try discriminate; [reflexivity|].
  cbn [sameLetters] in Ht'. apply andb_prop in Ht'. destruct Ht' as [He Ht''].
  destruct (sameLetter_lowerChar e e' He) as (_ & _ & _ & _ & _ & E170).
  rewrite <- E170.
  destruct (Ascii.eqb c "226"%char && Ascii.eqb d "132"%char && Ascii.eqb e "170"%char)%bool; [|reflexivity].
  f_equal. apply (IH (String.length t'')); [subst n; cbn; lia | reflexivity | exact Ht''].
Qed.

Lemma sameLetters_refl (a : string) : sameLetters a a = true.
Proof.
  induction a as [|c a IH]; cbn; [reflexivity|].
  unfold sameLetter. now rewrite Ascii.eqb_refl, IH.
Qed.

Lemma sameLetters_app (stem a b : string) :
  sameLetters a b = true -> sameLetters (stem ++ a) (stem ++ b) = true.
Proof.
  intros H. induction stem as [|c stem IH]; cbn; [exact H|].
  unfold sameLetter. now rewrite Ascii.eqb_refl, IH.
Qed.

(** Lower-casing keeps an ending made of ASCII characters other than the
    letters A..Z. *)
Lemma toLowerCase_keeps_ending (ending : string) :
  asciiName ending = true -> smallLetters ending = ending ->
  forall stem, exists lowered, Js.toLowerCase (stem ++ ending) = (lowered ++ ending)%string.
Proof.
  intros Ha Hs.
  assert (He : Js.toLowerCase ending = ending) by now rewrite toLowerCase_ascii.
  intros stem. remember (String.length stem) as n eqn:Hn. revert stem Hn.
  induction n as [n IH] using (well_founded_induction lt_wf).
  intros stem Hn.
  destruct stem as [|c rest]; [exists ""; exact He|].
  assert (Hrest : exists lowered,
            Js.toLowerCase (rest ++ ending) = (lowered ++ ending)%string)
    by (apply (IH (String.length rest)); [subst n; cbn; lia | reflexivity]).
  destruct Hrest as [lowRest Hrest].
  assert (plain : exists lowered,
            String (Js.lowerChar c) (Js.toLowerCase (rest ++ ending))
            = (lowered ++ ending)%string).
  { exists (String (Js.lowerChar c) lowRest). now rewrite Hrest. }
  destruct rest as [|d [|e rest'']].
  - (* the character before the ending *)
    cbn [append] in *. destruct ending as [|x ending'].
    + now exists (String (Js.lowerChar c) "").
    + unfold asciiName in Ha. cbn [list_ascii_of_string forallb] in Ha.
      apply andb_prop in Ha. destruct Ha as [Hx Ha].
      destruct (ascii_no_byte x Hx) as (_ & X176 & _ & X132 & _).
      destruct ending' as [|y ending'']; cbn [Js.toLowerCase] in plain |- *;
        rewrite ?X176, ?X132, ?Bool.andb_false_r; exact plain.
  - (* two characters before the ending *)
    cbn [append] in *. destruct ending as [|x ending'].
    + destruct (Ascii.eqb c "196"%char && Ascii.eqb d "176"%char)%bool eqn:T.
      * eexists. cbn [Js.toLowerCase]. rewrite T. symmetry. apply JsFacts.append_empty_r.
      * cbn [Js.toLowerCase] in plain |- *. rewrite T in *. exact plain.
    + unfold asciiName in Ha. cbn [list_ascii_of_string forallb] in Ha.
      apply andb_prop in Ha. destruct Ha as [Hx Ha'].
      destruct (ascii_no_byte x Hx) as (_ & _ & _ & _ & X170).
      cbn [Js.toLowerCase] in plain |- *.
      destruct (Ascii.eqb c "196"%char && Ascii.eqb d "176"%char)%bool eqn:T.
      * exists (String "i" (String "204"%char (String "135"%char ""))).
        cbn [append]. do 3 f_equal. exact He.
      * rewrite X170, !Bool.andb_false_r in *. exact plain.
  - (* three characters or more *)
    cbn [append] in *.
    change (Js.toLowerCase (String c (String d (String e (rest'' ++ ending)))))
      with (if (Ascii.eqb c "196"%char && Ascii.eqb d "176"%char)%bool then
              String "i" (String "204"%char
                            (String "135"%char
                               (Js.toLowerCase (String e (rest'' ++ ending)))))
            else if (Ascii.eqb c "226"%char && Ascii.eqb d "132"%char && Ascii.eqb e "170"%char)%bool then
                   String "k" (Js.toLowerCase (rest'' ++ ending))
                 else String (Js.lowerChar c)
                        (Js.toLowerCase (String d (String e (rest'' ++ ending))))).
    destruct (Ascii.eqb c "196"%char && Ascii.eqb d "176"%char)%bool.
    + destruct (IH (String.length (String e rest''))
                  ltac:(subst n; cbn; lia) (String e rest'') eq_refl) as [low Hlow].
      cbn [append] in Hlow. rewrite Hlow.
      now exists (String "i" (String "204"%char (String "135"%char low))).
    + destruct (Ascii.eqb c "226"%char && Ascii.eqb d "132"%char && Ascii.eqb e "170"%char)%bool.
      * destruct (IH (String.length rest'') ltac:(subst n; cbn; lia) rest'' eq_refl)
          as [low Hlow].
        rewrite Hlow. now exists (String "k" low).
      * exact plain.
Qed.

(** What each page infers for a lower-case extension after any stem. *)
Lemma inferred_known (s : LoadFile.State) (p : ParseFile.State) (stem : string) :
  (loadInferred s (stem ++ ".pdf") = "pdf" /\ parseInferred p (stem ++ ".pdf") = "pdf")
  /\ (loadInferred s (stem ++ ".txt") = "txt" /\ parseInferred p (stem ++ ".txt") = "txt")
  /\ (loadInferred s (stem ++ ".csv") = "csv" /\ parseInferred p (stem ++ ".csv") = "pdf")
  /\ (loadInferred s (stem ++ ".md") = "md" /\ parseInferred p (stem ++ ".md") = "markdown")
  /\ (loadInferred s (stem ++ ".markdown") = "md"
      /\ parseInferred p (stem ++ ".markdown") = "markdown").
Proof.
  repeat split;
    first [rewrite loadInferred_eq | rewrite parseInferred_eq];
    cbv zeta;
    match goal with
    | |- context [Js.toLowerCase (stem ++ ?e)] =>
        destruct (toLowerCase_keeps_ending e eq_refl eq_refl stem) as [lowered ->]
    end;
    repeat (rewrite endsWith_own_suffix
            || (rewrite endsWith_other_suffix by (cbn; congruence)));
    reflexivity.
Qed.

Example report_pdf_upper :
  loadInferred LoadFile.initial "REPORT.PDF" = "pdf"
  /\ parseInferred ParseFile.initial "REPORT.PDF" = "pdf".
Proof. split; reflexivity. Qed.

(** A name that spells the k of [.markdown] with the Kelvin sign. *)
Example markdown_with_kelvin_sign :
  let n := ("x.mar" ++ String "226" (String "132" (String "170" "down")))%string in
  loadInferred LoadFile.initial n = "md" /\ parseInferred ParseFile.initial n = "markdown".
Proof. split; reflexivity. Qed.

(** C10: on both pages the inference does not see the case of the letters
    A..Z.  Two names that differ in letter case only are given the same type,
    and a name that ends in a known extension written in any mix of cases (as
    in REPORT.PDF) is given the type of that extension, which is the type of
    the name written in small letters. *)
Theorem C10_case_insensitive_inference
    (s : LoadFile.State) (p : ParseFile.State) (n n' : string)
    (H : sameLetters n n' = true) :
  loadInferred s n = loadInferred s n'
  /\ parseInferred p n = parseInferred p n'
  /\ (forall stem ext, n = (stem ++ ext)%string ->
        (sameLetters ext ".pdf" = true ->
           loadInferred s n = "pdf" /\ parseInferred p n = "pdf")
        /\ (sameLetters ext ".txt" = true ->
              loadInferred s n = "txt" /\ parseInferred p n = "txt")
        /\ (sameLetters ext ".csv" = true ->
              loadInferred s n = "csv" /\ parseInferred p n = "pdf")
        /\ (sameLetters ext ".md" = true \/ sameLetters ext ".markdown" = true ->
              loadInferred s n = "md" /\ parseInferred p n = "markdown")).
Proof.
  assert (same : forall m m', Js.toLowerCase m = Js.toLowerCase m' ->
            loadInferred s m = loadInferred s m' /\ parseInferred p m = parseInferred p m').
  { intros m m' Hm.
    pose proof (loadInferred_eq s m) as Lm. pose proof (loadInferred_eq s m') as Ln.
    pose proof (parseInferred_eq p m) as Pm. pose proof (parseInferred_eq p m') as Pn.
    cbv zeta in *. rewrite Hm in Lm, Pm. split; congruence. }
  assert (low : forall stem ext e, n = (stem ++ ext)%string ->
            sameLetters ext e = true ->
            loadInferred s n = loadInferred s (stem ++ e)
            /\ parseInferred p n = parseInferred p (stem ++ e)).
  { intros stem ext e Hn He. apply same.
    rewrite Hn. now apply sameLetters_toLowerCase, sameLetters_app. }
  destruct (same n n' (sameLetters_toLowerCase n n' H)) as [L0 P0].
  split; [exact L0|]. split; [exact P0|].
  intros stem ext Hn.
  destruct (inferred_known s p stem)
    as [[L1 P1] [[L2 P2] [[L3 P3] [[L4 P4] [L5 P5]]]]].
  split; [|split; [|split]]; intros He.
  - destruct (low stem ext ".pdf" Hn He). split; congruence.
  - destruct (low stem ext ".txt" Hn He). split; congruence.
  - destruct (low stem ext ".csv" Hn He). split; congruence.
  - destruct He as [He|He].
    + destruct (low stem ext ".md" Hn He). split; congruence.
    + destruct (low stem ext ".markdown" Hn He). split; congruence.
Qed.

(** C10 at work: [REPORT.PDF] against [report.pdf]. *)
Lemma C10_case_insensitive_inference_witness :
  sameLetters "REPORT.PDF" "report.pdf" = true
  /\ loadInferred LoadFile.initial "REPORT.PDF" = loadInferred LoadFile.initial "report.pdf"
  /\ parseInferred ParseFile.initial "REPORT.PDF" = parseInferred ParseFile.initial "report.pdf"
  /\ loadInferred LoadFile.initial "REPORT.PDF" = "pdf"
  /\ parseInferred ParseFile.initial "REPORT.PDF" = "pdf".
Proof.
  destruct (C10_case_insensitive_inference LoadFile.initial ParseFile.initial
              "REPORT.PDF" "report.pdf" eq_refl) as (L & P & E).
  destruct (E "REPORT" ".PDF" eq_refl) as (Pdf & _).
  destruct (Pdf eq_refl) as [L' P'].
  split; [reflexivity|]. split; [exact L|]. split; [exact P|]. split; [exact L' | exact P'].
Defined.

(** ** Submissions *)

Lemma fetchDocuments_run (net : LoadFile.Net) :
  LoadFile.fetchDocuments net = (Sent LoadFile.listRequest :: documentsSettled net, Returns tt).
Proof.
  unfold LoadFile.fetchDocuments, documentsSettled.
  destruct (LoadFile.listAnswer net) as [e|listing]; [reflexivity|].
  unfold fetch, json, bind, tryCatch.
  destruct (Http.json listing); reflexivity.
Qed.

(** The run of a load submission that passes the check on [file] and
    [loadingMethod]. *)
Lemma load_handleProcess_run (s : LoadFile.State) (f : Http.File) (net : LoadFile.Net) :
  LoadFile.file s = Some f -> LoadFile.loadingMethod s <> "" ->
  LoadFile.handleProcess s net =
    ([Update (LoadFile.setStatus "加载中..."); Update (LoadFile.setLoadedContent None);
      Sent (LoadFile.loadRequest (LoadFile.formData s f))]
     ++ match LoadFile.loadAnswer net (LoadFile.formData s f) with
        | Http.Rejected e => [Update (LoadFile.setStatus ("错误: " ++ LoadFile.errorText e))]
        | Http.Resolved r =>
            if Http.ok r then
              BodyRead ::
              match Http.json r with
              | Http.JsonThrows e =>
                  [Update (LoadFile.setStatus ("错误: " ++ LoadFile.errorText e))]
              | Http.JsonValue data =>
                  [Update (LoadFile.setLoadedContent (LoadFile.loaded_content data));
                   Update (LoadFile.setStatus "文件加载成功!");
                   Sent LoadFile.listRequest;
                   Update (LoadFile.setActiveTab "preview")]
                  ++ documentsSettled net
              end
            else [Update (LoadFile.setStatus
                            ("错误: HTTP error! status: " ++ Js.ofZ (Http.status r)))]
        end,
     Returns tt).
Proof.
  intros Hf Hm. apply JsFacts.truthy_true in Hm.
  unfold LoadFile.handleProcess. rewrite Hf, Hm.
  destruct (LoadFile.loadAnswer net (LoadFile.formData s f)) as [e|r]; [reflexivity|].
  unfold fetch, bind, tryCatch, throw, set, json, unawaited.
  rewrite fetchDocuments_run.
  destruct (Http.ok r); [|reflexivity].
  destruct (Http.json r); reflexivity.
Qed.

(** The run of a parse submission that passes the check on [file],
    [loadingMethod] and [parsingOption]. *)
Lemma parse_handleProcess_run (p : ParseFile.State) (f : Http.File) (net : ParseFile.Net) :
  ParseFile.file p = Some f -> ParseFile.loadingMethod p <> "" ->
  ParseFile.parsingOption p <> "" ->
  ParseFile.handleProcess p net =
    ([Update (ParseFile.setStatus "处理中..."); Update (ParseFile.setParsedContent None);
      Update (ParseFile.setIsProcessed false);
      Sent (ParseFile.parseRequest (ParseFile.formData p f))]
     ++ match ParseFile.parseAnswer net (ParseFile.formData p f) with
        | Http.Rejected e => [Update (ParseFile.setStatus ("错误: " ++ ParseFile.errorText e))]
        | Http.Resolved r =>
            if Http.ok r then
              BodyRead ::
              match Http.json r with
              | Http.JsonThrows e =>
                  [Update (ParseFile.setStatus ("错误: " ++ ParseFile.errorText e))]
              | Http.JsonValue data =>
                  [Update (ParseFile.setParsedContent (ParseFile.parsed_content data));
                   Update (ParseFile.setStatus "处理成功完成!");
                   Update (ParseFile.setIsProcessed true)]
              end
            else [Update (ParseFile.setStatus
                            ("错误: HTTP error! status: " ++ Js.ofZ (Http.status r)))]
        end,
     Returns tt).
Proof.
  intros Hf Hm Ho. apply JsFacts.truthy_true in Hm, Ho.
  unfold ParseFile.handleProcess. rewrite Hf, Hm, Ho.
  destruct (ParseFile.parseAnswer net (ParseFile.formData p f)) as [e|r]; [reflexivity|].
  unfold fetch, bind, tryCatch, throw, set, json.
  destruct (Http.ok r); [|reflexivity].
  destruct (Http.json r); reflexivity.
Qed.

(** C2: on either page, a submission made while no file is selected or while
    the loading method is empty sends no request and sets the status to a
    non-empty message; nothing else of the state changes. *)
Theorem C2_rejected_submission
    (s : LoadFile.State) (net : LoadFile.Net) (p : ParseFile.State) (pnet : ParseFile.Net)
    (Hs : LoadFile.file s = None \/ LoadFile.loadingMethod s = "")
    (Hp : ParseFile.file p = None \/ ParseFile.loadingMethod p = "") :
  (Task.requests (fst (LoadFile.handleProcess s net)) = []
   /\ LoadFile.status (LoadFile.after s (LoadFile.handleProcess s net)) <> ""
   /\ LoadFile.after s (LoadFile.handleProcess s net)
      = LoadFile.apply (LoadFile.setStatus "请选择所有必需的选项") s)
  /\ (Task.requests (fst (ParseFile.handleProcess p pnet)) = []
      /\ ParseFile.status (ParseFile.after p (ParseFile.handleProcess p pnet)) <> ""
      /\ ParseFile.after p (ParseFile.handleProcess p pnet)
         = ParseFile.apply (ParseFile.setStatus "请选择所有必需的选项") p).
Proof.
  split.
  - assert (E : LoadFile.handleProcess s net = set (LoadFile.setStatus "请选择所有必需的选项")).
    { unfold LoadFile.handleProcess.
      destruct (LoadFile.file s) as [f|]; [|reflexivity].
      destruct Hs as [Hs|Hs]; [discriminate|]. now rewrite Hs. }
    rewrite E. destruct s. repeat split. cbn. discriminate.
  - assert (E : ParseFile.handleProcess p pnet
                = set (ParseFile.setStatus "请选择所有必需的选项")).
    { unfold ParseFile.handleProcess.
      destruct (ParseFile.file p) as [f|]; [|reflexivity].
      destruct Hp as [Hp|Hp]; [discriminate|]. now rewrite Hp. }
    rewrite E. destruct p. repeat split. cbn. discriminate.
Qed.

(** C2 at work: the two pages as they open, with no file selected. *)
Lemma C2_rejected_submission_witness :
  (LoadFile.file LoadFile.initial = None \/ LoadFile.loadingMethod LoadFile.initial = "")
  /\ (ParseFile.file ParseFile.initial = None \/ ParseFile.loadingMethod ParseFile.initial = "")
  /\ Task.requests (fst (LoadFile.handleProcess LoadFile.initial offline)) = []
  /\ Task.requests (fst (ParseFile.handleProcess ParseFile.initial parseOffline)) = [].
Proof.
  pose proof (C2_rejected_submission LoadFile.initial offline ParseFile.initial parseOffline
                (or_introl eq_refl) (or_introl eq_refl)) as [[L _] [P _]].
  split; [left; reflexivity|]. split; [left; reflexivity|]. split; [exact L | exact P].
Defined.

(** C3, as the specification states it, fails for a PDF read with the default loader:
    the body holds [file], [file_type] and [loading_method] and none of the
    three option sets. *)
Lemma C3_pdf_default_counterexample :
  Task.requests (fst (LoadFile.handleProcess reportPicked offline))
  = [LoadFile.loadRequest
       [("file", Http.Blob (fileNamed "report.pdf"));
        ("file_type", Http.Text "pdf");
        ("loading_method", Http.Text "pymupdf")]].
Proof. reflexivity. Qed.

(** C3 (amended): the body of a load request holds [file], [file_type] and
    [loading_method], followed by at most one option set, chosen by the file
    type and the loading method: [strategy], [chunking_strategy] and
    [chunking_options] for a pdf read with unstructured; [encoding], followed
    by [chunking_strategy] and [chunking_options] when a chunking strategy is
    set, for txt and md; [delimiter], [encoding] and [use_pandas] for csv; and
    no option field in any other case.  A csv submission with delimiter ";"
    and encoding "gbk" carries exactly those two values and [use_pandas], and
    no [chunking_options]. *)
Theorem C3_load_request_body
    (s : LoadFile.State) (f : Http.File) (net : LoadFile.Net)
    (Hf : LoadFile.file s = Some f) (Hm : LoadFile.loadingMethod s <> "") :
  let body := LoadFile.formData s f in
  let chunking :=
    [("chunking_strategy", Http.Text (LoadFile.chunkingStrategy s));
     ("chunking_options",
      Http.Text (LoadFile.stringifyChunkingOptions (LoadFile.chunkingOptions s)))] in
  hd_error (Task.requests (fst (LoadFile.handleProcess s net))) = Some (LoadFile.loadRequest body)
  /\ body = [("file", Http.Blob f);
             ("file_type", Http.Text (LoadFile.fileType s));
             ("loading_method", Http.Text (LoadFile.loadingMethod s))]
            ++ LoadFile.optionFields s
  /\ (LoadFile.fileType s = "pdf" -> LoadFile.loadingMethod s = "unstructured" ->
        LoadFile.optionFields s
        = ("strategy", Http.Text (LoadFile.unstructuredStrategy s)) :: chunking)
  /\ (LoadFile.fileType s = "txt" \/ LoadFile.fileType s = "md" ->
        LoadFile.optionFields s
        = ("encoding", Http.Text (LoadFile.encoding s))
          :: (if LoadFile.chunkingStrategy s =? "" then [] else chunking))
  /\ (LoadFile.fileType s = "csv" ->
        LoadFile.optionFields s
        = [("delimiter", Http.Text (LoadFile.delimiter s));
           ("encoding", Http.Text (LoadFile.encoding s));
           ("use_pandas", Http.Text (Js.ofBool (LoadFile.usePandas s)))]
        /\ ~ In "chunking_options" (Http.fieldNames body))
  /\ (~ (LoadFile.fileType s = "pdf" /\ LoadFile.loadingMethod s = "unstructured") ->
        LoadFile.fileType s <> "txt" -> LoadFile.fileType s <> "md" ->
        LoadFile.fileType s <> "csv" ->
        LoadFile.optionFields s = []).
Proof.
  intros body chunking.
  split. { rewrite (load_handleProcess_run s f net Hf Hm). reflexivity. }
  split. { reflexivity. }
  unfold body, LoadFile.formData, LoadFile.optionFields, Http.fieldNames.
  split. { intros -> ->. reflexivity. }
  split.
  { intros [H|H]; rewrite H; cbn [String.eqb Ascii.eqb Bool.eqb andb orb];
      unfold Js.truthy; destruct (LoadFile.chunkingStrategy s =? ""); reflexivity. }
  split.
  { intros H. rewrite H. cbn. intuition discriminate. }
  intros H1 H2 H3 H4.
  destruct (String.eqb_spec (LoadFile.fileType s) "pdf") as [E|E];
    destruct (String.eqb_spec (LoadFile.loadingMethod s) "unstructured") as [E'|E'];
    cbn [andb]; try tauto;
    apply String.eqb_neq in H2, H3, H4; rewrite H2, H3, H4; reflexivity.
Qed.

(** C3 at work: [data.csv] submitted with delimiter ";" and encoding "gbk". *)
Lemma C3_load_request_body_witness :
  LoadFile.file csvForm = Some (fileNamed "data.csv")
  /\ LoadFile.loadingMethod csvForm <> ""
  /\ LoadFile.formData csvForm (fileNamed "data.csv")
     = [("file", Http.Blob (fileNamed "data.csv"));
        ("file_type", Http.Text "csv");
        ("loading_method", Http.Text "pandas");
        ("delimiter", Http.Text ";");
        ("encoding", Http.Text "gbk");
        ("use_pandas", Http.Text "true")]
  /\ ~ In "chunking_options" (Http.fieldNames (LoadFile.formData csvForm (fileNamed "data.csv"))).
Proof.
  assert (Hf : LoadFile.file csvForm = Some (fileNamed "data.csv")) by reflexivity.
  assert (Hm : LoadFile.loadingMethod csvForm <> "") by discriminate.
  destruct (C3_load_request_body csvForm (fileNamed "data.csv") offline Hf Hm)
    as (_ & B & _ & _ & C & _).
  destruct (C eq_refl) as [O N].
  split; [exact Hf|]. split; [exact Hm|]. split; [|exact N].
  rewrite B, O. reflexivity.
Defined.

(** C4, as the specification states it, fails: before the request has even been sent
    the status is set to the progress message and the previous result is
    cleared, so the view state has already changed when the response comes. *)
Lemma C4_updates_before_response_counterexample :
  Task.updates (fst (Task.untilFirstAwait (fst (LoadFile.handleProcess reportPicked offline))))
  = [LoadFile.setStatus "加载中..."; LoadFile.setLoadedContent None]
  /\ LoadFile.status reportPicked = ""
  /\ LoadFile.status
       (Task.commit LoadFile.apply reportPicked
          (fst (Task.untilFirstAwait (fst (LoadFile.handleProcess reportPicked offline)))))
     = "加载中...".
Proof. repeat split. Qed.

(** Where an update stands in a trace that starts with the events [lead],
    goes on with a request and ends with [tail]: among [lead], or after the
    request, in [tail]. *)
Lemma update_position {U} (lead : list (Task.Event U)) (r : Http.Request)
    (tail before after : list (Task.Event U)) (u : U) :
  lead ++ Sent r :: tail = before ++ Update u :: after ->
  (exists rest, lead = before ++ Update u :: rest)
  \/ (exists mid, before = lead ++ Sent r :: mid /\ tail = mid ++ Update u :: after).
Proof.
  revert before. induction lead as [|x lead IH]; intros [|e before] E; cbn in E.
  - discriminate.
  - injection E as <- E. right. now exists before.
  - injection E as -> E. left. now exists lead.
  - injection E as -> E. destruct (IH before E) as [[rest ->]|(mid & -> & ->)].
    + left. now exists rest.
    + right. now exists mid.
Qed.

(** The same, when what follows the request is either a single update or
    starts with the reading of the body. *)
Lemma update_after_request {U} (lead : list (Task.Event U)) (r : Http.Request)
    (tail before after : list (Task.Event U)) (u : U) :
  lead ++ Sent r :: tail = before ++ Update u :: after ->
  (exists e, tail = [Update e]) \/ (exists rest, tail = BodyRead :: rest) ->
  (exists rest, lead = before ++ Update u :: rest)
  \/ (exists mid, before = lead ++ Sent r :: BodyRead :: mid)
  \/ (before = lead ++ [Sent r] /\ after = [] /\ tail = [Update u]).
Proof.
  intros E shape.
  destruct (update_position lead r tail before after u E) as [L|(mid & -> & T)];
    [now left|right].
  destruct shape as [[e ->]|[rest ->]].
  - destruct mid as [|x [|y mid]]; try discriminate.
    injection T as -> <-. right. repeat split.
  - destruct mid as [|x mid]; [discriminate|]. injection T as <- _.
    left. now exists mid.
Qed.

(** C4 (amended): a submission that passes the check sends exactly one POST.
    Before that request goes out the status is set to the progress message
    and the previous result is cleared (on the parse page the processed flag
    is reset as well).  Nothing else is updated before the request has been
    answered or has failed.  After that, either the error status is the one
    update left, or the body of the response is read before anything else is
    updated: the result, the success message, the active tab, the document
    list and the processed flag are all set after the body has been read. *)
Theorem C4_one_post_per_submission
    (s : LoadFile.State) (f : Http.File) (net : LoadFile.Net)
    (p : ParseFile.State) (g : Http.File) (pnet : ParseFile.Net)
    (Hf : LoadFile.file s = Some f) (Hm : LoadFile.loadingMethod s <> "")
    (Hg : ParseFile.file p = Some g) (Hl : ParseFile.loadingMethod p <> "")
    (Ho : ParseFile.parsingOption p <> "") :
  let t := fst (LoadFile.handleProcess s net) in
  let t' := fst (ParseFile.handleProcess p pnet) in
  let post := LoadFile.loadRequest (LoadFile.formData s f) in
  let post' := ParseFile.parseRequest (ParseFile.formData p g) in
  let lead := [Update (LoadFile.setStatus "加载中..."); Update (LoadFile.setLoadedContent None)] in
  let lead' := [Update (ParseFile.setStatus "处理中..."); Update (ParseFile.setParsedContent None);
                Update (ParseFile.setIsProcessed false)] in
  (* the load page *)
  (filter Http.isPost (Task.requests t) = [post]
   /\ fst (Task.untilFirstAwait t) = lead ++ [Sent post]
   /\ (exists tail,
         t = lead ++ Sent post :: tail
         /\ ((exists m, tail = [Update (LoadFile.setStatus ("错误: " ++ m))])
             \/ exists rest, tail = BodyRead :: rest))
   /\ (forall before u after, t = before ++ Update u :: after ->
         (exists rest, lead = before ++ Update u :: rest)
         \/ (exists mid, before = lead ++ Sent post :: BodyRead :: mid)
         \/ (before = lead ++ [Sent post] /\ after = []
             /\ exists m, u = LoadFile.setStatus ("错误: " ++ m)))
   /\ (forall before u after, t = before ++ Update u :: after ->
         u = LoadFile.setStatus "文件加载成功!"
         \/ (exists data, u = LoadFile.setLoadedContent (Some data))
         \/ (exists tab, u = LoadFile.setActiveTab tab)
         \/ (exists l, u = LoadFile.setDocuments l) ->
         exists mid, before = lead ++ Sent post :: BodyRead :: mid))
  (* the parse page *)
  /\ (Task.requests t' = [post']
      /\ fst (Task.untilFirstAwait t') = lead' ++ [Sent post']
      /\ (exists tail,
            t' = lead' ++ Sent post' :: tail
            /\ ((exists m, tail = [Update (ParseFile.setStatus ("错误: " ++ m))])
                \/ exists rest, tail = BodyRead :: rest))
      /\ (forall before u after, t' = before ++ Update u :: after ->
            (exists rest, lead' = before ++ Update u :: rest)
            \/ (exists mid, before = lead' ++ Sent post' :: BodyRead :: mid)
            \/ (before = lead' ++ [Sent post'] /\ after = []
                /\ exists m, u = ParseFile.setStatus ("错误: " ++ m)))
      /\ (forall before u after, t' = before ++ Update u :: after ->
            u = ParseFile.setStatus "处理成功完成!"
            \/ (exists data, u = ParseFile.setParsedContent (Some data))
            \/ u = ParseFile.setIsProcessed true ->
            exists mid, before = lead' ++ Sent post' :: BodyRead :: mid)).
Proof.
  intros t t' post post' lead lead'.
  (* the load page: what follows the request *)
  assert (L : exists tail,
            t = lead ++ Sent post :: tail
            /\ filter Http.isPost (Task.requests tail) = []
            /\ ((exists m, tail = [Update (LoadFile.setStatus ("错误: " ++ m))])
                \/ exists rest, tail = BodyRead :: rest)).
  { unfold t. rewrite (load_handleProcess_run s f net Hf Hm). cbn [fst].
    eexists. split; [reflexivity|].
    destruct (LoadFile.loadAnswer net (LoadFile.formData s f)) as [e|r].
    { split; [reflexivity|]. left. now eexists. }
    destruct (Http.ok r).
    2:{ split; [reflexivity|]. left.
        now exists ("HTTP error! status: " ++ Js.ofZ (Http.status r))%string. }
    split; [|right; now eexists].
    destruct (Http.json r) as [e|data]; [reflexivity|].
    cbn. unfold documentsSettled.
    destruct (LoadFile.listAnswer net) as [e|l]; [reflexivity|].
    now destruct (Http.json l). }
  assert (P : exists tail,
            t' = lead' ++ Sent post' :: tail
            /\ Task.requests tail = []
            /\ ((exists m, tail = [Update (ParseFile.setStatus ("错误: " ++ m))])
                \/ exists rest, tail = BodyRead :: rest)).
  { unfold t'. rewrite (parse_handleProcess_run p g pnet Hg Hl Ho). cbn [fst].
    eexists. split; [reflexivity|].
    destruct (ParseFile.parseAnswer pnet (ParseFile.formData p g)) as [e|r].
    { split; [reflexivity|]. left. now eexists. }
    destruct (Http.ok r).
    2:{ split; [reflexivity|]. left.
        now exists ("HTTP error! status: " ++ Js.ofZ (Http.status r))%string. }
    split; [|right; now eexists].
    now destruct (Http.json r). }
  destruct L as (tail & Et & Rt & St). destruct P as (tail' & Et' & Rt' & St').
  assert (St0 : (exists e, tail = [Update e]) \/ (exists rest, tail = BodyRead :: rest)).
  { destruct St as [[m ->]|R]; [left; now eexists | now right]. }
  assert (St0' : (exists e, tail' = [Update e]) \/ (exists rest, tail' = BodyRead :: rest)).
  { destruct St' as [[m ->]|R]; [left; now eexists | now right]. }
  split.
  - rewrite Et. split; [|split; [|split; [|split]]].
    + cbn. now rewrite Rt.
    + reflexivity.
    + exists tail. split; [reflexivity | exact St].
    + intros before u after E.
      destruct (update_after_request lead post tail before after u E St0)
        as [A|[A|(A & B & C)]]; [now left | right; now left | right; right].
      split; [exact A|]. split; [exact B|].
      destruct St as [[m Em]|[rest Er]]; rewrite C in *; [|discriminate].
      injection Em as ->. now exists m.
    + intros before u after E Hu.
      destruct (update_after_request lead post tail before after u E St0)
        as [[rest A]|[A|(A & B & C)]]; [exfalso| exact A |exfalso].
      * destruct before as [|x [|y [|z before]]]; cbn in A; try discriminate;
          injection A as A; try (now destruct before);
          destruct Hu as [Hu|[[d Hu]|[[d Hu]|[d Hu]]]]; congruence.
      * destruct St as [[m Em]|[rest Er]]; rewrite C in *; [|discriminate].
        injection Em as ->.
        destruct Hu as [Hu|[[d Hu]|[[d Hu]|[d Hu]]]]; discriminate.
  - rewrite Et'. split; [|split; [|split; [|split]]].
    + cbn. now rewrite Rt'.
    + reflexivity.
    + exists tail'. split; [reflexivity | exact St'].
    + intros before u after E.
      destruct (update_after_request lead' post' tail' before after u E St0')
        as [A|[A|(A & B & C)]]; [now left | right; now left | right; right].
      split; [exact A|]. split; [exact B|].
      destruct St' as [[m Em]|[rest Er]]; rewrite C in *; [|discriminate].
      injection Em as ->. now exists m.
    + intros before u after E Hu.
      destruct (update_after_request lead' post' tail' before after u E St0')
        as [[rest A]|[A|(A & B & C)]]; [exfalso| exact A |exfalso].
      * destruct before as [|x [|y [|z [|w before]]]]; cbn in A; try discriminate;
          injection A as A; try (now destruct before);
          destruct Hu as [Hu|[[d Hu]|Hu]]; congruence.
      * destruct St' as [[m Em]|[rest Er]]; rewrite C in *; [|discriminate].
        injection Em as ->.
        destruct Hu as [Hu|[[d Hu]|Hu]]; discriminate.
Qed.

(** C4 at work: [report.pdf] and [notes.txt] submitted while the server
    cannot be reached. *)
Lemma C4_one_post_per_submission_witness :
  LoadFile.file reportPicked = Some (fileNamed "report.pdf")
  /\ LoadFile.loadingMethod reportPicked <> ""
  /\ ParseFile.file notesPicked = Some (fileNamed "notes.txt")
  /\ ParseFile.loadingMethod notesPicked <> ""
  /\ ParseFile.parsingOption notesPicked <> ""
  /\ List.length (filter Http.isPost
       (Task.requests (fst (LoadFile.handleProcess reportPicked offline)))) = 1
  /\ List.length (Task.requests (fst (ParseFile.handleProcess notesPicked parseOffline))) = 1.
Proof.
  assert (Hf : LoadFile.file reportPicked = Some (fileNamed "report.pdf")) by reflexivity.
  assert (Hm : LoadFile.loadingMethod reportPicked <> "") by discriminate.
  assert (Hg : ParseFile.file notesPicked = Some (fileNamed "notes.txt")) by reflexivity.
  assert (Hl : ParseFile.loadingMethod notesPicked <> "") by discriminate.
  assert (Ho : ParseFile.parsingOption notesPicked <> "") by discriminate.
  destruct (C4_one_post_per_submission reportPicked (fileNamed "report.pdf") offline
              notesPicked (fileNamed "notes.txt") parseOffline Hf Hm Hg Hl Ho)
    as [[L _] [P _]].
  repeat (split; [assumption|]).
  split; [rewrite L | rewrite P]; reflexivity.
Defined.

(** The same on the server that answers: the success message of the load of
    [report.pdf] is set after the body of the response has been read. *)
Example success_message_follows_the_body :
  fst (LoadFile.handleProcess reportPicked serving)
  = [Update (LoadFile.setStatus "加载中..."); Update (LoadFile.setLoadedContent None);
     Sent (LoadFile.loadRequest (LoadFile.formData reportPicked (fileNamed "report.pdf")));
     BodyRead;
     Update (LoadFile.setLoadedContent (Some twoChunks));
     Update (LoadFile.setStatus "文件加载成功!");
     Sent LoadFile.listRequest;
     Update (LoadFile.setActiveTab "preview");
     BodyRead;
     Update (LoadFile.setDocuments (Some [docB]))].
Proof. reflexivity. Qed.

Lemma includes_suffix (a b : string) : Js.includes (a ++ b) b = true.
Proof.
  assert (P : prefix b b = true)
    by (apply prefix_correct; apply JsFacts.substring_whole).
  induction a as [|c a IH].
  - destruct b; cbn [append Js.includes]; [reflexivity | now rewrite P].
  - cbn [append Js.includes]. rewrite IH. now destruct (prefix b (String c (a ++ b))).
Qed.

Lemma load_status_after (s : LoadFile.State) (v : string) (w : option LoadFile.LoadedContent) :
  LoadFile.status (LoadFile.apply (LoadFile.setStatus v)
                     (LoadFile.apply (LoadFile.setLoadedContent w) s)) = v.
Proof. now destruct s. Qed.

Lemma parse_status_after (p : ParseFile.State) (v : string) :
  ParseFile.status
    (ParseFile.apply (ParseFile.setStatus v)
       (ParseFile.apply (ParseFile.setIsProcessed false)
          (ParseFile.apply (ParseFile.setParsedContent None) p))) = v.
Proof. now destruct p. Qed.

(** C9: on either page, when the response to a submission has a status
    outside 200-299 the status message becomes the error prefix followed by
    [HTTP error! status: ] and the decimal status code; when the request fails
    with an error the status message becomes the error prefix followed by that
    error's message.  In both cases the one request is all that was sent, the
    handler returns normally, and the state is the one before the submission
    with the result cleared and the status set. *)
Theorem C9_failures_are_reported
    (s : LoadFile.State) (f : Http.File) (net : LoadFile.Net)
    (p : ParseFile.State) (g : Http.File) (pnet : ParseFile.Net)
    (Hf : LoadFile.file s = Some f) (Hm : LoadFile.loadingMethod s <> "")
    (Hg : ParseFile.file p = Some g) (Hl : ParseFile.loadingMethod p <> "")
    (Ho : ParseFile.parsingOption p <> "") :
  let h := LoadFile.handleProcess s net in
  let h' := ParseFile.handleProcess p pnet in
  let failed (msg : string) :=
    Task.requests (fst h) = [LoadFile.loadRequest (LoadFile.formData s f)]
    /\ snd h = Returns tt
    /\ LoadFile.status (LoadFile.after s h) = msg
    /\ LoadFile.after s h
       = LoadFile.apply (LoadFile.setStatus msg)
           (LoadFile.apply (LoadFile.setLoadedContent None) s) in
  let failed' (msg : string) :=
    Task.requests (fst h') = [ParseFile.parseRequest (ParseFile.formData p g)]
    /\ snd h' = Returns tt
    /\ ParseFile.status (ParseFile.after p h') = msg
    /\ ParseFile.after p h'
       = ParseFile.apply (ParseFile.setStatus msg)
           (ParseFile.apply (ParseFile.setIsProcessed false)
              (ParseFile.apply (ParseFile.setParsedContent None) p)) in
  (forall r, LoadFile.loadAnswer net (LoadFile.formData s f) = Http.Resolved r ->
             Http.ok r = false ->
             failed ("错误: HTTP error! status: " ++ Js.ofZ (Http.status r))%string
             /\ Js.includes (LoadFile.status (LoadFile.after s h)) (Js.ofZ (Http.status r)) = true)
  /\ (forall m, LoadFile.loadAnswer net (LoadFile.formData s f)
                = Http.Rejected (Http.ErrorObject m) ->
                failed ("错误: " ++ m)%string)
  /\ (forall r, ParseFile.parseAnswer pnet (ParseFile.formData p g) = Http.Resolved r ->
                Http.ok r = false ->
                failed' ("错误: HTTP error! status: " ++ Js.ofZ (Http.status r))%string
                /\ Js.includes (ParseFile.status (ParseFile.after p h'))
                               (Js.ofZ (Http.status r)) = true)
  /\ (forall m, ParseFile.parseAnswer pnet (ParseFile.formData p g)
                = Http.Rejected (Http.ErrorObject m) ->
                failed' ("错误: " ++ m)%string).
Proof.
  intros h h' failed failed'. unfold failed, failed', h, h'.
  rewrite (load_handleProcess_run s f net Hf Hm).
  rewrite (parse_handleProcess_run p g pnet Hg Hl Ho).
  unfold LoadFile.after, ParseFile.after, Task.commit. cbn [fst snd].
  split; [|split; [|split]].
  - intros r -> ->. cbn [app Task.requests Task.updates fold_left].
    rewrite load_status_after.
    split; [repeat (split; [reflexivity|]); now destruct s|].
    apply (includes_suffix "错误: HTTP error! status: ").
  - intros m ->. cbn [app Task.requests Task.updates fold_left LoadFile.errorText].
    rewrite load_status_after. repeat (split; [reflexivity|]). now destruct s.
  - intros r -> ->. cbn [app Task.requests Task.updates fold_left].
    rewrite parse_status_after.
    split; [repeat (split; [reflexivity|]); now destruct p|].
    apply (includes_suffix "错误: HTTP error! status: ").
  - intros m ->. cbn [app Task.requests Task.updates fold_left ParseFile.errorText].
    rewrite parse_status_after. repeat (split; [reflexivity|]). now destruct p.
Qed.

(** C9 at work: [report.pdf] answered with status 500, and [notes.txt]
    submitted while the server cannot be reached. *)
Lemma C9_failures_are_reported_witness :
  LoadFile.file reportPicked = Some (fileNamed "report.pdf")
  /\ LoadFile.loadingMethod reportPicked <> ""
  /\ ParseFile.file notesPicked = Some (fileNamed "notes.txt")
  /\ ParseFile.loadingMethod notesPicked <> ""
  /\ ParseFile.parsingOption notesPicked <> ""
  /\ LoadFile.status (LoadFile.after reportPicked (LoadFile.handleProcess reportPicked failing))
     = "错误: HTTP error! status: 500"
  /\ ParseFile.status
       (ParseFile.after notesPicked (ParseFile.handleProcess notesPicked parseOffline))
     = "错误: Failed to fetch".
Proof.
  assert (Hf : LoadFile.file reportPicked = Some (fileNamed "report.pdf")) by reflexivity.
  assert (Hm : LoadFile.loadingMethod reportPicked <> "") by discriminate.
  assert (Hg : ParseFile.file notesPicked = Some (fileNamed "notes.txt")) by reflexivity.
  assert (Hl : ParseFile.loadingMethod notesPicked <> "") by discriminate.
  assert (Ho : ParseFile.parsingOption notesPicked <> "") by discriminate.
  destruct (C9_failures_are_reported reportPicked (fileNamed "report.pdf") failing
              notesPicked (fileNamed "notes.txt") parseOffline Hf Hm Hg Hl Ho)
    as (L & _ & _ & P).
  destruct (L _ eq_refl eq_refl) as [(_ & _ & Ls & _) _].
  destruct (P _ eq_refl) as (_ & _ & Ps & _).
  repeat (split; [assumption|]).
  exact Ps.
Defined.

(** ** Deleting a document *)

(** The run of a delete that the server accepts. *)
Lemma load_handleDeleteDocument_run
    (s : LoadFile.State) (net : LoadFile.Net) (docName : string) (r : Http.Response unit) :
  LoadFile.deleteAnswer net docName = Http.Resolved r -> Http.ok r = true ->
  LoadFile.handleDeleteDocument s net docName =
    ([Sent (LoadFile.deleteRequest docName);
      Update (LoadFile.setStatus "文档删除成功");
      Sent LoadFile.listRequest]
     ++ (if LoadFile.isSelected s docName then
           [Update (LoadFile.setSelectedDoc None); Update (LoadFile.setLoadedContent None)]
         else [])
     ++ documentsSettled net,
     Returns tt).
Proof.
  intros Hd Hok. unfold LoadFile.handleDeleteDocument. rewrite Hd.
  unfold fetch, bind, tryCatch, unawaited. rewrite Hok, fetchDocuments_run.
  destruct (LoadFile.isSelected s docName); reflexivity.
Qed.





(** Deleting another document than the selected one leaves the preview alone. *)
Example delete_other_keeps_preview :
  LoadFile.loadedContent
    (LoadFile.after viewingA (LoadFile.handleDeleteDocument viewingA serving "b.txt"))
  = Some twoChunks.
Proof. reflexivity. Qed.

(** ** The loading method follows the file type *)

Lemma load_rerender_changed (s s' : LoadFile.State) :
  LoadFile.fileType s' <> LoadFile.fileType s ->
  LoadFile.loadingMethod (LoadFile.rerender s s') =
    if LoadFile.fileType s' =? "pdf" then "pymupdf"
    else if ((LoadFile.fileType s' =? "txt") || (LoadFile.fileType s' =? "md"))%bool then "basic"
    else if LoadFile.fileType s' =? "csv" then "pandas"
    else LoadFile.loadingMethod s'.
Proof.
  intros H. apply String.eqb_neq in H.
  unfold LoadFile.rerender, LoadFile.useEffect_fileType. rewrite H.
  destruct s'; cbn [LoadFile.fileType LoadFile.loadingMethod].
  destruct (_ =? "pdf"); [reflexivity|].
  destruct ((_ =? "txt") || (_ =? "md"))%bool; [reflexivity|].
  destruct (_ =? "csv"); reflexivity.
Qed.

Lemma parse_rerender_changed (p p' : ParseFile.State) :
  ParseFile.fileType p' <> ParseFile.fileType p ->
  ParseFile.loadingMethod (ParseFile.rerender p p') =
    if ParseFile.fileType p' =? "pdf" then "pymupdf"
    else if ((ParseFile.fileType p' =? "markdown") || (ParseFile.fileType p' =? "md"))%bool
         then "basic"
    else if ParseFile.fileType p' =? "txt" then "basic"
    else ParseFile.loadingMethod p'.
Proof.
  intros H. apply String.eqb_neq in H.
  unfold ParseFile.rerender, ParseFile.useEffect_fileType. rewrite H.
  destruct p'; cbn [ParseFile.fileType ParseFile.loadingMethod].
  destruct (_ =? "pdf"); [reflexivity|].
  destruct ((_ =? "markdown") || (_ =? "md"))%bool; [reflexivity|].
  destruct (_ =? "txt"); reflexivity.
Qed.

Lemma parse_rerender_fileType (p p' : ParseFile.State) :
  ParseFile.fileType (ParseFile.rerender p p') = ParseFile.fileType p'.
Proof.
  unfold ParseFile.rerender, ParseFile.useEffect_fileType.
  destruct (ParseFile.fileType p' =? ParseFile.fileType p); [reflexivity|].
  destruct p'; cbn [ParseFile.fileType].
  destruct (_ =? "pdf"); [reflexivity|].
  destruct ((_ =? "markdown") || (_ =? "md"))%bool; [reflexivity|].
  destruct (_ =? "txt"); reflexivity.
Qed.

(** The parse page only ever moves between pdf, markdown and txt. *)
Lemma parse_types_invariant (p : ParseFile.State) (files : list Http.File) :
  In (ParseFile.fileType p) parseTypes ->
  In (ParseFile.fileType (ParseFile.dispatch p (ParseFile.handleFileSelect files))) parseTypes.
Proof.
  intros Hin. unfold ParseFile.dispatch. rewrite parse_rerender_fileType.
  destruct files as [|f rest]; [now destruct p|].
  rewrite parse_after_pick. apply parseInferred_types.
Qed.

(** C7: when the file type has changed, the render that follows sets the
    loading method to the default of the new type: pymupdf for pdf, basic for
    txt and md, pandas for csv.  On the load page this holds for every change
    of the file type.  On the parse page it holds for pdf, txt and Markdown
    (which that page calls [markdown]); csv is never a file type there, since
    the page only moves between pdf, markdown and txt. *)
Theorem C7_loading_method_follows_file_type
    (s s' : LoadFile.State) (p p' : ParseFile.State)
    (Hs : LoadFile.fileType s' <> LoadFile.fileType s)
    (Hp : ParseFile.fileType p' <> ParseFile.fileType p) :
  (forall d, canonicalDefault (LoadFile.fileType s') = Some d ->
             LoadFile.loadingMethod (LoadFile.rerender s s') = d)
  /\ (forall d, ParseFile.fileType p' <> "csv" ->
                canonicalDefault (ParseFile.fileType p') = Some d ->
                ParseFile.loadingMethod (ParseFile.rerender p p') = d)
  /\ (ParseFile.fileType p' = "markdown" ->
        ParseFile.loadingMethod (ParseFile.rerender p p') = "basic")
  /\ In (ParseFile.fileType ParseFile.initial) parseTypes
  /\ (forall files, In (ParseFile.fileType p) parseTypes ->
        In (ParseFile.fileType (ParseFile.dispatch p (ParseFile.handleFileSelect files)))
           parseTypes)
  /\ ~ In "csv" parseTypes.
Proof.
  split; [|split; [|split; [|split; [|split]]]].
  - intros d. rewrite (load_rerender_changed s s' Hs). unfold canonicalDefault.
    destruct (_ =? "pdf"); [congruence|].
    destruct ((_ =? "txt") || (_ =? "md"))%bool; [congruence|].
    destruct (_ =? "csv"); congruence.
  - intros d Hcsv. rewrite (parse_rerender_changed p p' Hp). unfold canonicalDefault.
    destruct (_ =? "pdf"); [congruence|].
    destruct (String.eqb_spec (ParseFile.fileType p') "txt") as [E|E];
      destruct (String.eqb_spec (ParseFile.fileType p') "md") as [E'|E'];
      destruct (String.eqb_spec (ParseFile.fileType p') "csv") as [E''|E''];
      destruct (ParseFile.fileType p' =? "markdown");
      cbn [orb]; congruence.
  - intros E. rewrite (parse_rerender_changed p p' Hp), E. reflexivity.
  - cbn. tauto.
  - intros files. apply parse_types_invariant.
  - cbn. intuition discriminate.
Qed.

(** C7 at work: from the opening state (pdf), [data.csv] is picked on the
    load page and [notes.txt] on the parse page. *)
Lemma C7_loading_method_follows_file_type_witness :
  LoadFile.fileType (LoadFile.after LoadFile.initial
                       (LoadFile.handleFileChange [fileNamed "data.csv"]))
    <> LoadFile.fileType LoadFile.initial
  /\ ParseFile.fileType (ParseFile.after ParseFile.initial
                           (ParseFile.handleFileSelect [fileNamed "notes.txt"]))
       <> ParseFile.fileType ParseFile.initial
  /\ LoadFile.loadingMethod
       (LoadFile.dispatch LoadFile.initial (LoadFile.handleFileChange [fileNamed "data.csv"]))
     = "pandas"
  /\ ParseFile.loadingMethod
       (ParseFile.dispatch ParseFile.initial (ParseFile.handleFileSelect [fileNamed "notes.txt"]))
     = "basic".
Proof.
  assert (Hs : LoadFile.fileType (LoadFile.after LoadFile.initial
                 (LoadFile.handleFileChange [fileNamed "data.csv"]))
               <> LoadFile.fileType LoadFile.initial)
    by (intros E; vm_compute in E; discriminate E).
  assert (Hp : ParseFile.fileType (ParseFile.after ParseFile.initial
                 (ParseFile.handleFileSelect [fileNamed "notes.txt"]))
               <> ParseFile.fileType ParseFile.initial)
    by (intros E; vm_compute in E; discriminate E).
  destruct (C7_loading_method_follows_file_type _ _ _ _ Hs Hp) as (L & P & _).
  split; [exact Hs|]. split; [exact Hp|].
  split; [apply L | apply P]; try reflexivity. discriminate.
Defined.

(** The effect alone, on a change made by the select box being bypassed: a
    loading method chosen by hand is replaced as soon as the type changes. *)
Example manual_choice_is_replaced :
  let s := LoadFile.apply (LoadFile.setLoadingMethod "pdfplumber") reportPicked in
  LoadFile.loadingMethod
    (LoadFile.dispatch s (LoadFile.handleFileChange [fileNamed "notes.md"])) = "basic".
Proof. reflexivity. Qed.

(** ** The parse request *)

Lemma parse_request_fields (p : ParseFile.State) (g : Http.File) (pnet : ParseFile.Net) :
  ParseFile.file p = Some g -> ParseFile.loadingMethod p <> "" ->
  ParseFile.parsingOption p <> "" ->
  Task.requests (fst (ParseFile.handleProcess p pnet))
  = [ParseFile.parseRequest (ParseFile.formData p g)]
  /\ Http.fieldNames (ParseFile.formData p g)
     = ["file"; "loading_method"; "parsing_option"; "file_type";
        "extract_images"; "extract_tables"].
Proof.
  intros Hg Hl Ho. rewrite (parse_handleProcess_run p g pnet Hg Hl Ho). cbn [fst].
  split; [|reflexivity].
  destruct (ParseFile.parseAnswer pnet (ParseFile.formData p g)) as [e|r]; [reflexivity|].
  destruct (Http.ok r); [|reflexivity].
  destruct (Http.json r); reflexivity.
Qed.

Lemma parsing_options_by_type (p : ParseFile.State) :
  (ParseFile.fileType p = "pdf" -> List.length (ParseFile.renderParsingOptions p) = 7)
  /\ (ParseFile.fileType p = "markdown" -> List.length (ParseFile.renderParsingOptions p) = 3)
  /\ (ParseFile.fileType p = "txt" -> ParseFile.renderParsingOptions p = ["text_only"]).
Proof.
  unfold ParseFile.renderParsingOptions.
  repeat split; intros ->; reflexivity.
Qed.

(** C8, where the code departs from it: [notes.txt] is picked on the page
    as it opens and submitted.  The request carries the six fields, but its
    [parsing_option] is still [comprehensive], the value the state was
    created with, while the only option offered for txt is [text_only]:
    nothing resets [parsingOption] when the file type changes. *)
Theorem C8_txt_submits_option_not_offered (pnet : ParseFile.Net) :
  Task.requests (fst (ParseFile.handleProcess notesPicked pnet))
  = [ParseFile.parseRequest
       [("file", Http.Blob (fileNamed "notes.txt"));
        ("loading_method", Http.Text "basic");
        ("parsing_option", Http.Text "comprehensive");
        ("file_type", Http.Text "txt");
        ("extract_images", Http.Text "true");
        ("extract_tables", Http.Text "true")]]
  /\ ParseFile.renderParsingOptions notesPicked = ["text_only"]
  /\ ~ In (ParseFile.parsingOption notesPicked) (ParseFile.renderParsingOptions notesPicked).
Proof.
  split; [|split].
  - assert (Hg : ParseFile.file notesPicked = Some (fileNamed "notes.txt")) by reflexivity.
    assert (Hl : ParseFile.loadingMethod notesPicked <> "") by discriminate.
    assert (Ho : ParseFile.parsingOption notesPicked <> "") by discriminate.
    destruct (parse_request_fields notesPicked _ pnet Hg Hl Ho) as [-> _]. reflexivity.
  - reflexivity.
  - intros H. vm_compute in H. destruct H as [H|[]]. discriminate H.
Qed.

(** ** Rendering *)

Lemma mapFrom_length {A B} (f : A -> nat -> B) (l : list A) :
  forall index, List.length (React.mapFrom f index l) = List.length l.
Proof.
  induction l as [|x l IH]; intros index; cbn; [reflexivity | now rewrite IH].
Qed.

Lemma mapFrom_nth {A B} (f : A -> nat -> B) (l : list A) :
  forall index k,
    nth_error (React.mapFrom f index l) k
    = option_map (fun x => f x (index + k)) (nth_error l k).
Proof.
  induction l as [|x l IH]; intros index [|k]; cbn; try reflexivity.
  - now rewrite Nat.add_0_r.
  - rewrite IH. now rewrite Nat.add_succ_r.
Qed.

Lemma map_length {A B} (f : A -> nat -> B) (l : list A) :
  List.length (React.map f l) = List.length l.
Proof. apply mapFrom_length. Qed.

Lemma map_nth {A B} (f : A -> nat -> B) (l : list A) (k : nat) (x : A) :
  nth_error l k = Some x -> nth_error (React.map f l) k = Some (f x k).
Proof.
  intros H. unfold React.map. now rewrite mapFrom_nth, H.
Qed.

(** C6, as the specification states it, fails: of the absent fields of a chunk only
    [chunk_id] is replaced (by the position of the chunk); where the page
    number, the word count, the page range and the content would stand,
    nothing is shown.  The same holds for the page and the content of a parsed
    item. *)
Lemma C6_absent_fields_counterexample :
  LoadFile.renderChunk bareChunk 0
  = {| LoadFile.key := "0"; LoadFile.heading := "分块 1";
       LoadFile.details := ""; LoadFile.body := "" |}
  /\ ParseFile.renderItem bareItem 0
     = {| ParseFile.heading := "文本 -"; ParseFile.titleLine := "";
          ParseFile.monospace := false; ParseFile.body := ""; ParseFile.footer := "" |}.
Proof. split; reflexivity. Qed.

(** The parse page reads [content] without a guard: a parsed document that
    has no [content] makes the render throw. *)
Lemma parse_render_without_content (p : ParseFile.State) (pc : ParseFile.ParsedContent) :
  ParseFile.parsedContent p = Some pc -> ParseFile.items pc = None ->
  ParseFile.renderRightPanel p = React.TypeError.
Proof.
  intros Hp Hi. unfold ParseFile.renderRightPanel. now rewrite Hp, Hi.
Qed.

(** C6 (amended): rendering a result is a function of the payload that keeps
    count and order.  On the load page a document with N chunks is shown as N
    chunk blocks, the k-th block being made from the k-th chunk alone, and a
    document without a chunk list is shown with no block.  Of the fields of a
    chunk, whether its metadata is there or not: an absent [chunk_id] is
    replaced by the position of the chunk (counted from 0 in the key, from 1
    in the heading), an absent [content] by the text under [text] (by nothing
    when that is absent too), and an absent [page_number], [word_count] or
    [page_range] adds nothing to the block.  An absent field of the document
    information is shown as N/A.  On the parse page a document that carries
    its content list of N items is shown as N blocks in the same order; an
    item without [type] is shown as text, an absent [page], [content_type],
    [title] or [content] adds nothing to the block, an item without metadata
    has no footer, and an absent entry of the footer leaves its label with
    nothing after it.  An absent [file_type] of the document is replaced by
    the file type of the form; its other absent entries are left empty. *)
Theorem C6_rendering_keeps_count_and_order
    (s : LoadFile.State) (lc : LoadFile.LoadedContent) (l : list LoadFile.Chunk)
    (p : ParseFile.State) (pc : ParseFile.ParsedContent) (its : list ParseFile.Item)
    (Htab : LoadFile.activeTab s = "preview")
    (Hlc : LoadFile.loadedContent s = Some lc) (Hl : LoadFile.chunks lc = Some l)
    (Hpc : ParseFile.parsedContent p = Some pc) (Hits : ParseFile.items pc = Some its) :
  (* the load page: count and order *)
  LoadFile.renderRightPanel s
    = React.Painted (LoadFile.Preview (LoadFile.renderInfo lc) (LoadFile.renderChunks lc))
  /\ List.length (LoadFile.renderChunks lc) = List.length l
  /\ (forall k chunk, nth_error l k = Some chunk ->
        nth_error (LoadFile.renderChunks lc) k = Some (LoadFile.renderChunk chunk k))
  /\ (forall lc', LoadFile.chunks lc' = None -> LoadFile.renderChunks lc' = [])
  (* the load page: a chunk without metadata *)
  /\ (forall k chunk, LoadFile.metadata chunk = None ->
        LoadFile.renderChunk chunk k
        = {| LoadFile.key := Js.ofZ (Z.of_nat k);
             LoadFile.heading := "分块 " ++ Js.ofZ (Z.of_nat k + 1);
             LoadFile.details := "";
             LoadFile.body := React.orString (LoadFile.content chunk)
                                (React.child (LoadFile.text chunk)) |})
  (* the load page: each absent field of a chunk *)
  /\ (forall k chunk, LoadFile.chunkMeta LoadFile.chunk_id chunk = None ->
        LoadFile.key (LoadFile.renderChunk chunk k) = Js.ofZ (Z.of_nat k)
        /\ LoadFile.heading (LoadFile.renderChunk chunk k)
           = ("分块 " ++ Js.ofZ (Z.of_nat k + 1)
              ++ React.andNumber (LoadFile.chunkMeta LoadFile.page_number chunk)
                   (fun n => "(页 " ++ Js.ofZ n ++ ")"))%string)
  /\ (forall k chunk, LoadFile.chunkMeta LoadFile.page_number chunk = None ->
        LoadFile.heading (LoadFile.renderChunk chunk k)
        = ("分块 " ++ React.orString (LoadFile.chunkMeta LoadFile.chunk_id chunk)
                        (Js.ofZ (Z.of_nat k + 1)))%string)
  /\ (forall k chunk, LoadFile.chunkMeta LoadFile.word_count chunk = None ->
        LoadFile.details (LoadFile.renderChunk chunk k)
        = React.andString (LoadFile.chunkMeta LoadFile.page_range chunk)
            (fun r => "| 页码范围: " ++ r)%string)
  /\ (forall k chunk, LoadFile.chunkMeta LoadFile.page_range chunk = None ->
        LoadFile.details (LoadFile.renderChunk chunk k)
        = React.andNumber (LoadFile.chunkMeta LoadFile.word_count chunk)
            (fun n => "词数: " ++ Js.ofZ n)%string)
  /\ (forall k chunk, LoadFile.content chunk = None ->
        LoadFile.body (LoadFile.renderChunk chunk k)
        = match LoadFile.text chunk with Some t => t | None => "" end)
  (* the load page: each absent field of the document information *)
  /\ (forall lc',
        (LoadFile.document_type lc' = None ->
           nth_error (LoadFile.renderInfo lc') 0 = Some ("文档类型: ", React.Literal "N/A"))
        /\ (LoadFile.total_pages lc' = None ->
              nth_error (LoadFile.renderInfo lc') 1 = Some ("页数: ", React.Literal "N/A"))
        /\ (LoadFile.total_chunks lc' = None ->
              nth_error (LoadFile.renderInfo lc') 2 = Some ("分块数: ", React.Literal "N/A"))
        /\ (LoadFile.loading_method lc' = None ->
              nth_error (LoadFile.renderInfo lc') 3 = Some ("加载方法: ", React.Literal "N/A"))
        /\ (LoadFile.chunking_method lc' = None ->
              nth_error (LoadFile.renderInfo lc') 4 = Some ("分块方法: ", React.Literal "N/A"))
        /\ (LoadFile.timestamp lc' = None ->
              nth_error (LoadFile.renderInfo lc') 5 = Some ("处理日期: ", React.Literal "N/A")))
  (* the parse page: count and order *)
  /\ (exists blocks,
        ParseFile.renderRightPanel p
          = React.Painted (ParseFile.Result (ParseFile.renderInfo p pc) blocks)
        /\ List.length blocks = List.length its
        /\ (forall k item, nth_error its k = Some item ->
              nth_error blocks k = Some (ParseFile.renderItem item k)))
  (* the parse page: each absent field of an item *)
  /\ (forall k item, ParseFile.type item = None ->
        itemLabel item = "文本"
        /\ ParseFile.monospace (ParseFile.renderItem item k) = false
        /\ ParseFile.footer (ParseFile.renderItem item k) = "")
  /\ (forall k item, ParseFile.page item = None ->
        ParseFile.heading (ParseFile.renderItem item k)
        = (itemLabel item ++ " -"
           ++ React.andString (ParseFile.itemMeta ParseFile.content_type item)
                (fun t => " - " ++ t))%string)
  /\ (forall k item, ParseFile.itemMeta ParseFile.content_type item = None ->
        ParseFile.heading (ParseFile.renderItem item k)
        = (itemLabel item ++ " -"
           ++ React.andNumber (ParseFile.page item) (fun n => "页 " ++ Js.ofZ n))%string)
  /\ (forall k item, ParseFile.title item = None ->
        ParseFile.titleLine (ParseFile.renderItem item k) = "")
  /\ (forall k item, ParseFile.content item = None ->
        ParseFile.body (ParseFile.renderItem item k) = "")
  /\ (forall k item, ParseFile.item_metadata item = None ->
        ParseFile.footer (ParseFile.renderItem item k) = "")
  /\ (forall k item m, ParseFile.item_metadata item = Some m ->
        (ParseFile.type item = Some "image" ->
           ParseFile.image_id m = None -> ParseFile.extraction_method m = None ->
           ParseFile.footer (ParseFile.renderItem item k) = "图像ID: , 提取方法: ")
        /\ (ParseFile.type item = Some "table" ->
              ParseFile.table_id m = None -> ParseFile.rows m = None ->
              ParseFile.columns m = None ->
              ParseFile.footer (ParseFile.renderItem item k) = "表格ID: , 行数: , 列数: "))
  (* the parse page: each absent field of the document information *)
  /\ (forall q pc',
        (ParseFile.docMeta ParseFile.file_type pc' = None ->
           nth_error (ParseFile.renderInfo q pc') 0
           = Some ("文件类型: ", React.Literal (ParseFile.fileType q)))
        /\ (ParseFile.docMeta ParseFile.total_pages pc' = None ->
              nth_error (ParseFile.renderInfo q pc') 1 = Some ("总页数: ", React.Literal ""))
        /\ (ParseFile.docMeta ParseFile.parsing_method pc' = None ->
              nth_error (ParseFile.renderInfo q pc') 2 = Some ("解析方法: ", React.Literal ""))
        /\ (ParseFile.docMeta ParseFile.timestamp pc' = None ->
              nth_error (ParseFile.renderInfo q pc') 3 = Some ("时间戳: ", React.Literal ""))).
Proof.
  split; [unfold LoadFile.renderRightPanel; now rewrite Htab, Hlc|].
  split; [unfold LoadFile.renderChunks; rewrite Hl; apply map_length|].
  split; [intros k chunk Hk; unfold LoadFile.renderChunks; rewrite Hl; now apply map_nth|].
  split; [intros lc' Hnone; unfold LoadFile.renderChunks; now rewrite Hnone|].
  split.
  { intros k chunk Hmeta. unfold LoadFile.renderChunk, LoadFile.chunkMeta.
    rewrite Hmeta. cbn [React.orString React.andNumber React.andString].
    now rewrite JsFacts.append_empty_r. }
  split.
  { intros k chunk E. unfold LoadFile.renderChunk. cbn [LoadFile.key LoadFile.heading].
    now rewrite E. }
  split.
  { intros k chunk E. unfold LoadFile.renderChunk. cbn [LoadFile.heading].
    rewrite E. cbn [React.andNumber]. now rewrite JsFacts.append_empty_r. }
  split.
  { intros k chunk E. unfold LoadFile.renderChunk. cbn [LoadFile.details]. now rewrite E. }
  split.
  { intros k chunk E. unfold LoadFile.renderChunk. cbn [LoadFile.details].
    rewrite E. cbn [React.andString]. now rewrite JsFacts.append_empty_r. }
  split.
  { intros k chunk E. unfold LoadFile.renderChunk. cbn [LoadFile.body]. now rewrite E. }
  split.
  { intros lc'. unfold LoadFile.renderInfo. cbn [nth_error].
    repeat split; intros E; now rewrite E. }
  split.
  { exists (React.map ParseFile.renderItem its).
    split; [unfold ParseFile.renderRightPanel; now rewrite Hpc, Hits|].
    split; [apply map_length | intros k item Hk; now apply map_nth]. }
  split.
  { intros k item E. unfold itemLabel, ParseFile.renderItem, ParseFile.hasType.
    cbn [ParseFile.monospace ParseFile.footer]. rewrite E.
    repeat split. now destruct (ParseFile.item_metadata item). }
  split.
  { intros k item E. unfold ParseFile.renderItem, itemLabel. cbn [ParseFile.heading].
    now rewrite E. }
  split.
  { intros k item E. unfold ParseFile.renderItem, itemLabel. cbn [ParseFile.heading].
    rewrite E. cbn [React.andString]. now rewrite JsFacts.append_empty_r. }
  split; [intros k item E; unfold ParseFile.renderItem; cbn [ParseFile.titleLine];
          now rewrite E|].
  split; [intros k item E; unfold ParseFile.renderItem; cbn [ParseFile.body];
          now rewrite E|].
  split; [intros k item E; unfold ParseFile.renderItem; cbn [ParseFile.footer];
          now rewrite E|].
  split.
  { intros k item m E. unfold ParseFile.renderItem, ParseFile.hasType.
    cbn [ParseFile.footer]. rewrite E.
    split; [intros T A B | intros T A B C]; rewrite T; cbn; now rewrite ?A, ?B, ?C. }
  intros q pc'. unfold ParseFile.renderInfo. cbn [nth_error].
  repeat split; intros E; now rewrite E.
Qed.

(** C6 at work: the two chunks of [twoChunks] and the one item of [onePage]. *)
Lemma C6_rendering_keeps_count_and_order_witness :
  LoadFile.activeTab reportLoaded = "preview"
  /\ LoadFile.loadedContent reportLoaded = Some twoChunks
  /\ LoadFile.chunks twoChunks
     = Some [ {| LoadFile.content := Some "alpha"; LoadFile.text := None;
                 LoadFile.metadata :=
                   Some {| LoadFile.chunk_id := Some "c1"; LoadFile.page_number := Some 1%Z;
                           LoadFile.word_count := Some 1%Z; LoadFile.page_range := Some "1" |} |};
              {| LoadFile.content := None; LoadFile.text := Some "beta";
                 LoadFile.metadata := None |} ]
  /\ ParseFile.parsedContent notesParsed = Some onePage
  /\ ParseFile.items onePage
     = Some [ {| ParseFile.type := Some "text"; ParseFile.content := Some "...";
                 ParseFile.page := Some 1%Z; ParseFile.title := None;
                 ParseFile.item_metadata := None |} ]
  /\ List.length (LoadFile.renderChunks twoChunks) = 2
  /\ LoadFile.renderRightPanel reportLoaded
     = React.Painted
         (LoadFile.Preview (LoadFile.renderInfo twoChunks)
            [ {| LoadFile.key := "c1"; LoadFile.heading := "分块 c1(页 1)";
                 LoadFile.details := "词数: 1| 页码范围: 1"; LoadFile.body := "alpha" |};
              {| LoadFile.key := "1"; LoadFile.heading := "分块 2";
                 LoadFile.details := ""; LoadFile.body := "beta" |} ]).
Proof.
  pose proof (C6_rendering_keeps_count_and_order reportLoaded twoChunks _ notesParsed onePage _
                eq_refl eq_refl eq_refl eq_refl eq_refl) as (R & N & _).
  do 5 (split; [reflexivity|]).
  split; [exact N|]. rewrite R. reflexivity.
Defined.

(** A chunk that has its metadata but none of the fields in it, and an image
    item whose metadata is empty. *)
Example chunk_with_empty_metadata :
  LoadFile.renderChunk
    {| LoadFile.content := Some "alpha"; LoadFile.text := None;
       LoadFile.metadata :=
         Some {| LoadFile.chunk_id := None; LoadFile.page_number := None;
                 LoadFile.word_count := None; LoadFile.page_range := None |} |} 4
  = {| LoadFile.key := "4"; LoadFile.heading := "分块 5";
       LoadFile.details := ""; LoadFile.body := "alpha" |}.
Proof. reflexivity. Qed.

Example image_with_empty_metadata :
  ParseFile.renderItem
    {| ParseFile.type := Some "image"; ParseFile.content := None; ParseFile.page := None;
       ParseFile.title := None;
       ParseFile.item_metadata :=
         Some {| ParseFile.content_type := None; ParseFile.image_id := None;
                 ParseFile.extraction_method := None; ParseFile.table_id := None;
                 ParseFile.rows := None; ParseFile.columns := None |} |} 0
  = {| ParseFile.heading := "图像 -"; ParseFile.titleLine := "";
       ParseFile.monospace := false; ParseFile.body := "";
       ParseFile.footer := "图像ID: , 提取方法: " |}.
Proof. reflexivity. Qed.

Example one_page_rendered :
  ParseFile.renderRightPanel notesParsed
  = React.Painted
      (ParseFile.Result
         [("文件类型: ", React.Literal "pdf"); ("总页数: ", React.Literal "");
          ("解析方法: ", React.Literal ""); ("时间戳: ", React.Literal "")]
         [ {| ParseFile.heading := "文本 -页 1"; ParseFile.titleLine := "";
              ParseFile.monospace := false; ParseFile.body := "...";
              ParseFile.footer := "" |} ]).
Proof. reflexivity. Qed.

Example empty_document_info :
  LoadFile.renderInfo
    {| LoadFile.chunks := None; LoadFile.total_pages := None; LoadFile.total_chunks := None;
       LoadFile.loading_method := None; LoadFile.chunking_method := None;
       LoadFile.timestamp := None; LoadFile.document_type := None |}
  = [("文档类型: ", React.Literal "N/A"); ("页数: ", React.Literal "N/A");
     ("分块数: ", React.Literal "N/A"); ("加载方法: ", React.Literal "N/A");
     ("分块方法: ", React.Literal "N/A"); ("处理日期: ", React.Literal "N/A")].
Proof. reflexivity. Qed.

(** * Further properties of the two pages *)

(** ** Picking a file *)

Ltac clash_of_suffixes :=
  repeat match goal with
         | H : Js.endsWith _ (String _ _) = true |- _ =>
             apply JsFacts.endsWith_lastChar in H; cbn in H
         end;
  congruence.

(** X1: for every name at most one of the five extension tests succeeds, so
    the order of the tests decides nothing; the parse page, which tests in
    another order, infers what the load page infers, with md called
    [markdown] and with [pdf] where the load page says csv or other. *)
Theorem X1_pages_agree_on_the_type (s : LoadFile.State) (p : ParseFile.State) (n : string) :
  List.length (filter (Js.endsWith (Js.toLowerCase n))
                 [".pdf"; ".txt"; ".csv"; ".md"; ".markdown"]) <= 1
  /\ parseInferred p n =
       (if loadInferred s n =? "md" then "markdown"
        else if ((loadInferred s n =? "csv") || (loadInferred s n =? "other"))%bool then "pdf"
        else loadInferred s n).
Proof.
  split; [apply extensions_exclusive|].
  rewrite loadInferred_eq, parseInferred_eq. cbv zeta.
  destruct (Js.endsWith (Js.toLowerCase n) ".pdf") eqn:E1;
  destruct (Js.endsWith (Js.toLowerCase n) ".txt") eqn:E2;
  destruct (Js.endsWith (Js.toLowerCase n) ".csv") eqn:E3;
  destruct (Js.endsWith (Js.toLowerCase n) ".md") eqn:E4;
  destruct (Js.endsWith (Js.toLowerCase n) ".markdown") eqn:E5;
  try reflexivity; exfalso; clash_of_suffixes.
Qed.

Lemma load_effect_after_pick (s : LoadFile.State) (f : Http.File) (rest : list Http.File) :
  LoadFile.after (LoadFile.after s (LoadFile.handleFileChange (f :: rest)))
    (LoadFile.useEffect_fileType (LoadFile.after s (LoadFile.handleFileChange (f :: rest))))
  = LoadFile.after s (LoadFile.handleFileChange (f :: rest)).
Proof.
  unfold LoadFile.after.
  destruct (load_handleFileChange_trace f rest) as [-> _].
  destruct s.
  destruct (Js.endsWith _ ".pdf"); [reflexivity|].
  destruct (Js.endsWith _ ".txt"); [reflexivity|].
  destruct (Js.endsWith _ ".csv"); [reflexivity|].
  destruct (Js.endsWith _ ".md" || Js.endsWith _ ".markdown")%bool; reflexivity.
Qed.

Lemma load_after_nothing (s : LoadFile.State) : LoadFile.after s (ret tt) = s.
Proof. reflexivity. Qed.

Lemma load_dispatch_pick (s : LoadFile.State) (files : list Http.File) :
  LoadFile.dispatch s (LoadFile.handleFileChange files)
  = LoadFile.after s (LoadFile.handleFileChange files).
Proof.
  unfold LoadFile.dispatch, LoadFile.rerender.
  destruct files as [|f rest].
  - change (LoadFile.handleFileChange []) with (@ret LoadFile.Setter unit tt).
    rewrite load_after_nothing. now rewrite String.eqb_refl.
  - destruct (_ =? _); [reflexivity|]. apply load_effect_after_pick.
Qed.

(** X2: on the load page the effect on the file type never changes what
    [handleFileChange] has just set: the state after the pick and the
    following render is the state the handler alone leaves, and in it the
    loading method is the default of the inferred type, or empty for a file
    of unknown type. *)
Theorem X2_load_effect_agrees_with_pick
    (s : LoadFile.State) (f : Http.File) (rest : list Http.File) :
  let s' := LoadFile.dispatch s (LoadFile.handleFileChange (f :: rest)) in
  s' = LoadFile.after s (LoadFile.handleFileChange (f :: rest))
  /\ LoadFile.file s' = Some f
  /\ LoadFile.fileType s' = loadInferred s (Http.name f)
  /\ LoadFile.loadingMethod s'
     = match canonicalDefault (LoadFile.fileType s') with
       | Some d => d
       | None => ""
       end.
Proof.
  cbv zeta. rewrite load_dispatch_pick.
  split; [reflexivity|].
  split; [|split; [apply load_after_pick|]];
    unfold LoadFile.after;
    destruct (load_handleFileChange_trace f rest) as [-> _];
    destruct s;
    (destruct (Js.endsWith _ ".pdf"); [reflexivity|]);
    (destruct (Js.endsWith _ ".txt"); [reflexivity|]);
    (destruct (Js.endsWith _ ".csv"); [reflexivity|]);
    destruct (Js.endsWith _ ".md" || Js.endsWith _ ".markdown")%bool; reflexivity.
Qed.

Lemma load_pick_other (s : LoadFile.State) (n : string) :
  forallb (fun ext => negb (Js.endsWith (Js.toLowerCase n) ext))
    [".pdf"; ".txt"; ".csv"; ".md"; ".markdown"] = true ->
  LoadFile.dispatch s (LoadFile.handleFileChange [fileNamed n])
  = LoadFile.apply (LoadFile.setLoadingMethod "")
      (LoadFile.apply (LoadFile.setFileType "other")
         (LoadFile.apply (LoadFile.setFile (Some (fileNamed n))) s)).
Proof.
  intros Hn. cbn [forallb] in Hn.
  rewrite !Bool.andb_true_iff, !Bool.negb_true_iff in Hn.
  destruct Hn as (E1 & E2 & E3 & E4 & E5 & _).
  unfold LoadFile.dispatch, LoadFile.rerender.
  destruct (_ =? _); [|rewrite load_effect_after_pick];
    unfold LoadFile.after, fileNamed;
    destruct (load_handleFileChange_trace {| Http.name := n |} []) as [-> _];
    cbn [Http.name]; rewrite E1, E2, E3, E4, E5; reflexivity.
Qed.

Lemma parse_after_pick_state (p : ParseFile.State) (f : Http.File) (rest : list Http.File) :
  ParseFile.after p (ParseFile.handleFileSelect (f :: rest))
  = ParseFile.apply (ParseFile.setDocName (Js.beforeFirst "." (Js.toLowerCase (Http.name f))))
      (ParseFile.apply (ParseFile.setFileType (parseInferred p (Http.name f)))
         (ParseFile.apply (ParseFile.setFile (Some f)) p)).
Proof.
  rewrite parseInferred_eq. unfold ParseFile.after.
  destruct (parse_handleFileSelect_trace f rest) as [-> _]. reflexivity.
Qed.

(** X3: a file whose lower-cased name ends in none of the known extensions
    cannot be submitted on the load page: the type becomes other, the loading
    method is emptied, the select offers nothing, the button is disabled and
    the handler sends no request.  The parse page takes the same file as a
    pdf and sends it. *)
Theorem X3_unknown_extension
    (s : LoadFile.State) (net : LoadFile.Net) (p : ParseFile.State) (pnet : ParseFile.Net)
    (n : string)
    (Hn : forallb (fun ext => negb (Js.endsWith (Js.toLowerCase n) ext))
            [".pdf"; ".txt"; ".csv"; ".md"; ".markdown"] = true)
    (Hl : ParseFile.loadingMethod p <> "") (Ho : ParseFile.parsingOption p <> "") :
  let s' := LoadFile.dispatch s (LoadFile.handleFileChange [fileNamed n]) in
  let p' := ParseFile.dispatch p (ParseFile.handleFileSelect [fileNamed n]) in
  (LoadFile.fileType s' = "other"
   /\ LoadFile.loadingMethod s' = ""
   /\ LoadFile.loadingMethodOptions s' = []
   /\ LoadFile.submitDisabled s' = true
   /\ Task.requests (fst (LoadFile.handleProcess s' net)) = [])
  /\ (ParseFile.fileType p' = "pdf"
      /\ Task.requests (fst (ParseFile.handleProcess p' pnet))
         = [ParseFile.parseRequest (ParseFile.formData p' (fileNamed n))]
      /\ In ("file_type", Http.Text "pdf") (ParseFile.formData p' (fileNamed n))).
Proof.
  pose proof Hn as Hn0.
  cbn [forallb] in Hn. rewrite !Bool.andb_true_iff, !Bool.negb_true_iff in Hn.
  destruct Hn as (E1 & E2 & E3 & E4 & E5 & _).
  intros s' p'. split.
  - unfold s'. rewrite (load_pick_other s n Hn0).
    destruct s. repeat split.
  - assert (Q : ParseFile.after p (ParseFile.handleFileSelect [fileNamed n])
                = ParseFile.apply (ParseFile.setDocName (Js.beforeFirst "." (Js.toLowerCase n)))
                    (ParseFile.apply (ParseFile.setFileType "pdf")
                       (ParseFile.apply (ParseFile.setFile (Some (fileNamed n))) p))).
    { rewrite parse_after_pick_state. rewrite parseInferred_eq. cbv zeta.
      cbn [Http.name fileNamed]. now rewrite E1, E2, E4, E5. }
    assert (F : ParseFile.file p' = Some (fileNamed n)
                /\ ParseFile.fileType p' = "pdf"
                /\ ParseFile.loadingMethod p' <> ""
                /\ ParseFile.parsingOption p' <> "").
    { unfold p', ParseFile.dispatch, ParseFile.rerender. rewrite Q.
      destruct p as [fl ft lm po ei et pc st dn ip].
      cbn [ParseFile.apply ParseFile.fileType ParseFile.loadingMethod ParseFile.parsingOption]
        in *.
      destruct ("pdf" =? ft); repeat split; try assumption. discriminate. }
    destruct F as (Ff & Ft & Fl & Fo).
    split; [exact Ft|].
    destruct (parse_request_fields p' (fileNamed n) pnet Ff Fl Fo) as [R _].
    split; [exact R|].
    unfold ParseFile.formData. rewrite Ft. cbn. tauto.
Qed.

(** X3 at work: [archive.zip], picked on both pages as they open. *)
Lemma X3_unknown_extension_witness :
  forallb (fun ext => negb (Js.endsWith (Js.toLowerCase "archive.zip") ext))
    [".pdf"; ".txt"; ".csv"; ".md"; ".markdown"] = true
  /\ ParseFile.loadingMethod ParseFile.initial <> ""
  /\ ParseFile.parsingOption ParseFile.initial <> ""
  /\ LoadFile.submitDisabled
       (LoadFile.dispatch LoadFile.initial (LoadFile.handleFileChange [fileNamed "archive.zip"]))
     = true
  /\ ParseFile.fileType
       (ParseFile.dispatch ParseFile.initial (ParseFile.handleFileSelect [fileNamed "archive.zip"]))
     = "pdf".
Proof.
  assert (Hn : forallb (fun ext => negb (Js.endsWith (Js.toLowerCase "archive.zip") ext))
                 [".pdf"; ".txt"; ".csv"; ".md"; ".markdown"] = true) by reflexivity.
  assert (Hl : ParseFile.loadingMethod ParseFile.initial <> "") by discriminate.
  assert (Ho : ParseFile.parsingOption ParseFile.initial <> "") by discriminate.
  destruct (X3_unknown_extension LoadFile.initial offline ParseFile.initial parseOffline
              "archive.zip" Hn Hl Ho) as [(_ & _ & _ & D & _) (T & _)].
  split; [exact Hn|]. split; [exact Hl|]. split; [exact Ho|]. split; [exact D | exact T].
Defined.











Example document_name_of_archive :
  ParseFile.docName
    (ParseFile.after ParseFile.initial (ParseFile.handleFileSelect [fileNamed "Annual.Report.PDF"]))
  = "annual".
Proof. reflexivity. Qed.

(** ** Loading, viewing and deleting documents *)

Lemma prefix_app (a b : string) : prefix a (a ++ b) = true.
Proof.
  induction a as [|c a IH]; cbn; [now destruct b|].
  destruct (ascii_dec c c); [exact IH | congruence].
Qed.

Lemma includes_middle (a sub rest : string) : Js.includes (a ++ sub ++ rest) sub = true.
Proof.
  induction a as [|c a IH].
  - cbn [append]. destruct (sub ++ rest)%string eqn:E; cbn [Js.includes];
      rewrite <- E, prefix_app; reflexivity.
  - cbn [append Js.includes]. rewrite IH. now destruct (prefix sub _).
Qed.

Lemma updates_app {U} (a b : list (Task.Event U)) :
  Task.updates (a ++ b) = Task.updates a ++ Task.updates b.
Proof.
  induction a as [|[u|q|] a IH]; cbn; now rewrite ?IH.
Qed.

Lemma requests_app {U} (a b : list (Task.Event U)) :
  Task.requests (a ++ b) = Task.requests a ++ Task.requests b.
Proof.
  induction a as [|[u|q|] a IH]; cbn; now rewrite ?IH.
Qed.

Lemma load_commit_app (s : LoadFile.State) (a b : list (Task.Event LoadFile.Setter)) :
  Task.commit LoadFile.apply s (a ++ b)
  = Task.commit LoadFile.apply (Task.commit LoadFile.apply s a) b.
Proof.
  unfold Task.commit. now rewrite updates_app, fold_left_app.
Qed.

Lemma documentsSettled_state (net : LoadFile.Net) (s : LoadFile.State) :
  Task.commit LoadFile.apply s (documentsSettled net)
  = LoadFile.apply (LoadFile.setDocuments (listedOr net (LoadFile.documents s))) s.
Proof.
  unfold documentsSettled, listedOr.
  destruct (LoadFile.listAnswer net) as [e|l]; [now destruct s|].
  destruct (Http.json l); now destruct s.
Qed.

Lemma documentsSettled_requests (net : LoadFile.Net) :
  Task.requests (documentsSettled net) = [].
Proof.
  unfold documentsSettled. destruct (LoadFile.listAnswer net) as [e|l]; [reflexivity|].
  now destruct (Http.json l).
Qed.

Lemma answered_inv {A} (answer : Http.Fetched A) (data : A) :
  answered answer = Some data ->
  exists r, answer = Http.Resolved r /\ Http.ok r = true /\ Http.json r = Http.JsonValue data.
Proof.
  unfold answered. destruct answer as [e|r]; [discriminate|].
  destruct (Http.ok r) eqn:Eok; [|discriminate].
  destruct (Http.json r) as [e|d] eqn:Ej; [discriminate|].
  intros [= ->]. exists r. repeat split; assumption.
Qed.

(** X5: a load submission that the server answers with an ok status and a
    readable body sends the POST and then the listing request, and leaves the
    state of before with four cells changed: the result is what the body
    carries under [loaded_content], the status is the success message (shown
    green), the preview tab is active and the document list is the server's.
    The preview then shows that result, or the empty picture when the body
    has no [loaded_content]. *)
Theorem X5_load_success
    (s : LoadFile.State) (f : Http.File) (net : LoadFile.Net) (data : LoadFile.LoadBody)
    (Hf : LoadFile.file s = Some f) (Hm : LoadFile.loadingMethod s <> "")
    (Ha : answered (LoadFile.loadAnswer net (LoadFile.formData s f)) = Some data) :
  let h := LoadFile.handleProcess s net in
  let s' := LoadFile.after s h in
  Task.requests (fst h) = [LoadFile.loadRequest (LoadFile.formData s f); LoadFile.listRequest]
  /\ s' = LoadFile.apply (LoadFile.setDocuments (listedOr net (LoadFile.documents s)))
            (LoadFile.apply (LoadFile.setActiveTab "preview")
               (LoadFile.apply (LoadFile.setStatus "文件加载成功!")
                  (LoadFile.apply (LoadFile.setLoadedContent (LoadFile.loaded_content data)) s)))
  /\ LoadFile.renderRightPanel s'
     = React.Painted
         match LoadFile.loaded_content data with
         | Some lc => LoadFile.Preview (LoadFile.renderInfo lc) (LoadFile.renderChunks lc)
         | None => LoadFile.RandomImage "上传并加载文件或选择现有文档以在此处查看结果"
         end
  /\ LoadFile.statusBox s' = Some (LoadFile.Green, "文件加载成功!").
Proof.
  intros h s'. destruct (answered_inv _ _ Ha) as (r & Er & Eok & Ej).
  assert (S : s' = LoadFile.apply (LoadFile.setDocuments (listedOr net (LoadFile.documents s)))
            (LoadFile.apply (LoadFile.setActiveTab "preview")
               (LoadFile.apply (LoadFile.setStatus "文件加载成功!")
                  (LoadFile.apply (LoadFile.setLoadedContent (LoadFile.loaded_content data)) s)))).
  { unfold s', h, LoadFile.after. rewrite (load_handleProcess_run s f net Hf Hm).
    rewrite Er, Eok, Ej. cbn [fst].
    pose proof (load_commit_app s
                  [Update (LoadFile.setStatus "加载中...");
                   Update (LoadFile.setLoadedContent None);
                   Sent (LoadFile.loadRequest (LoadFile.formData s f));
                   BodyRead;
                   Update (LoadFile.setLoadedContent (LoadFile.loaded_content data));
                   Update (LoadFile.setStatus "文件加载成功!");
                   Sent LoadFile.listRequest;
                   Update (LoadFile.setActiveTab "preview")]
                  (documentsSettled net)) as C.
    cbn [app] in C |- *. rewrite C, documentsSettled_state. now destruct s. }
  split.
  { unfold h. rewrite (load_handleProcess_run s f net Hf Hm). rewrite Er, Eok, Ej.
    cbn [fst app Task.requests]. now rewrite documentsSettled_requests. }
  split; [exact S|]. rewrite S. destruct s.
  split; [|reflexivity].
  unfold LoadFile.renderRightPanel. cbn. now destruct (LoadFile.loaded_content data).
Qed.

(** X5 at work: [report.pdf] loaded from the server that answers with
    [twoChunks]. *)
Lemma X5_load_success_witness :
  LoadFile.file reportPicked = Some (fileNamed "report.pdf")
  /\ LoadFile.loadingMethod reportPicked <> ""
  /\ answered (LoadFile.loadAnswer serving
                 (LoadFile.formData reportPicked (fileNamed "report.pdf")))
     = Some {| LoadFile.loaded_content := Some twoChunks |}
  /\ LoadFile.renderRightPanel reportLoaded
     = React.Painted
         (LoadFile.Preview (LoadFile.renderInfo twoChunks) (LoadFile.renderChunks twoChunks)).
Proof.
  assert (Hf : LoadFile.file reportPicked = Some (fileNamed "report.pdf")) by reflexivity.
  assert (Hm : LoadFile.loadingMethod reportPicked <> "") by discriminate.
  destruct (X5_load_success reportPicked _ serving _ Hf Hm eq_refl) as (_ & _ & R & _).
  split; [exact Hf|]. split; [exact Hm|]. split; [reflexivity | exact R].
Defined.

Lemma load_handleViewDocument_run (net : LoadFile.Net) (doc : LoadFile.Document) :
  LoadFile.handleViewDocument net doc =
    ([Update (LoadFile.setStatus "加载文档...");
      Sent (LoadFile.documentRequest (LoadFile.name doc))]
     ++ match LoadFile.documentAnswer net (LoadFile.name doc) with
        | Http.Rejected e =>
            [Update (LoadFile.setStatus ("加载文档错误: " ++ LoadFile.errorText e))]
        | Http.Resolved r =>
            if Http.ok r then
              BodyRead ::
              match Http.json r with
              | Http.JsonThrows e =>
                  [Update (LoadFile.setStatus ("加载文档错误: " ++ LoadFile.errorText e))]
              | Http.JsonValue data =>
                  [Update (LoadFile.setSelectedDoc (Some doc));
                   Update (LoadFile.setLoadedContent data);
                   Update (LoadFile.setActiveTab "preview");
                   Update (LoadFile.setStatus "")]
              end
            else [Update (LoadFile.setStatus
                            ("加载文档错误: HTTP error! status: " ++ Js.ofZ (Http.status r)))]
        end,
     Returns tt).
Proof.
  unfold LoadFile.handleViewDocument.
  destruct (LoadFile.documentAnswer net (LoadFile.name doc)) as [e|r]; [reflexivity|].
  unfold fetch, bind, tryCatch, throw, set, json.
  destruct (Http.ok r); [|reflexivity].
  destruct (Http.json r); reflexivity.
Qed.

(** X6: viewing a document sends one request, for the document's name
    followed by [.json], and never throws.  When the answer is ok and
    readable the document becomes the selected one, the decoded body the
    result, the preview tab is active and the status is emptied, so that the
    status box disappears; the preview shows the content, or the empty
    picture when the body is [null].  In every other case only the status
    changes: it names the failure and is shown red, and what was selected and
    previewed before stays. *)
Theorem X6_view_document (s : LoadFile.State) (net : LoadFile.Net) (doc : LoadFile.Document) :
  let h := LoadFile.handleViewDocument net doc in
  let s' := LoadFile.after s h in
  Task.requests (fst h) = [LoadFile.documentRequest (LoadFile.name doc)]
  /\ snd h = Returns tt
  /\ match answered (LoadFile.documentAnswer net (LoadFile.name doc)) with
     | Some data =>
         s' = LoadFile.apply (LoadFile.setStatus "")
                (LoadFile.apply (LoadFile.setActiveTab "preview")
                   (LoadFile.apply (LoadFile.setLoadedContent data)
                      (LoadFile.apply (LoadFile.setSelectedDoc (Some doc)) s)))
         /\ LoadFile.renderRightPanel s'
            = React.Painted
                match data with
                | Some lc => LoadFile.Preview (LoadFile.renderInfo lc) (LoadFile.renderChunks lc)
                | None => LoadFile.RandomImage "上传并加载文件或选择现有文档以在此处查看结果"
                end
         /\ LoadFile.statusBox s' = None
     | None =>
         exists m, failure true (LoadFile.documentAnswer net (LoadFile.name doc)) = Some m
           /\ s' = LoadFile.apply (LoadFile.setStatus ("加载文档错误: " ++ m)) s
           /\ LoadFile.statusBox s' = Some (LoadFile.Red, ("加载文档错误: " ++ m)%string)
     end.
Proof.
  intros h s'. unfold s', h, LoadFile.after.
  rewrite load_handleViewDocument_run. cbn [fst snd].
  assert (red : forall m, LoadFile.statusBox
                  (LoadFile.apply (LoadFile.setStatus ("加载文档错误: " ++ m)) s)
                = Some (LoadFile.Red, ("加载文档错误: " ++ m)%string)).
  { intros m. destruct s. unfold LoadFile.statusBox. cbn [LoadFile.apply LoadFile.status].
    change ("加载文档错误: " ++ m)%string with ("加载文档" ++ "错误" ++ (": " ++ m))%string.
    rewrite includes_middle. reflexivity. }
  unfold answered, failure.
  destruct (LoadFile.documentAnswer net (LoadFile.name doc)) as [e|r].
  { split; [reflexivity|]. split; [reflexivity|].
    exists (LoadFile.errorText e). split; [reflexivity|].
    assert (E : Task.commit LoadFile.apply s
                  ([Update (LoadFile.setStatus "加载文档...");
                    Sent (LoadFile.documentRequest (LoadFile.name doc))]
                   ++ [Update (LoadFile.setStatus ("加载文档错误: " ++ LoadFile.errorText e))])
                = LoadFile.apply (LoadFile.setStatus ("加载文档错误: " ++ LoadFile.errorText e)) s)
      by now destruct s.
    rewrite E. split; [reflexivity | apply red]. }
  destruct (Http.ok r).
  2:{ split; [reflexivity|]. split; [reflexivity|].
      eexists. split; [reflexivity|].
      match goal with |- ?l = _ /\ _ => assert (E : l = LoadFile.apply (LoadFile.setStatus
            ("加载文档错误: " ++ ("HTTP error! status: " ++ Js.ofZ (Http.status r)))) s)
          by now destruct s end.
      rewrite E. split; [reflexivity | apply red]. }
  destruct (Http.json r) as [e|data].
  { split; [reflexivity|]. split; [reflexivity|].
    exists (LoadFile.errorText e). split; [reflexivity|].
    match goal with |- ?l = _ /\ _ => assert (E : l = LoadFile.apply (LoadFile.setStatus
          ("加载文档错误: " ++ LoadFile.errorText e)) s) by now destruct s end.
    rewrite E. split; [reflexivity | apply red]. }
  split; [reflexivity|]. split; [reflexivity|].
  destruct s, data; repeat split.
Qed.

(** A view answered with status 200 and the body [null]: the document is
    selected, the status is emptied and the preview shows the empty picture. *)
Example view_answered_with_null :
  let net := {| LoadFile.listAnswer := LoadFile.listAnswer offline;
                LoadFile.loadAnswer := LoadFile.loadAnswer offline;
                LoadFile.documentAnswer := fun _ =>
                  Http.Resolved {| Http.status := 200; Http.json := Http.JsonValue None |};
                LoadFile.deleteAnswer := LoadFile.deleteAnswer offline |} in
  let s' := LoadFile.after viewingA (LoadFile.handleViewDocument net docB) in
  LoadFile.selectedDoc s' = Some docB
  /\ LoadFile.loadedContent s' = None
  /\ LoadFile.status s' = ""
  /\ LoadFile.renderRightPanel s'
     = React.Painted (LoadFile.RandomImage "上传并加载文件或选择现有文档以在此处查看结果").
Proof. repeat split. Qed.

(** X7: a delete that fails (the request is rejected, or the answer has a
    status that is not ok) sends the DELETE alone: the listing is not fetched
    again, and the document list, the selected document and the preview stay
    as they were.  Only the status changes; it names the failure and is shown
    red. *)
Theorem X7_delete_failure
    (s : LoadFile.State) (net : LoadFile.Net) (docName m : string)
    (Hfail : failure false (LoadFile.deleteAnswer net docName) = Some m) :
  let h := LoadFile.handleDeleteDocument s net docName in
  let s' := LoadFile.after s h in
  Task.requests (fst h) = [LoadFile.deleteRequest docName]
  /\ snd h = Returns tt
  /\ s' = LoadFile.apply (LoadFile.setStatus ("删除文档错误: " ++ m)) s
  /\ LoadFile.statusBox s' = Some (LoadFile.Red, ("删除文档错误: " ++ m)%string).
Proof.
  assert (R : LoadFile.handleDeleteDocument s net docName
              = ([Sent (LoadFile.deleteRequest docName);
                  Update (LoadFile.setStatus ("删除文档错误: " ++ m))], Returns tt)).
  { unfold LoadFile.handleDeleteDocument. unfold failure in Hfail.
    destruct (LoadFile.deleteAnswer net docName) as [e|r].
    - injection Hfail as <-. reflexivity.
    - unfold fetch, bind, tryCatch, throw, set.
      destruct (Http.ok r).
      + destruct (Http.json r); discriminate.
      + injection Hfail as <-. reflexivity. }
  cbv zeta. rewrite R. cbn [fst snd].
  split; [reflexivity|]. split; [reflexivity|].
  split; [now destruct s|].
  destruct s. unfold LoadFile.statusBox, LoadFile.after, Task.commit.
  cbn [fst Task.updates fold_left LoadFile.apply LoadFile.status].
  change ("删除文档错误: " ++ m)%string with ("删除文档" ++ "错误" ++ (": " ++ m))%string.
  rewrite includes_middle. reflexivity.
Qed.

(** X7 at work: a delete answered with status 500. *)
Lemma X7_delete_failure_witness :
  failure false (LoadFile.deleteAnswer failing "a.pdf") = Some "HTTP error! status: 500"
  /\ LoadFile.after viewingA (LoadFile.handleDeleteDocument viewingA failing "a.pdf")
     = LoadFile.apply (LoadFile.setStatus "删除文档错误: HTTP error! status: 500") viewingA.
Proof.
  destruct (X7_delete_failure viewingA failing "a.pdf" _ eq_refl) as (_ & _ & S & _).
  split; [reflexivity | exact S].
Defined.

Lemma load_dispatch_same_type (s : LoadFile.State) (h : LoadFile.Handler) :
  LoadFile.fileType (LoadFile.after s h) = LoadFile.fileType s ->
  LoadFile.dispatch s h = LoadFile.after s h.
Proof.
  intros E. unfold LoadFile.dispatch, LoadFile.rerender. now rewrite E, String.eqb_refl.
Qed.

(** The state a view leaves when the server answers it. *)
Lemma load_after_view (s : LoadFile.State) (net : LoadFile.Net) (doc : LoadFile.Document)
    (data : option LoadFile.LoadedContent) :
  answered (LoadFile.documentAnswer net (LoadFile.name doc)) = Some data ->
  LoadFile.perform s (LoadFile.ViewDocument net doc)
  = LoadFile.apply (LoadFile.setStatus "")
      (LoadFile.apply (LoadFile.setActiveTab "preview")
         (LoadFile.apply (LoadFile.setLoadedContent data)
            (LoadFile.apply (LoadFile.setSelectedDoc (Some doc)) s))).
Proof.
  intros Hv. destruct (answered_inv _ _ Hv) as (r & Er & Eok & Ej).
  assert (A : LoadFile.after s (LoadFile.handleViewDocument net doc)
              = LoadFile.apply (LoadFile.setStatus "")
                  (LoadFile.apply (LoadFile.setActiveTab "preview")
                     (LoadFile.apply (LoadFile.setLoadedContent data)
                        (LoadFile.apply (LoadFile.setSelectedDoc (Some doc)) s)))).
  { unfold LoadFile.after. rewrite load_handleViewDocument_run, Er, Eok, Ej. now destruct s. }
  unfold LoadFile.perform. cbn [LoadFile.handlerOf].
  rewrite load_dispatch_same_type; [exact A | rewrite A; now destruct s].
Qed.

(** The state a delete leaves when the server accepts it and the deleted
    name is the name of the selected document. *)
Lemma load_after_delete_selected (s : LoadFile.State) (net : LoadFile.Net)
    (doc : LoadFile.Document) (r : Http.Response unit) :
  LoadFile.selectedDoc s = Some doc ->
  LoadFile.deleteAnswer net (LoadFile.name doc) = Http.Resolved r -> Http.ok r = true ->
  LoadFile.perform s (LoadFile.DeleteDocument net (LoadFile.name doc))
  = LoadFile.apply (LoadFile.setDocuments (listedOr net (LoadFile.documents s)))
      (LoadFile.apply (LoadFile.setLoadedContent None)
         (LoadFile.apply (LoadFile.setSelectedDoc None)
            (LoadFile.apply (LoadFile.setStatus "文档删除成功") s))).
Proof.
  intros Hs Hd Hok.
  assert (Sel : LoadFile.isSelected s (LoadFile.name doc) = true).
  { unfold LoadFile.isSelected. rewrite Hs. apply String.eqb_refl. }
  assert (A : LoadFile.after s (LoadFile.handleDeleteDocument s net (LoadFile.name doc))
              = LoadFile.apply (LoadFile.setDocuments (listedOr net (LoadFile.documents s)))
                  (LoadFile.apply (LoadFile.setLoadedContent None)
                     (LoadFile.apply (LoadFile.setSelectedDoc None)
                        (LoadFile.apply (LoadFile.setStatus "文档删除成功") s)))).
  { unfold LoadFile.after.
    rewrite (load_handleDeleteDocument_run s net _ r Hd Hok), Sel. cbn [fst].
    pose proof (load_commit_app s
                  [Sent (LoadFile.deleteRequest (LoadFile.name doc));
                   Update (LoadFile.setStatus "文档删除成功");
                   Sent LoadFile.listRequest;
                   Update (LoadFile.setSelectedDoc None);
                   Update (LoadFile.setLoadedContent None)]
                  (documentsSettled net)) as C.
    cbn [app] in C |- *. rewrite C, documentsSettled_state. now destruct s. }
  unfold LoadFile.perform. cbn [LoadFile.handlerOf].
  rewrite load_dispatch_same_type; [exact A | rewrite A; now destruct s].
Qed.

(** X8: a document is opened from its card in the document manager, the
    user goes back to the document manager and deletes it from the same card,
    and the server accepts both.  The page allows each of these steps.  The
    view selects the document and shows the preview tab; after the delete
    nothing is selected and nothing is previewed, the list is the one the
    server answered after the delete, and the document manager, which is
    still the active tab, shows that list (or throws when the answer carried
    no list); back on the preview tab the empty picture is shown. *)
Theorem X8_view_then_delete
    (s : LoadFile.State) (net net' : LoadFile.Net) (doc : LoadFile.Document)
    (data : option LoadFile.LoadedContent) (r' : Http.Response unit)
    (Hp : LoadFile.possible s (LoadFile.ViewDocument net doc))
    (Hv : answered (LoadFile.documentAnswer net (LoadFile.name doc)) = Some data)
    (Hd : LoadFile.deleteAnswer net' (LoadFile.name doc) = Http.Resolved r')
    (Hok : Http.ok r' = true) :
  let s1 := LoadFile.perform s (LoadFile.ViewDocument net doc) in
  let s2 := LoadFile.perform s1 (LoadFile.ShowTab "documents") in
  let s3 := LoadFile.perform s2 (LoadFile.DeleteDocument net' (LoadFile.name doc)) in
  let s4 := LoadFile.perform s3 (LoadFile.ShowTab "preview") in
  LoadFile.possible s1 (LoadFile.ShowTab "documents")
  /\ LoadFile.possible s2 (LoadFile.DeleteDocument net' (LoadFile.name doc))
  /\ LoadFile.possible s3 (LoadFile.ShowTab "preview")
  /\ LoadFile.selectedDoc s1 = Some doc
  /\ LoadFile.loadedContent s1 = data
  /\ LoadFile.activeTab s1 = "preview"
  /\ LoadFile.selectedDoc s3 = None
  /\ LoadFile.loadedContent s3 = None
  /\ LoadFile.documents s3 = listedOr net' (LoadFile.documents s)
  /\ LoadFile.activeTab s3 = "documents"
  /\ LoadFile.renderRightPanel s3
     = match listedOr net' (LoadFile.documents s) with
       | Some l =>
           React.Painted
             (LoadFile.Documents
                {| LoadFile.cards := React.map LoadFile.renderDocument l;
                   LoadFile.emptyNotice := (List.length l =? 0)%nat |})
       | None => React.TypeError
       end
  /\ LoadFile.renderRightPanel s4
     = React.Painted (LoadFile.RandomImage "上传并加载文件或选择现有文档以在此处查看结果").
Proof.
  intros s1 s2 s3 s4.
  destruct Hp as (_ & l & El & Il).
  assert (S1 : s1 = LoadFile.apply (LoadFile.setStatus "")
                (LoadFile.apply (LoadFile.setActiveTab "preview")
                   (LoadFile.apply (LoadFile.setLoadedContent data)
                      (LoadFile.apply (LoadFile.setSelectedDoc (Some doc)) s))))
    by (apply load_after_view; exact Hv).
  assert (S2 : s2 = LoadFile.apply (LoadFile.setActiveTab "documents") s1).
  { unfold s2, LoadFile.perform. cbn [LoadFile.handlerOf].
    rewrite load_dispatch_same_type; now destruct s1. }
  assert (Sel2 : LoadFile.selectedDoc s2 = Some doc) by (rewrite S2, S1; now destruct s).
  assert (S3 : s3 = LoadFile.apply (LoadFile.setDocuments (listedOr net' (LoadFile.documents s2)))
                (LoadFile.apply (LoadFile.setLoadedContent None)
                   (LoadFile.apply (LoadFile.setSelectedDoc None)
                      (LoadFile.apply (LoadFile.setStatus "文档删除成功") s2))))
    by (apply (load_after_delete_selected s2 net' doc r' Sel2 Hd Hok)).
  assert (D2 : LoadFile.documents s2 = LoadFile.documents s) by (rewrite S2, S1; now destruct s).
  assert (S4 : s4 = LoadFile.apply (LoadFile.setActiveTab "preview") s3).
  { unfold s4, LoadFile.perform. cbn [LoadFile.handlerOf].
    rewrite load_dispatch_same_type; now destruct s3. }
  split; [right; reflexivity|].
  split.
  { split; [rewrite S2; now destruct s1|].
    exists l. split; [now rewrite D2 | now apply in_map]. }
  split; [left; reflexivity|].
  split; [rewrite S1; now destruct s|].
  split; [rewrite S1; now destruct s|].
  split; [rewrite S1; now destruct s|].
  rewrite S4, S3, D2. rewrite S2, S1.
  destruct s. cbn [LoadFile.apply LoadFile.selectedDoc LoadFile.loadedContent
                   LoadFile.documents LoadFile.activeTab].
  repeat (split; [reflexivity|]).
  unfold LoadFile.renderRightPanel, LoadFile.renderDocuments.
  cbn [LoadFile.activeTab LoadFile.documents LoadFile.loadedContent].
  split; [|reflexivity].
  change ("documents" =? "preview") with false. cbv iota.
  destruct (listedOr net' documents); reflexivity.
Qed.

(** X8 at work: [a.pdf] opened and deleted from the document manager. *)
Lemma X8_view_then_delete_witness :
  let s := LoadFile.perform (LoadFile.perform LoadFile.initial (LoadFile.Mount library))
             (LoadFile.ShowTab "documents") in
  LoadFile.possible s (LoadFile.ViewDocument library docA)
  /\ answered (LoadFile.documentAnswer library (LoadFile.name docA)) = Some (Some contentOfA)
  /\ LoadFile.deleteAnswer serving (LoadFile.name docA)
     = Http.Resolved {| Http.status := 200; Http.json := Http.JsonValue tt |}
  /\ Http.ok {| Http.status := 200; Http.json := Http.JsonValue tt |} = true
  /\ LoadFile.renderRightPanel
       (LoadFile.perform
          (LoadFile.perform (LoadFile.perform s (LoadFile.ViewDocument library docA))
             (LoadFile.ShowTab "documents"))
          (LoadFile.DeleteDocument serving (LoadFile.name docA)))
     = React.Painted
         (LoadFile.Documents
            {| LoadFile.cards := [LoadFile.renderDocument docB 0];
               LoadFile.emptyNotice := false |}).
Proof.
  intros s.
  assert (Hp : LoadFile.possible s (LoadFile.ViewDocument library docA)).
  { split; [discriminate|]. exists [docA; docB]. split; [reflexivity | now left]. }
  destruct (X8_view_then_delete s library serving docA (Some contentOfA) _ Hp
              eq_refl eq_refl eq_refl)
    as (_ & _ & _ & _ & _ & _ & _ & _ & _ & _ & R & _).
  split; [exact Hp|]. split; [reflexivity|]. split; [reflexivity|]. split; [reflexivity|].
  exact R.
Defined.

(** X9: a load keeps the document that was selected before it.  When that
    document is deleted afterwards, the preview is cleared although it shows
    the result of the load and not the deleted document. *)
Theorem X9_delete_after_load_clears_the_result
    (s : LoadFile.State) (f : Http.File) (net net' : LoadFile.Net)
    (doc : LoadFile.Document) (data : LoadFile.LoadBody) (lc : LoadFile.LoadedContent)
    (r' : Http.Response unit)
    (Hsel : LoadFile.selectedDoc s = Some doc)
    (Hf : LoadFile.file s = Some f) (Hm : LoadFile.loadingMethod s <> "")
    (Ha : answered (LoadFile.loadAnswer net (LoadFile.formData s f)) = Some data)
    (Hlc : LoadFile.loaded_content data = Some lc)
    (Hd : LoadFile.deleteAnswer net' (LoadFile.name doc) = Http.Resolved r')
    (Hok : Http.ok r' = true) :
  let s1 := LoadFile.after s (LoadFile.handleProcess s net) in
  let s2 := LoadFile.after s1 (LoadFile.handleDeleteDocument s1 net' (LoadFile.name doc)) in
  LoadFile.selectedDoc s1 = Some doc
  /\ LoadFile.loadedContent s1 = Some lc
  /\ LoadFile.loadedContent s2 = None
  /\ LoadFile.selectedDoc s2 = None.
Proof.
  intros s1 s2. destruct (answered_inv _ _ Ha) as (r & Er & Eok & Ej).
  assert (S1 : s1 = LoadFile.apply (LoadFile.setDocuments (listedOr net (LoadFile.documents s)))
            (LoadFile.apply (LoadFile.setActiveTab "preview")
               (LoadFile.apply (LoadFile.setStatus "文件加载成功!")
                  (LoadFile.apply (LoadFile.setLoadedContent (Some lc)) s)))).
  { unfold s1, LoadFile.after. rewrite (load_handleProcess_run s f net Hf Hm).
    rewrite Er, Eok, Ej, Hlc. cbn [fst].
    pose proof (load_commit_app s
                  [Update (LoadFile.setStatus "加载中...");
                   Update (LoadFile.setLoadedContent None);
                   Sent (LoadFile.loadRequest (LoadFile.formData s f));
                   BodyRead;
                   Update (LoadFile.setLoadedContent (Some lc));
                   Update (LoadFile.setStatus "文件加载成功!");
                   Sent LoadFile.listRequest;
                   Update (LoadFile.setActiveTab "preview")]
                  (documentsSettled net)) as C.
    cbn [app] in C |- *. rewrite C, documentsSettled_state. now destruct s. }
  assert (Sel1 : LoadFile.selectedDoc s1 = Some doc) by (rewrite S1; now destruct s).
  assert (Sel : LoadFile.isSelected s1 (LoadFile.name doc) = true).
  { unfold LoadFile.isSelected. rewrite Sel1. apply String.eqb_refl. }
  assert (S2 : s2 = LoadFile.apply (LoadFile.setDocuments (listedOr net' (LoadFile.documents s1)))
                (LoadFile.apply (LoadFile.setLoadedContent None)
                   (LoadFile.apply (LoadFile.setSelectedDoc None)
                      (LoadFile.apply (LoadFile.setStatus "文档删除成功") s1)))).
  { unfold s2, LoadFile.after.
    rewrite (load_handleDeleteDocument_run s1 net' _ r' Hd Hok), Sel. cbn [fst].
    pose proof (load_commit_app s1
                  [Sent (LoadFile.deleteRequest (LoadFile.name doc));
                   Update (LoadFile.setStatus "文档删除成功");
                   Sent LoadFile.listRequest;
                   Update (LoadFile.setSelectedDoc None);
                   Update (LoadFile.setLoadedContent None)]
                  (documentsSettled net')) as C.
    cbn [app] in C |- *. rewrite C, documentsSettled_state. now destruct s1. }
  split; [exact Sel1|]. split; [rewrite S1; now destruct s|].
  rewrite S2. destruct s1. split; reflexivity.
Qed.

(** X9 at work: [a.pdf] is viewed, [report.pdf] is loaded, [a.pdf] is
    deleted. *)
Lemma X9_delete_after_load_clears_the_result_witness :
  LoadFile.selectedDoc viewingThenPicked = Some docA
  /\ LoadFile.file viewingThenPicked = Some (fileNamed "report.pdf")
  /\ LoadFile.loadingMethod viewingThenPicked <> ""
  /\ answered (LoadFile.loadAnswer serving
                 (LoadFile.formData viewingThenPicked (fileNamed "report.pdf")))
     = Some {| LoadFile.loaded_content := Some twoChunks |}
  /\ LoadFile.loadedContent
       (LoadFile.after
          (LoadFile.after viewingThenPicked (LoadFile.handleProcess viewingThenPicked serving))
          (LoadFile.handleDeleteDocument
             (LoadFile.after viewingThenPicked (LoadFile.handleProcess viewingThenPicked serving))
             serving "a.pdf"))
     = None.
Proof.
  assert (Hm : LoadFile.loadingMethod viewingThenPicked <> "") by discriminate.
  destruct (X9_delete_after_load_clears_the_result viewingThenPicked (fileNamed "report.pdf")
              serving serving docA {| LoadFile.loaded_content := Some twoChunks |} twoChunks
              {| Http.status := 200; Http.json := Http.JsonValue tt |}
              eq_refl eq_refl Hm eq_refl eq_refl eq_refl eq_refl)
    as (_ & _ & L & _).
  split; [reflexivity|]. split; [reflexivity|]. split; [exact Hm|].
  split; [reflexivity | exact L].
Defined.

(** ** The document list *)

Lemma card_titles (l : list LoadFile.Document) :
  forall index,
    List.map LoadFile.cardTitle (React.mapFrom LoadFile.renderDocument index l)
    = List.map LoadFile.name l.
Proof.
  induction l as [|d l IH]; intros index; cbn; [reflexivity | now rewrite IH].
Qed.

(** X10: [fetchDocuments] sends the listing request and never throws.  It
    changes nothing but the document list, which becomes what the body
    carries under [documents] whenever the body can be read, whatever the
    status of the answer, and stays as it was when the request is rejected or
    the body cannot be read.  When the body carries a list there, the
    document manager shows one card per document of it, in its order, titled
    with the document's name; when it carries none, the page is left without
    a list and the document manager throws when it is rendered. *)
Theorem X10_fetch_documents (s : LoadFile.State) (net : LoadFile.Net) :
  let h := LoadFile.fetchDocuments net in
  let s' := LoadFile.after s h in
  Task.requests (fst h) = [LoadFile.listRequest]
  /\ snd h = Returns tt
  /\ s' = LoadFile.apply (LoadFile.setDocuments (listedOr net (LoadFile.documents s))) s
  /\ (forall st data,
        LoadFile.listAnswer net
          = Http.Resolved {| Http.status := st; Http.json := Http.JsonValue data |} ->
        LoadFile.documents s' = LoadFile.listed data)
  /\ (forall e, LoadFile.listAnswer net = Http.Rejected e -> s' = s)
  /\ (forall st e,
        LoadFile.listAnswer net
          = Http.Resolved {| Http.status := st; Http.json := Http.JsonThrows e |} ->
        s' = s)
  /\ (forall l, LoadFile.documents s' = Some l ->
        exists m, LoadFile.renderDocuments s' = React.Painted m
                  /\ List.map LoadFile.cardTitle (LoadFile.cards m) = List.map LoadFile.name l)
  /\ (forall st,
        LoadFile.listAnswer net
          = Http.Resolved {| Http.status := st;
                             Http.json := Http.JsonValue {| LoadFile.listed := None |} |} ->
        LoadFile.documents s' = None
        /\ LoadFile.renderDocuments s' = React.TypeError
        /\ (LoadFile.activeTab s <> "preview" ->
            LoadFile.renderRightPanel s' = React.TypeError)).
Proof.
  cbv zeta. rewrite fetchDocuments_run. cbn [fst snd Task.requests].
  rewrite documentsSettled_requests.
  assert (S : LoadFile.after s (Sent LoadFile.listRequest :: documentsSettled net, Returns tt)
              = LoadFile.apply (LoadFile.setDocuments (listedOr net (LoadFile.documents s))) s).
  { unfold LoadFile.after, Task.commit. cbn [fst Task.updates].
    apply documentsSettled_state. }
  rewrite S.
  split; [reflexivity|]. split; [reflexivity|]. split; [reflexivity|].
  split; [|split; [|split; [|split]]].
  - intros st data E. unfold listedOr. rewrite E. now destruct s.
  - intros e E. unfold listedOr. rewrite E. now destruct s.
  - intros st e E. unfold listedOr. rewrite E. now destruct s.
  - intros l E. unfold LoadFile.renderDocuments. rewrite E.
    eexists. split; [reflexivity|]. cbn [LoadFile.cards]. apply card_titles.
  - intros st E. unfold listedOr. rewrite E. cbn [Http.json LoadFile.listed].
    destruct s. cbn [LoadFile.apply LoadFile.activeTab].
    split; [reflexivity|]. split; [reflexivity|].
    intros T. apply String.eqb_neq in T. unfold LoadFile.renderRightPanel.
    cbn [LoadFile.activeTab]. now rewrite T.
Qed.

Example listing_with_error_status_is_stored :
  let net := {| LoadFile.listAnswer :=
                  Http.Resolved {| Http.status := 500;
                                   Http.json := Http.JsonValue {| LoadFile.listed := Some [docB] |} |};
                LoadFile.loadAnswer := LoadFile.loadAnswer offline;
                LoadFile.documentAnswer := LoadFile.documentAnswer offline;
                LoadFile.deleteAnswer := LoadFile.deleteAnswer offline |} in
  LoadFile.documents (LoadFile.after LoadFile.initial (LoadFile.fetchDocuments net))
  = Some [docB].
Proof. reflexivity. Qed.

(** X11: while the page holds a list, the document manager shows exactly one
    card per document of the list, the k-th card made from the k-th document,
    and the notice that no document is available exactly when the list is
    empty; while it holds none, rendering the document manager throws.  A
    document listed without metadata gets a card that says the type is
    unknown and shows N/A for every other entry. *)
Theorem X11_document_manager (s : LoadFile.State) :
  match LoadFile.documents s with
  | Some l =>
      exists m,
        LoadFile.renderDocuments s = React.Painted m
        /\ List.length (LoadFile.cards m) = List.length l
        /\ (forall k doc, nth_error l k = Some doc ->
              nth_error (LoadFile.cards m) k = Some (LoadFile.renderDocument doc k))
        /\ (LoadFile.emptyNotice m = true <-> l = [])
        /\ (LoadFile.emptyNotice m = true <-> LoadFile.cards m = [])
  | None => LoadFile.renderDocuments s = React.TypeError
  end
  /\ (forall doc k, LoadFile.doc_metadata doc = None ->
        LoadFile.renderDocument doc k
        = {| LoadFile.cardKey := LoadFile.name doc;
             LoadFile.cardTitle := LoadFile.name doc;
             LoadFile.cardLines :=
               [("文档类型: ", React.Literal "未知"); ("页数: ", React.Literal "N/A");
                ("分块数: ", React.Literal "N/A"); ("加载方法: ", React.Literal "N/A");
                ("分块方法: ", React.Literal "N/A"); ("创建时间: ", React.Literal "N/A")] |}).
Proof.
  split.
  - unfold LoadFile.renderDocuments. destruct (LoadFile.documents s) as [l|]; [|reflexivity].
    eexists. split; [reflexivity|]. cbn [LoadFile.cards LoadFile.emptyNotice].
    split; [apply map_length|].
    split; [intros k doc H; now apply map_nth|].
    split; destruct l; cbn; split; congruence.
  - intros doc k H. unfold LoadFile.renderDocument, LoadFile.docMeta. now rewrite H.
Qed.

(** ** What a submission leaves on the load page *)

Lemma includes_own_prefix (sub rest : string) : Js.includes (sub ++ rest) sub = true.
Proof. apply (includes_middle "" sub rest). Qed.

(** X12: the status box after a load submission.  A submission refused by
    the check shows the request to select every option, in green; one that
    went through shows the success message, in green; one that failed (the
    request was rejected, the status was not ok, or the body could not be
    read) shows the error prefix followed by the message of what was caught,
    in red, sends nothing after the POST and leaves the state of before with
    the result cleared. *)
Theorem X12_load_status_box (s : LoadFile.State) (net : LoadFile.Net) :
  let h := LoadFile.handleProcess s net in
  let s' := LoadFile.after s h in
  match LoadFile.file s with
  | Some f =>
      if Js.truthy (LoadFile.loadingMethod s) then
        match failure true (LoadFile.loadAnswer net (LoadFile.formData s f)) with
        | Some m =>
            Task.requests (fst h) = [LoadFile.loadRequest (LoadFile.formData s f)]
            /\ s' = LoadFile.apply (LoadFile.setStatus ("错误: " ++ m))
                      (LoadFile.apply (LoadFile.setLoadedContent None) s)
            /\ LoadFile.statusBox s' = Some (LoadFile.Red, ("错误: " ++ m)%string)
        | None => LoadFile.statusBox s' = Some (LoadFile.Green, "文件加载成功!")
        end
      else LoadFile.statusBox s' = Some (LoadFile.Green, "请选择所有必需的选项")
  | None => LoadFile.statusBox s' = Some (LoadFile.Green, "请选择所有必需的选项")
  end.
Proof.
  cbv zeta.
  assert (red : forall m t, LoadFile.statusBox
                  (LoadFile.apply (LoadFile.setStatus ("错误: " ++ m)) t)
                = Some (LoadFile.Red, ("错误: " ++ m)%string)).
  { intros m t. destruct t. unfold LoadFile.statusBox. cbn [LoadFile.apply LoadFile.status].
    change ("错误: " ++ m)%string with ("错误" ++ (": " ++ m))%string.
    rewrite includes_own_prefix. reflexivity. }
  destruct (LoadFile.file s) as [f|] eqn:Hf.
  2:{ unfold LoadFile.handleProcess. rewrite Hf. now destruct s. }
  destruct (Js.truthy (LoadFile.loadingMethod s)) eqn:Hm.
  2:{ unfold LoadFile.handleProcess. rewrite Hf, Hm. now destruct s. }
  apply JsFacts.truthy_true in Hm.
  rewrite (load_handleProcess_run s f net Hf Hm). unfold failure, LoadFile.after. cbn [fst].
  destruct (LoadFile.loadAnswer net (LoadFile.formData s f)) as [e|r].
  { split; [reflexivity|].
    assert (E : Task.commit LoadFile.apply s
                  ([Update (LoadFile.setStatus "加载中..."); Update (LoadFile.setLoadedContent None);
                    Sent (LoadFile.loadRequest (LoadFile.formData s f))]
                   ++ [Update (LoadFile.setStatus ("错误: " ++ LoadFile.errorText e))])
                = LoadFile.apply (LoadFile.setStatus ("错误: " ++ LoadFile.errorText e))
                    (LoadFile.apply (LoadFile.setLoadedContent None) s)) by now destruct s.
    rewrite E. split; [reflexivity | apply red]. }
  destruct (Http.ok r).
  2:{ split; [reflexivity|].
      match goal with
      | |- ?l = ?x /\ _ => assert (E : l = x) by now destruct s
      end.
      rewrite E. split; [reflexivity | apply red]. }
  destruct (Http.json r) as [e|data].
  { split; [reflexivity|].
    match goal with
    | |- ?l = ?x /\ _ => assert (E : l = x) by now destruct s
    end.
    rewrite E. split; [reflexivity | apply red]. }
  pose proof (load_commit_app s
                [Update (LoadFile.setStatus "加载中...");
                 Update (LoadFile.setLoadedContent None);
                 Sent (LoadFile.loadRequest (LoadFile.formData s f));
                 BodyRead;
                 Update (LoadFile.setLoadedContent (LoadFile.loaded_content data));
                 Update (LoadFile.setStatus "文件加载成功!");
                 Sent LoadFile.listRequest;
                 Update (LoadFile.setActiveTab "preview")]
                (documentsSettled net)) as C.
  cbn [app] in C |- *. rewrite C, documentsSettled_state. now destruct s.
Qed.

(** X13: the submit button of the load page is disabled exactly in the
    states in which [handleProcess] would send nothing; in every other state
    a click sends the POST with the form of that state first. *)
Theorem X13_load_button_matches_check (s : LoadFile.State) (net : LoadFile.Net) :
  (LoadFile.submitDisabled s = true
   <-> Task.requests (fst (LoadFile.handleProcess s net)) = [])
  /\ (LoadFile.submitDisabled s = false
      <-> exists f, LoadFile.file s = Some f
            /\ hd_error (Task.requests (fst (LoadFile.handleProcess s net)))
               = Some (LoadFile.loadRequest (LoadFile.formData s f))).
Proof.
  unfold LoadFile.submitDisabled.
  destruct (LoadFile.file s) as [f|] eqn:Hf.
  2:{ unfold LoadFile.handleProcess. rewrite Hf. cbn.
      split; split; try reflexivity; try discriminate. intros (f & E & _). discriminate. }
  destruct (Js.truthy (LoadFile.loadingMethod s)) eqn:Hm.
  2:{ unfold LoadFile.handleProcess. rewrite Hf, Hm. cbn.
      split; split; try reflexivity; try discriminate. intros (g & _ & E). discriminate. }
  apply JsFacts.truthy_true in Hm.
  rewrite (load_handleProcess_run s f net Hf Hm). cbn.
  split; split.
  - discriminate.
  - discriminate.
  - intros _. now exists f.
  - reflexivity.
Qed.

(** ** The states the load page can reach *)

Lemma viewOnly_commit (t : list (Task.Event LoadFile.Setter)) :
  forall s, forallb viewOnly (Task.updates t) = true ->
    loadForm (Task.commit LoadFile.apply s t) = loadForm s
    /\ (LoadFile.activeTab (Task.commit LoadFile.apply s t) = LoadFile.activeTab s
        \/ LoadFile.activeTab (Task.commit LoadFile.apply s t) = "preview").
Proof.
  unfold Task.commit.
  induction t as [|[u|q|] t IH]; intros s H; cbn [Task.updates fold_left] in *;
    try (now apply IH); [split; [reflexivity | now left]|].
  cbn [forallb] in H. apply Bool.andb_true_iff in H. destruct H as [Hu Ht].
  destruct (IH (LoadFile.apply u s) Ht) as [F T]. rewrite F.
  destruct u; try discriminate Hu; destruct s; split; try reflexivity;
    cbn [LoadFile.apply LoadFile.activeTab] in *; try exact T.
  apply String.eqb_eq in Hu. subst. destruct T as [T|T]; right; exact T.
Qed.

Lemma viewOnly_settled (net : LoadFile.Net) :
  forallb viewOnly (Task.updates (documentsSettled net)) = true.
Proof.
  unfold documentsSettled. destruct (LoadFile.listAnswer net) as [e|l]; [reflexivity|].
  now destruct (Http.json l).
Qed.

Lemma viewOnly_app (a b : list (Task.Event LoadFile.Setter)) :
  forallb viewOnly (Task.updates a) = true -> forallb viewOnly (Task.updates b) = true ->
  forallb viewOnly (Task.updates (a ++ b)) = true.
Proof.
  intros Ha Hb. now rewrite updates_app, forallb_app, Ha, Hb.
Qed.

Lemma viewOnly_fetchDocuments (net : LoadFile.Net) :
  forallb viewOnly (Task.updates (fst (LoadFile.fetchDocuments net))) = true.
Proof.
  rewrite fetchDocuments_run. cbn [fst Task.updates]. apply viewOnly_settled.
Qed.

Lemma viewOnly_handleProcess (s : LoadFile.State) (net : LoadFile.Net) :
  forallb viewOnly (Task.updates (fst (LoadFile.handleProcess s net))) = true.
Proof.
  destruct (LoadFile.file s) as [f|] eqn:Hf.
  2:{ unfold LoadFile.handleProcess. now rewrite Hf. }
  destruct (Js.truthy (LoadFile.loadingMethod s)) eqn:Hm.
  2:{ unfold LoadFile.handleProcess. now rewrite Hf, Hm. }
  apply JsFacts.truthy_true in Hm.
  rewrite (load_handleProcess_run s f net Hf Hm). cbn [fst].
  apply viewOnly_app; [reflexivity|].
  destruct (LoadFile.loadAnswer net (LoadFile.formData s f)) as [e|r]; [reflexivity|].
  destruct (Http.ok r); [|reflexivity].
  destruct (Http.json r); [reflexivity|].
  apply (viewOnly_app [_; _; _; _; _]); [reflexivity | apply viewOnly_settled].
Qed.

Lemma viewOnly_handleDeleteDocument (s : LoadFile.State) (net : LoadFile.Net) (docName : string) :
  forallb viewOnly (Task.updates (fst (LoadFile.handleDeleteDocument s net docName))) = true.
Proof.
  unfold LoadFile.handleDeleteDocument.
  destruct (LoadFile.deleteAnswer net docName) as [e|r]; [reflexivity|].
  unfold fetch, bind, tryCatch, throw, set, unawaited. rewrite fetchDocuments_run.
  destruct (Http.ok r); [|reflexivity].
  destruct (LoadFile.isSelected s docName); cbn [fst snd Task.untilFirstAwait app negb];
    cbn; apply viewOnly_settled.
Qed.

Lemma viewOnly_handleViewDocument (net : LoadFile.Net) (doc : LoadFile.Document) :
  forallb viewOnly (Task.updates (fst (LoadFile.handleViewDocument net doc))) = true.
Proof.
  rewrite load_handleViewDocument_run. cbn [fst].
  destruct (LoadFile.documentAnswer net (LoadFile.name doc)) as [e|r]; [reflexivity|].
  destruct (Http.ok r); [|reflexivity].
  destruct (Http.json r); reflexivity.
Qed.

Lemma loadInvariant_viewOnly (s : LoadFile.State) (h : LoadFile.Handler) :
  forallb viewOnly (Task.updates (fst h)) = true ->
  loadInvariant s -> loadInvariant (LoadFile.dispatch s h).
Proof.
  intros V I. destruct (viewOnly_commit (fst h) s V) as [F T].
  fold (LoadFile.after s h) in F, T.
  assert (E : LoadFile.fileType (LoadFile.after s h) = LoadFile.fileType s).
  { unfold loadForm in F. congruence. }
  rewrite (load_dispatch_same_type s h E).
  destruct (LoadFile.after s h) as [fl ft lm en de up us cs co lc st ds tab sd].
  destruct s as [fl0 ft0 lm0 en0 de0 up0 us0 cs0 co0 lc0 st0 ds0 tab0 sd0].
  unfold loadForm in F.
  cbn [LoadFile.file LoadFile.fileType LoadFile.loadingMethod LoadFile.encoding
       LoadFile.delimiter LoadFile.usePandas LoadFile.unstructuredStrategy
       LoadFile.chunkingStrategy LoadFile.chunkingOptions LoadFile.activeTab] in F, T.
  injection F as -> -> -> -> -> -> -> -> ->.
  unfold loadInvariant, LoadFile.loadingMethodOptions in *.
  cbn [LoadFile.file LoadFile.fileType LoadFile.loadingMethod LoadFile.encoding
       LoadFile.delimiter LoadFile.usePandas LoadFile.unstructuredStrategy
       LoadFile.chunkingStrategy LoadFile.chunkingOptions LoadFile.activeTab] in *.
  destruct I as (I1 & I2 & I3 & I4 & I5 & I6 & I7 & I8).
  repeat (split; [assumption|]).
  destruct T as [->| ->]; [assumption | now left].
Qed.

Ltac load_cells :=
  cbn [LoadFile.file LoadFile.fileType LoadFile.loadingMethod LoadFile.encoding
       LoadFile.delimiter LoadFile.usePandas LoadFile.unstructuredStrategy
       LoadFile.chunkingStrategy LoadFile.chunkingOptions LoadFile.loadedContent
       LoadFile.status LoadFile.documents LoadFile.activeTab LoadFile.selectedDoc
       LoadFile.apply fst Task.updates fold_left] in *.

(** One setter call that leaves the file type alone. *)
Ltac load_one_setter s IH :=
  rewrite load_dispatch_same_type by (destruct s; reflexivity);
  destruct s;
  unfold loadInvariant, LoadFile.after, Task.commit, set, LoadFile.loadingMethodOptions,
    LoadFile.encodingOptions, LoadFile.delimiterOptions,
    LoadFile.unstructuredStrategyOptions, LoadFile.chunkingStrategyOptions in *;
  load_cells;
  destruct IH as (I1 & I2 & I3 & I4 & I5 & I6 & I7 & I8);
  repeat (split; [assumption|]); try assumption.

(** The value a select box sends is one of those the invariant lists. *)
Ltac load_offered Hp :=
  split;
  [ clear - Hp;
    repeat match goal with
           | H : In _ (if ?c then _ else _) |- _ => destruct c
           end;
    cbn [In] in *; tauto
  | repeat (split; [assumption|]); assumption ].

Lemma load_reachable_invariant (s : LoadFile.State) :
  LoadFile.Reachable s -> loadInvariant s.
Proof.
  induction 1 as [|s a Hr IH Hp].
  - unfold loadInvariant. cbn. intuition reflexivity.
  - unfold LoadFile.perform.
    destruct a; cbn [LoadFile.possible LoadFile.handlerOf] in *.
    + apply loadInvariant_viewOnly; [apply viewOnly_fetchDocuments | exact IH].
    + rewrite load_dispatch_pick. destruct files as [|f rest]; [exact IH|].
      unfold LoadFile.after.
      destruct (load_handleFileChange_trace f rest) as [-> _].
      destruct s.
      unfold loadInvariant, Task.commit, LoadFile.loadingMethodOptions in *.
      destruct IH as (I1 & I2 & I3 & I4 & I5 & I6 & I7 & I8).
      destruct (Js.endsWith _ ".pdf");
        [|destruct (Js.endsWith _ ".txt");
          [|destruct (Js.endsWith _ ".csv");
            [|destruct (Js.endsWith _ ".md" || Js.endsWith _ ".markdown")%bool]]];
        load_cells;
        (split; [clear; cbn; tauto|]); (split; [clear; cbn; tauto|]);
        repeat (split; [assumption|]); assumption.
    + load_one_setter s IH. split; [now left|]. repeat (split; [assumption|]). assumption.
    + load_one_setter s IH. load_offered Hp.
    + load_one_setter s IH. load_offered Hp.
    + load_one_setter s IH. load_offered Hp.
    + load_one_setter s IH. load_offered Hp.
    + load_one_setter s IH.
    + load_one_setter s IH.
    + load_one_setter s IH.
    + load_one_setter s IH.
    + load_one_setter s IH.
    + load_one_setter s IH.
    + load_one_setter s IH. clear - Hp. destruct Hp as [->| ->]; cbn [In]; tauto.
    + apply loadInvariant_viewOnly; [apply viewOnly_handleProcess | exact IH].
    + apply loadInvariant_viewOnly; [apply viewOnly_handleDeleteDocument | exact IH].
    + apply loadInvariant_viewOnly; [apply viewOnly_handleViewDocument | exact IH].
Qed.

(** X14: in every state the load page can reach, the file type is one of
    pdf, txt, csv, md, other; the loading method is one of the values its
    select offers for that type (or empty, for the type other); the
    encoding, the delimiter, the unstructured strategy, the chunking strategy
    and the active tab are each one of the values their controls can send;
    and [usePandas] is still true, since nothing ever sets it. *)
Theorem X14_load_form_invariant (s : LoadFile.State) (H : LoadFile.Reachable s) :
  In (LoadFile.fileType s) ["pdf"; "txt"; "csv"; "md"; "other"]
  /\ (In (LoadFile.loadingMethod s) (LoadFile.loadingMethodOptions s)
      \/ (LoadFile.fileType s = "other" /\ LoadFile.loadingMethod s = ""))
  /\ In (LoadFile.encoding s) ["utf-8"; "utf-16"; "gbk"; "gb2312"; "iso-8859-1"]
  /\ In (LoadFile.delimiter s) [","; ";"; "\t"; "|"]
  /\ LoadFile.usePandas s = true
  /\ In (LoadFile.unstructuredStrategy s) ["fast"; "hi_res"; "ocr_only"]
  /\ In (LoadFile.chunkingStrategy s) ["basic"; "by_title"]
  /\ In (LoadFile.activeTab s) ["preview"; "documents"].
Proof. exact (load_reachable_invariant s H). Qed.

Lemma csvForm_reachable : LoadFile.Reachable csvForm.
Proof.
  change csvForm with (fold_left LoadFile.perform csvEvents LoadFile.initial).
  unfold csvEvents. cbn [fold_left].
  apply LoadFile.reachable_step; [apply LoadFile.reachable_step;
    [apply LoadFile.reachable_step; [apply LoadFile.reachable_initial | exact I]|]|].
  - vm_compute. tauto.
  - vm_compute. tauto.
Defined.

(** X14 at work: [data.csv] picked, then ";" and "gbk" chosen. *)
Lemma X14_load_form_invariant_witness :
  LoadFile.Reachable csvForm
  /\ In (LoadFile.loadingMethod csvForm) (LoadFile.loadingMethodOptions csvForm)
  /\ LoadFile.usePandas csvForm = true.
Proof.
  destruct (X14_load_form_invariant csvForm csvForm_reachable) as (_ & L & _ & _ & U & _).
  split; [exact csvForm_reachable|]. split; [|exact U].
  destruct L as [L|[L _]]; [exact L | discriminate L].
Defined.

(** X15: what the invariant means for the requests of the load page.  In a
    state the page can reach the submit button is enabled exactly when a file
    is selected and its type is not other, and a click then sends the POST.
    For txt and md the option fields are always [encoding],
    [chunking_strategy] and [chunking_options], because the chunking strategy
    is never empty; for csv the field [use_pandas] is always "true". *)
Theorem X15_reachable_load_requests (s : LoadFile.State) (H : LoadFile.Reachable s) :
  (LoadFile.submitDisabled s = false
   <-> LoadFile.file s <> None /\ LoadFile.fileType s <> "other")
  /\ (forall f net, LoadFile.file s = Some f -> LoadFile.fileType s <> "other" ->
        hd_error (Task.requests (fst (LoadFile.handleProcess s net)))
        = Some (LoadFile.loadRequest (LoadFile.formData s f)))
  /\ (LoadFile.fileType s = "txt" \/ LoadFile.fileType s = "md" ->
        Http.fieldNames (LoadFile.optionFields s)
        = ["encoding"; "chunking_strategy"; "chunking_options"])
  /\ (LoadFile.fileType s = "csv" ->
        LoadFile.optionFields s
        = [("delimiter", Http.Text (LoadFile.delimiter s));
           ("encoding", Http.Text (LoadFile.encoding s));
           ("use_pandas", Http.Text "true")]).
Proof.
  destruct (load_reachable_invariant s H) as (I1 & I2 & _ & _ & I5 & _ & I7 & _).
  assert (T : forall f, LoadFile.file s = Some f -> LoadFile.fileType s <> "other" ->
                LoadFile.loadingMethod s <> "").
  { intros f Hf Ho. destruct I2 as [I2|[I2 _]]; [|contradiction].
    unfold LoadFile.loadingMethodOptions in I2. rewrite Hf in I2.
    clear - I2. intros E. rewrite E in I2.
    destruct (LoadFile.fileType s =? "pdf"); destruct (LoadFile.fileType s =? "txt");
      destruct (LoadFile.fileType s =? "csv"); destruct (LoadFile.fileType s =? "md");
      cbn in I2; intuition discriminate. }
  split; [|split; [|split]].
  - unfold LoadFile.submitDisabled. split.
    + intros D. destruct (LoadFile.file s) as [f|] eqn:Hf; [|discriminate].
      split; [discriminate|]. intros Ho.
      destruct I2 as [I2|[_ I2]].
      * unfold LoadFile.loadingMethodOptions in I2. rewrite Hf, Ho in I2. destruct I2.
      * rewrite I2 in D. discriminate.
    + intros [Hf Ho]. destruct (LoadFile.file s) as [f|] eqn:Hf'; [|congruence].
      pose proof (T f eq_refl Ho) as Hm. apply JsFacts.truthy_true in Hm. now rewrite Hm.
  - intros f net Hf Ho. rewrite (load_handleProcess_run s f net Hf (T f Hf Ho)). reflexivity.
  - unfold LoadFile.optionFields.
    assert (C : Js.truthy (LoadFile.chunkingStrategy s) = true).
    { clear - I7. cbn [In] in I7. destruct I7 as [<-|[<-|[]]]; reflexivity. }
    intros [E|E]; rewrite E, C; reflexivity.
  - unfold LoadFile.optionFields. intros E. rewrite E, I5. reflexivity.
Qed.

(** X15 at work, on the same state. *)
Lemma X15_reachable_load_requests_witness :
  LoadFile.Reachable csvForm
  /\ LoadFile.submitDisabled csvForm = false
  /\ LoadFile.optionFields csvForm
     = [("delimiter", Http.Text ";"); ("encoding", Http.Text "gbk");
        ("use_pandas", Http.Text "true")].
Proof.
  destruct (X15_reachable_load_requests csvForm csvForm_reachable) as (D & _ & _ & C).
  split; [exact csvForm_reachable|].
  split; [apply D; split; discriminate | exact (C eq_refl)].
Defined.

(** ** The states the parse page can reach *)

Ltac parse_cells :=
  cbn [ParseFile.file ParseFile.fileType ParseFile.loadingMethod ParseFile.parsingOption
       ParseFile.extractImages ParseFile.extractTables ParseFile.parsedContent
       ParseFile.status ParseFile.docName ParseFile.isProcessed
       ParseFile.apply fst Task.updates fold_left] in *.

Lemma parse_dispatch_same_type (p : ParseFile.State) (h : ParseFile.Handler) :
  ParseFile.fileType (ParseFile.after p h) = ParseFile.fileType p ->
  ParseFile.dispatch p h = ParseFile.after p h.
Proof.
  intros E. unfold ParseFile.dispatch, ParseFile.rerender. now rewrite E, String.eqb_refl.
Qed.

(** A parse submission touches the status, the result and the processed
    flag, and nothing else. *)
Lemma parse_process_form (p : ParseFile.State) (net : ParseFile.Net) :
  exists st pc ip,
    ParseFile.after p (ParseFile.handleProcess p net)
    = ParseFile.apply (ParseFile.setIsProcessed ip)
        (ParseFile.apply (ParseFile.setParsedContent pc)
           (ParseFile.apply (ParseFile.setStatus st) p)).
Proof.
  destruct (ParseFile.file p) as [f|] eqn:Hf.
  2:{ exists "请选择所有必需的选项", (ParseFile.parsedContent p), (ParseFile.isProcessed p).
      unfold ParseFile.handleProcess. rewrite Hf. now destruct p. }
  destruct (Js.truthy (ParseFile.loadingMethod p)) eqn:Hm.
  2:{ exists "请选择所有必需的选项", (ParseFile.parsedContent p), (ParseFile.isProcessed p).
      unfold ParseFile.handleProcess. rewrite Hf, Hm. now destruct p. }
  destruct (Js.truthy (ParseFile.parsingOption p)) eqn:Ho.
  2:{ exists "请选择所有必需的选项", (ParseFile.parsedContent p), (ParseFile.isProcessed p).
      unfold ParseFile.handleProcess. rewrite Hf, Hm, Ho. now destruct p. }
  apply JsFacts.truthy_true in Hm, Ho.
  rewrite (parse_handleProcess_run p f net Hf Hm Ho). unfold ParseFile.after. cbn [fst].
  destruct (ParseFile.parseAnswer net (ParseFile.formData p f)) as [e|r].
  { eexists _, None, false. now destruct p. }
  destruct (Http.ok r); [|eexists _, None, false; now destruct p].
  destruct (Http.json r) as [e|data]; [eexists _, None, false; now destruct p|].
  eexists _, (ParseFile.parsed_content data), true. now destruct p.
Qed.

Lemma parse_reachable_invariant (p : ParseFile.State) :
  ParseFile.Reachable p -> parseInvariant p.
Proof.
  induction 1 as [|p a Hr IH Hp].
  - unfold parseInvariant. cbn. intuition reflexivity.
  - unfold ParseFile.perform.
    destruct a; cbn [ParseFile.possible ParseFile.handlerOf] in *.
    + destruct files as [|f rest].
      { rewrite parse_dispatch_same_type by reflexivity. exact IH. }
      unfold ParseFile.dispatch, ParseFile.rerender, ParseFile.useEffect_fileType.
      rewrite parse_after_pick_state.
      pose proof (parseInferred_types p (Http.name f)) as T.
      destruct p as [fl ft lm po ei et pc st dn ip].
      unfold parseInvariant, ParseFile.loadingMethodOptions, ParseFile.after, Task.commit, set
        in *.
      parse_cells. destruct IH as (I1 & I2 & I3).
      set (t := parseInferred _ _) in *. clearbody t.
      destruct (String.eqb_spec t ft) as [->|Hne]; parse_cells.
      { repeat split; assumption. }
      clear - T I3. cbn [In] in T.
      destruct T as [<-|[<-|[<-|[]]]]; cbn; tauto.
    + rewrite parse_dispatch_same_type by (destruct p; reflexivity).
      destruct p. unfold parseInvariant, ParseFile.loadingMethodOptions, ParseFile.after,
        Task.commit, set in *. parse_cells. tauto.
    + rewrite parse_dispatch_same_type by (destruct p; reflexivity).
      destruct p. unfold parseInvariant, ParseFile.loadingMethodOptions, ParseFile.after,
        Task.commit, set, ParseFile.renderParsingOptions in *. parse_cells.
      destruct IH as (I1 & I2 & _). split; [assumption|]. split; [assumption|].
      clear - Hp.
      destruct (fileType =? "pdf"); [exact Hp|].
      destruct (fileType =? "markdown"); cbn [In] in *; tauto.
    + rewrite parse_dispatch_same_type by (destruct p; reflexivity).
      destruct p. exact IH.
    + rewrite parse_dispatch_same_type by (destruct p; reflexivity).
      destruct p. exact IH.
    + destruct (parse_process_form p net) as (st & pc & ip & E).
      rewrite parse_dispatch_same_type by (rewrite E; now destruct p).
      rewrite E. destruct p. exact IH.
Qed.

(** X16: in every state the parse page can reach, the file type is pdf,
    markdown or txt, the loading method is one of the values offered for that
    type, and the parsing option is one of the seven values of the pdf list.
    Neither is ever empty, so the check in [handleProcess] never refuses a
    submission once a file is selected: the submit button, which is disabled
    only while no file is selected, always sends exactly one request. *)
Theorem X16_parse_form_invariant (p : ParseFile.State) (H : ParseFile.Reachable p) :
  In (ParseFile.fileType p) ["pdf"; "markdown"; "txt"]
  /\ In (ParseFile.loadingMethod p) (ParseFile.loadingMethodOptions p)
  /\ In (ParseFile.parsingOption p)
        ["comprehensive"; "text_only"; "tables_only"; "images_only";
         "by_pages"; "by_titles"; "text_and_tables"]
  /\ (forall net,
        match ParseFile.file p with
        | Some g =>
            ParseFile.submitDisabled p = false
            /\ Task.requests (fst (ParseFile.handleProcess p net))
               = [ParseFile.parseRequest (ParseFile.formData p g)]
        | None =>
            ParseFile.submitDisabled p = true
            /\ Task.requests (fst (ParseFile.handleProcess p net)) = []
        end).
Proof.
  destruct (parse_reachable_invariant p H) as (I1 & I2 & I3).
  split; [exact I1|]. split; [exact I2|]. split; [exact I3|].
  intros net. unfold ParseFile.submitDisabled.
  destruct (ParseFile.file p) as [g|] eqn:Hg.
  2:{ split; [reflexivity|]. unfold ParseFile.handleProcess. now rewrite Hg. }
  split; [reflexivity|].
  assert (Hl : ParseFile.loadingMethod p <> "").
  { clear - I2. unfold ParseFile.loadingMethodOptions in I2. intros E. rewrite E in I2.
    destruct (ParseFile.fileType p =? "pdf"); destruct (ParseFile.fileType p =? "markdown");
      destruct (ParseFile.fileType p =? "txt"); cbn in I2; intuition discriminate. }
  assert (Ho : ParseFile.parsingOption p <> "").
  { clear - I3. intros E. rewrite E in I3. cbn in I3. intuition discriminate. }
  apply (parse_request_fields p g net Hg Hl Ho).
Qed.

Lemma notesForm_reachable : ParseFile.Reachable notesForm.
Proof.
  unfold notesForm, notesEvents. cbn [fold_left].
  apply ParseFile.reachable_step;
    [apply ParseFile.reachable_step; [apply ParseFile.reachable_initial | exact I]|].
  vm_compute. tauto.
Defined.

(** X16 at work: [notes.md] picked, then tables only chosen. *)
Lemma X16_parse_form_invariant_witness :
  ParseFile.Reachable notesForm
  /\ ParseFile.fileType notesForm = "markdown"
  /\ ParseFile.loadingMethod notesForm = "basic"
  /\ In (ParseFile.loadingMethod notesForm) (ParseFile.loadingMethodOptions notesForm)
  /\ List.length (Task.requests (fst (ParseFile.handleProcess notesForm parseOffline))) = 1.
Proof.
  destruct (X16_parse_form_invariant notesForm notesForm_reachable) as (_ & L & _ & R).
  destruct (R parseOffline) as [_ R'].
  split; [exact notesForm_reachable|]. split; [reflexivity|]. split; [reflexivity|].
  split; [exact L|]. now rewrite R'.
Defined.

(** ** What a submission leaves on the parse page *)

Lemma errorText_same (e : Http.Thrown) : ParseFile.errorText e = LoadFile.errorText e.
Proof. now destruct e. Qed.

(** X17: the outcomes of a parse submission.  Refused by the check, it shows
    the request to select every option, in green.  Failed (the request was
    rejected, the status was not ok, or the body could not be read), it sends
    nothing after the POST, shows the error prefix and the message of what
    was caught, in red, and the right panel is back to the empty picture.
    Answered, it stores what the body carries under [parsed_content], marks
    the page as processed and shows the success message in green; the right
    panel then shows one block per item of the content, or the empty picture
    when the body has no [parsed_content], and throws when the parsed
    document has no content list. *)
Theorem X17_parse_outcomes (p : ParseFile.State) (net : ParseFile.Net) :
  let h := ParseFile.handleProcess p net in
  let p' := ParseFile.after p h in
  let refused := ParseFile.statusBox p' = Some (ParseFile.Green, "请选择所有必需的选项") in
  match ParseFile.file p with
  | Some g =>
      if (Js.truthy (ParseFile.loadingMethod p) && Js.truthy (ParseFile.parsingOption p))%bool
      then
        match failure true (ParseFile.parseAnswer net (ParseFile.formData p g)) with
        | Some m =>
            Task.requests (fst h) = [ParseFile.parseRequest (ParseFile.formData p g)]
            /\ p' = ParseFile.apply (ParseFile.setStatus ("错误: " ++ m))
                      (ParseFile.apply (ParseFile.setIsProcessed false)
                         (ParseFile.apply (ParseFile.setParsedContent None) p))
            /\ ParseFile.statusBox p' = Some (ParseFile.Red, ("错误: " ++ m)%string)
            /\ ParseFile.renderRightPanel p'
               = React.Painted (ParseFile.RandomImage "上传并解析文件以在此处查看结果")
        | None =>
            exists data,
              answered (ParseFile.parseAnswer net (ParseFile.formData p g)) = Some data
              /\ p' = ParseFile.apply (ParseFile.setIsProcessed true)
                        (ParseFile.apply (ParseFile.setStatus "处理成功完成!")
                           (ParseFile.apply
                              (ParseFile.setParsedContent (ParseFile.parsed_content data)) p))
              /\ ParseFile.statusBox p' = Some (ParseFile.Green, "处理成功完成!")
              /\ ParseFile.renderRightPanel p'
                 = match ParseFile.parsed_content data with
                   | None =>
                       React.Painted (ParseFile.RandomImage "上传并解析文件以在此处查看结果")
                   | Some pc =>
                       match ParseFile.items pc with
                       | Some l =>
                           React.Painted
                             (ParseFile.Result (ParseFile.renderInfo p pc)
                                (React.map ParseFile.renderItem l))
                       | None => React.TypeError
                       end
                   end
        end
      else refused
  | None => refused
  end.
Proof.
  cbv zeta.
  assert (red : forall m t, ParseFile.statusBox
                  (ParseFile.apply (ParseFile.setStatus ("错误: " ++ m)) t)
                = Some (ParseFile.Red, ("错误: " ++ m)%string)).
  { intros m t. destruct t. unfold ParseFile.statusBox. cbn [ParseFile.apply ParseFile.status].
    change ("错误: " ++ m)%string with ("错误" ++ (": " ++ m))%string.
    rewrite includes_own_prefix. reflexivity. }
  assert (empty : forall st ip,
            ParseFile.renderRightPanel
              (ParseFile.apply (ParseFile.setStatus st)
                 (ParseFile.apply (ParseFile.setIsProcessed ip)
                    (ParseFile.apply (ParseFile.setParsedContent None) p)))
            = React.Painted (ParseFile.RandomImage "上传并解析文件以在此处查看结果"))
    by (intros; now destruct p).
  destruct (ParseFile.file p) as [g|] eqn:Hg.
  2:{ unfold ParseFile.handleProcess. rewrite Hg. now destruct p. }
  destruct (Js.truthy (ParseFile.loadingMethod p)) eqn:Hm.
  2:{ unfold ParseFile.handleProcess. rewrite Hg, Hm. now destruct p. }
  destruct (Js.truthy (ParseFile.parsingOption p)) eqn:Ho.
  2:{ unfold ParseFile.handleProcess. rewrite Hg, Hm, Ho. now destruct p. }
  apply JsFacts.truthy_true in Hm, Ho. cbn [andb].
  rewrite (parse_handleProcess_run p g net Hg Hm Ho).
  unfold failure, answered, ParseFile.after. cbn [fst].
  destruct (ParseFile.parseAnswer net (ParseFile.formData p g)) as [e|r].
  { rewrite errorText_same. split; [reflexivity|].
    match goal with
    | |- ?l = ?x /\ _ => assert (E : l = x) by now destruct p
    end.
    rewrite E. split; [reflexivity|]. split; [apply red | apply empty]. }
  destruct (Http.ok r).
  2:{ split; [reflexivity|].
      match goal with
      | |- ?l = ?x /\ _ => assert (E : l = x) by now destruct p
      end.
      rewrite E. split; [reflexivity|]. split; [apply red | apply empty]. }
  destruct (Http.json r) as [e|data].
  { rewrite errorText_same. split; [reflexivity|].
    match goal with
    | |- ?l = ?x /\ _ => assert (E : l = x) by now destruct p
    end.
    rewrite E. split; [reflexivity|]. split; [apply red | apply empty]. }
  exists data. split; [reflexivity|].
  match goal with
  | |- ?l = ?x /\ _ => assert (E : l = x) by now destruct p
  end.
  rewrite E. split; [reflexivity|]. destruct p. split; [reflexivity|].
  unfold ParseFile.renderRightPanel. cbn [ParseFile.apply ParseFile.parsedContent].
  destruct (ParseFile.parsed_content data) as [pc|]; [|reflexivity].
  destruct (ParseFile.items pc); reflexivity.
Qed.

Example parse_of_report :
  ParseFile.renderRightPanel notesParsed
  = React.Painted
      (ParseFile.Result (ParseFile.renderInfo notesParsed onePage)
         [ParseFile.renderItem
            {| ParseFile.type := Some "text"; ParseFile.content := Some "...";
               ParseFile.page := Some 1%Z; ParseFile.title := None;
               ParseFile.item_metadata := None |} 0]).
Proof. reflexivity. Qed.

(** ** The chunking options on the wire *)

Lemma append_assoc (a b c : string) : ((a ++ b) ++ c = a ++ (b ++ c))%string.
Proof.
  induction a as [|x a IH]; cbn; [reflexivity | now rewrite IH].
Qed.

(** Two strings cut at the first occurrence of a separator that neither
    piece before it contains are cut at the same place. *)
Lemma cut_at_separator (sep : ascii) (a a' r r' : string) :
  ~ In sep (list_ascii_of_string a) -> ~ In sep (list_ascii_of_string a') ->
  (a ++ String sep r = a' ++ String sep r')%string -> a = a' /\ r = r'.
Proof.
  revert a'. induction a as [|x a IH]; intros [|x' a'] Ha Ha' E; cbn in *.
  - injection E as ->. now split.
  - injection E as <- _. tauto.
  - injection E as -> _. tauto.
  - injection E as -> E. destruct (IH a') as [-> ->]; tauto.
Qed.

Lemma uint_chars (d : Decimal.uint) (c : ascii) :
  In c (list_ascii_of_string (NilEmpty.string_of_uint d)) -> In c numeralChars.
Proof.
  induction d; cbn [NilEmpty.string_of_uint list_ascii_of_string In];
    try tauto; intros [<-|H]; try (apply IHd; exact H); cbn; tauto.
Qed.

Lemma ofZ_chars (z : Z) (c : ascii) :
  In c (list_ascii_of_string (Js.ofZ z)) -> In c numeralChars.
Proof.
  unfold Js.ofZ, NilZero.string_of_int, NilZero.string_of_uint.
  destruct (Z.to_int z) as [d|d]; destruct d;
    cbn [list_ascii_of_string In NilEmpty.string_of_uint];
    intros H;
    repeat match goal with
           | H : _ \/ _ |- _ => destruct H as [<-|H]
           | H : False |- _ => destruct H
           end;
    try (cbn; tauto);
    try (apply (uint_chars _ _ H)).
Qed.

Lemma to_int_proper (z : Z) :
  Z.to_int z <> Decimal.Pos Decimal.Nil /\ Z.to_int z <> Decimal.Neg Decimal.Nil.
Proof.
  destruct z as [|q|q]; cbn; split; try discriminate;
    intros [= E]; exact (DecimalPos.Unsigned.to_uint_nonnil q E).
Qed.

Lemma ofZ_injective (z z' : Z) : Js.ofZ z = Js.ofZ z' -> z = z'.
Proof.
  intros E. unfold Js.ofZ in E.
  destruct (to_int_proper z) as [P N]. destruct (to_int_proper z') as [P' N'].
  pose proof (NilZero.isi (Z.to_int z) P N) as I.
  pose proof (NilZero.isi (Z.to_int z') P' N') as I'.
  rewrite E in I. rewrite I in I'. injection I' as E'.
  rewrite <- (DecimalZ.of_to z), <- (DecimalZ.of_to z'). now rewrite E'.
Qed.

Lemma stringifyNumber_chars (n : LoadFile.Number) (c : ascii) :
  In c (list_ascii_of_string (LoadFile.stringifyNumber n)) ->
  In c (["n"; "u"; "l"]%char ++ numeralChars).
Proof.
  destruct n as [|b|z]; cbn [LoadFile.stringifyNumber].
  - cbn. tauto.
  - cbn. tauto.
  - intros H. apply in_or_app. right. exact (ofZ_chars z c H).
Qed.

(** Two numbers are written the same exactly when they are the same integer
    or are both written [null]. *)
Lemma stringifyNumber_written (n n' : LoadFile.Number) :
  LoadFile.stringifyNumber n = LoadFile.stringifyNumber n' <-> written n = written n'.
Proof.
  assert (N : forall z, Js.ofZ z <> "null").
  { intros z E. assert (H : In "n"%char (list_ascii_of_string (Js.ofZ z)))
      by (rewrite E; cbn; tauto).
    apply ofZ_chars in H. cbn in H. intuition discriminate. }
  destruct n as [|b|z], n' as [|b'|z']; cbn [LoadFile.stringifyNumber written];
    split; intros E; try reflexivity; try discriminate;
    try (symmetry in E; now destruct (N _ E)); try (now destruct (N _ E)).
  - f_equal. now apply ofZ_injective.
  - now injection E as ->.
Qed.

Lemma ofBool_injective (b b' : bool) : Js.ofBool b = Js.ofBool b' -> b = b'.
Proof. destruct b, b'; cbn; congruence. Qed.

(** The pieces between the fixed parts of the text: the four numbers and the
    two booleans as they are written. *)
Lemma stringifyChunkingOptions_pieces (o : LoadFile.ChunkingOptions) :
  LoadFile.stringifyChunkingOptions o
  = (("{" ++ LoadFile.quote ++ "maxCharacters" ++ LoadFile.quote ++ ":")
     ++ LoadFile.stringifyNumber (LoadFile.maxCharacters o)
     ++ String "," ((LoadFile.quote ++ "newAfterNChars" ++ LoadFile.quote ++ ":")
     ++ LoadFile.stringifyNumber (LoadFile.newAfterNChars o)
     ++ String "," ((LoadFile.quote ++ "combineTextUnderNChars" ++ LoadFile.quote ++ ":")
     ++ LoadFile.stringifyNumber (LoadFile.combineTextUnderNChars o)
     ++ String "," ((LoadFile.quote ++ "overlap" ++ LoadFile.quote ++ ":")
     ++ LoadFile.stringifyNumber (LoadFile.overlap o)
     ++ String "," ((LoadFile.quote ++ "overlapAll" ++ LoadFile.quote ++ ":")
     ++ Js.ofBool (LoadFile.overlapAll o)
     ++ String "," ((LoadFile.quote ++ "multiPageSections" ++ LoadFile.quote ++ ":")
     ++ Js.ofBool (LoadFile.multiPageSections o)
     ++ String "}" ""))))))%string.
Proof.
  unfold LoadFile.stringifyChunkingOptions, LoadFile.member.
  rewrite !append_assoc. reflexivity.
Qed.

Lemma append_cancel (a x y : string) : (a ++ x = a ++ y)%string -> x = y.
Proof.
  induction a as [|c a IH]; cbn; [tauto|]. intros [= E]. exact (IH E).
Qed.

Lemma no_comma_in_number (n : LoadFile.Number) :
  ~ In ","%char (list_ascii_of_string (LoadFile.stringifyNumber n)).
Proof.
  intros H. apply stringifyNumber_chars in H. cbn in H. intuition discriminate.
Qed.

Lemma no_separator_in_bool (b : bool) (sep : ascii) :
  In sep [","; "}"]%char -> ~ In sep (list_ascii_of_string (Js.ofBool b)).
Proof.
  intros [<-|[<-|[]]]; destruct b; cbn; intuition discriminate.
Qed.

(** X18: what the text sent under [chunking_options] tells of the options,
    for numbers that are written in full.  Two option records are written
    the same exactly when their two check boxes agree and each of their four
    numbers is the same integer in both, or is written [null] in both: the
    text tells the integers and the check boxes apart, and does not tell
    [NaN] from an infinity.  So records whose numbers are all integers are
    written the same only when they are the same record. *)
Theorem X18_chunking_options_text
    (o o' : LoadFile.ChunkingOptions)
    (Ho : optionsWrittenInFull o) (Ho' : optionsWrittenInFull o') :
  (LoadFile.stringifyChunkingOptions o = LoadFile.stringifyChunkingOptions o'
   <-> written (LoadFile.maxCharacters o) = written (LoadFile.maxCharacters o')
       /\ written (LoadFile.newAfterNChars o) = written (LoadFile.newAfterNChars o')
       /\ written (LoadFile.combineTextUnderNChars o)
          = written (LoadFile.combineTextUnderNChars o')
       /\ written (LoadFile.overlap o) = written (LoadFile.overlap o')
       /\ LoadFile.overlapAll o = LoadFile.overlapAll o'
       /\ LoadFile.multiPageSections o = LoadFile.multiPageSections o')
  /\ (written (LoadFile.maxCharacters o) <> None ->
      written (LoadFile.newAfterNChars o) <> None ->
      written (LoadFile.combineTextUnderNChars o) <> None ->
      written (LoadFile.overlap o) <> None ->
      LoadFile.stringifyChunkingOptions o = LoadFile.stringifyChunkingOptions o' -> o = o').
Proof.
  assert (T : LoadFile.stringifyChunkingOptions o = LoadFile.stringifyChunkingOptions o'
              <-> written (LoadFile.maxCharacters o) = written (LoadFile.maxCharacters o')
                  /\ written (LoadFile.newAfterNChars o) = written (LoadFile.newAfterNChars o')
                  /\ written (LoadFile.combineTextUnderNChars o)
                     = written (LoadFile.combineTextUnderNChars o')
                  /\ written (LoadFile.overlap o) = written (LoadFile.overlap o')
                  /\ LoadFile.overlapAll o = LoadFile.overlapAll o'
                  /\ LoadFile.multiPageSections o = LoadFile.multiPageSections o').
  { rewrite !stringifyChunkingOptions_pieces. split.
    - intros E.
      apply append_cancel in E.
      apply cut_at_separator in E; try apply no_comma_in_number. destruct E as [E1 E].
      apply append_cancel in E.
      apply cut_at_separator in E; try apply no_comma_in_number. destruct E as [E2 E].
      apply append_cancel in E.
      apply cut_at_separator in E; try apply no_comma_in_number. destruct E as [E3 E].
      apply append_cancel in E.
      apply cut_at_separator in E; try apply no_comma_in_number. destruct E as [E4 E].
      apply append_cancel in E.
      apply cut_at_separator in E; try (apply no_separator_in_bool; cbn; tauto).
      destruct E as [E5 E].
      apply append_cancel in E.
      apply cut_at_separator in E; try (apply no_separator_in_bool; cbn; tauto).
      destruct E as [E6 _].
      apply stringifyNumber_written in E1, E2, E3, E4.
      apply ofBool_injective in E5, E6. tauto.
    - intros (E1 & E2 & E3 & E4 & E5 & E6).
      apply stringifyNumber_written in E1, E2, E3, E4.
      now rewrite E1, E2, E3, E4, E5, E6. }
  split; [exact T|].
  intros N1 N2 N3 N4 E. apply T in E. destruct E as (E1 & E2 & E3 & E4 & E5 & E6).
  assert (W : forall n n', written n <> None -> written n = written n' -> n = n').
  { intros [| |z] [| |z']; cbn; congruence. }
  destruct o as [a b c d e f], o' as [a' b' c' d' e' f'].
  cbn [LoadFile.maxCharacters LoadFile.newAfterNChars LoadFile.combineTextUnderNChars
       LoadFile.overlap LoadFile.overlapAll LoadFile.multiPageSections] in *.
  rewrite (W a a' N1 E1), (W b b' N2 E2), (W c c' N3 E3), (W d d' N4 E4), E5, E6.
  reflexivity.
Qed.

(** X18 at work: the options of a fresh page against the same options with
    another overlap. *)
Lemma X18_chunking_options_text_witness :
  optionsWrittenInFull (LoadFile.chunkingOptions LoadFile.initial)
  /\ optionsWrittenInFull
       (LoadFile.withOverlap (LoadFile.Int 100) (LoadFile.chunkingOptions LoadFile.initial))
  /\ LoadFile.stringifyChunkingOptions (LoadFile.chunkingOptions LoadFile.initial)
     <> LoadFile.stringifyChunkingOptions
          (LoadFile.withOverlap (LoadFile.Int 100) (LoadFile.chunkingOptions LoadFile.initial)).
Proof.
  assert (Ho : optionsWrittenInFull (LoadFile.chunkingOptions LoadFile.initial))
    by (repeat split; cbn; lia).
  assert (Ho' : optionsWrittenInFull
                  (LoadFile.withOverlap (LoadFile.Int 100)
                     (LoadFile.chunkingOptions LoadFile.initial)))
    by (repeat split; cbn; lia).
  split; [exact Ho|]. split; [exact Ho'|].
  intros E.
  destruct (X18_chunking_options_text _ _ Ho Ho') as [T _].
  apply T in E. destruct E as (_ & _ & _ & E & _). discriminate E.
Defined.

(** The text does not tell [NaN] from an infinity. *)
Example not_a_number_and_infinity_are_written_alike :
  LoadFile.stringifyChunkingOptions
    (LoadFile.withOverlap LoadFile.NaN (LoadFile.chunkingOptions LoadFile.initial))
  = LoadFile.stringifyChunkingOptions
      (LoadFile.withOverlap (LoadFile.Infinity false)
         (LoadFile.chunkingOptions LoadFile.initial)).
Proof. reflexivity. Qed.

Example default_chunking_options_text :
  LoadFile.stringifyChunkingOptions (LoadFile.chunkingOptions LoadFile.initial)
  = ("{" ++ LoadFile.member "maxCharacters" "4000" ++ "," ++ LoadFile.member "newAfterNChars" "3000"
     ++ "," ++ LoadFile.member "combineTextUnderNChars" "500" ++ ","
     ++ LoadFile.member "overlap" "200" ++ "," ++ LoadFile.member "overlapAll" "false" ++ ","
     ++ LoadFile.member "multiPageSections" "false" ++ "}")%string.
Proof. reflexivity. Qed.
